(** * Geofence violation pipeline: ingestion, notification scan, purge

    A shallow embedding of the Azure Functions of the repository, one
    module per source file:

    - [StoreViolationService]  src/services/StoreViolationService.js
                               (ownership lookup, violation insert)
    - [ProcessGpsData]         src/functions/ProcessGpsData.js
                               (queue-triggered ingestion consumer)
    - [ScanViolations]         the timer-triggered violation scanner
                               (send the owner's e-mail, mark as warned)
    - [PurgeData]              src/functions/purgeData.js
                               (timer-triggered purge of warned violations)
    - [GenerateGpsData]        src/functions/GenerateGpsData.js
                               (HTTP endpoint feeding the queue)

    JavaScript values are a small inductive type, documents of the two
    MongoDB collections are records, and every function of the source is a
    computation in a state-and-exception monad over a [World] that holds the
    collections, the queue, the module-level singletons and a trace of the
    calls made to the outside (drivers, logger, geofence service).  What the
    outside decides (configuration, rejected calls, random draws, the
    geofence) is an [Env] over which every statement is quantified. *)

From Stdlib Require Import List String ZArith QArith Bool Lia DecimalString.
From Stdlib Require DecimalFacts DecimalNat.
Import ListNotations.
Local Open Scope string_scope.
Local Open Scope list_scope.
Local Open Scope nat_scope.

(** ** JavaScript values *)

#[local] Set Warnings "-register-all".

(** Values that travel through queue messages and request bodies.  All of
    them come out of [JSON.parse], so numbers are finite; they are kept as
    rationals (no arithmetic is done on them by the embedded code). *)
Inductive jsval : Type :=
| JUndefined
| JNull
| JBool (b : bool)
| JNum (q : Q)
| JStr (s : string)
| JArr (items : list jsval)
| JObj (fields : list (string * jsval)).

(** [if (v)], [!v], [a || b] *)
Definition truthy (v : jsval) : bool :=
  match v with
  | JUndefined | JNull => false
  | JBool b => b
  | JNum q => negb (Qnum q =? 0)%Z
  | JStr s => negb (String.eqb s "")
  | JArr _ | JObj _ => true
  end.

Definition js_or (a b : jsval) : jsval := if truthy a then a else b.

Fixpoint assoc (k : string) (fs : list (string * jsval)) : option jsval :=
  match fs with
  | [] => None
  | (k', v) :: rest => if String.eqb k' k then Some v else assoc k rest
  end.

(** [o.k] on a value that is neither [null] nor [undefined]: a missing
    property reads as [undefined]. *)
Definition prop (o : jsval) (k : string) : jsval :=
  match o with
  | JObj fs => match assoc k fs with Some v => v | None => JUndefined end
  | _ => JUndefined
  end.

Definition keys (o : jsval) : list string :=
  match o with
  | JObj fs => map fst fs
  | _ => []
  end.

Definition JInt (n : nat) : jsval := JNum (inject_Z (Z.of_nat n)).

(** ** Documents *)

(** A document of [geofence.userVehicles]. *)
Record vehicleUser := {
  vid : string;
  owner_email : string
}.

(** A document of [geofence.violations], as [storeViolation] inserts it and
    [markViolationAsWarned] updates it. *)
Record violation := {
  violationId : string;
  vehicleId : jsval;
  email : string;
  latitude : jsval;
  longitude : jsval;
  timestamp : jsval;
  warningSent : bool;
  created : Z;
  warningSentAt : option Z
}.

(** The argument object of [storeViolation]. *)
Record violationData := {
  vd_vehicleId : jsval;
  vd_email : string;
  vd_latitude : jsval;
  vd_longitude : jsval;
  vd_timestamp : jsval
}.

(** ** Calls to the outside and the trace *)

Inductive level := Info | Warn | Error.

(** Awaited driver calls.  Each one can reject. *)
Inductive op :=
| Connect (connectionString : string)      (* MongoClient.connect() *)
| Ping                                     (* db("admin").command({ ping: 1 }) *)
| Close                                    (* MongoClient.close() *)
| FindOne (vehicle : jsval)                (* userVehicles.findOne({ vid }) *)
| InsertOne (doc : violation)              (* violations.insertOne(doc) *)
| UpdateOne (id : string)                  (* violations.updateOne({ violationId }, $set) *)
| Find                                     (* violations.find({ warningSent: false }).toArray() *)
| CountDocuments (sentOnly : bool)         (* violations.countDocuments(filter) *)
| DeleteMany                               (* violations.deleteMany({ warningSent: true }) *)
| BeginSend (about : violation)            (* EmailClient.beginSend(message) *)
| PollUntilDone (about : violation)        (* poller.pollUntilDone() *)
| SendMessages (body : jsval).             (* ServiceBusSender.sendMessages({ body }) *)

Inductive event :=
| Called (o : op)
| Logged (l : level) (text : string) (args : list jsval)   (* context.log / warn / error *)
| Evaluated (lon lat : jsval).                              (* geofenceService.isWithinGeofence *)

Definition exn := string.

Inductive completion (A : Type) :=
| Return (a : A)
| Throw (e : exn).
Arguments Return {A} a.
Arguments Throw {A} e.

(** ** Environment

    What the code reads from or is told by its surroundings: the process
    environment, the geofence service (a module of the repository that the
    ingestion consumer only calls), the random sources, and for every
    driver call whether it rejects and how long it takes. *)
Record Env := {
  MONGODB_CONNECTION_STRING : option string;
  COMMUNICATION_SERVICES_CONNECTION_STRING : option string;
  SERVICE_BUS_CONNECTION_STRING : option string;
  SERVICE_BUS_QUEUE_NAME : option string;
  isWithinGeofence : jsval -> jsval -> completion jsval;
  randomUUID : nat -> string;              (* n-th value returned by crypto.randomUUID() *)
  random9999 : nat -> nat;                 (* n-th value of Math.floor(Math.random() * 9999) *)
  generateRandomPointsInRadius : jsval -> jsval -> jsval -> jsval -> nat -> jsval;
  toISOString : Z -> string;
  log_has_warn : bool;                     (* does context.log carry a .warn method *)
  fault : op -> option exn;                (* Some m: the call rejects with Error(m) *)
  latency : op -> Z
}.

(** ** World *)

(** The pair of module variables every database module keeps
    ([client]/[mongoClient] and [database]). *)
Record Conn := {
  client : option string;       (* the MongoClient, by its connection string *)
  database : bool               (* database !== null *)
}.

Definition disconnected : Conn := {| client := None; database := false |}.

Record World := {
  violations : list violation;          (* geofence.violations, natural order *)
  userVehicles : list vehicleUser;      (* geofence.userVehicles *)
  queue : list jsval;                   (* bodies sent to the Service Bus queue *)
  trace : list event;
  clock : Z;                            (* milliseconds *)
  drawn : nat;                          (* random values drawn so far *)
  service : Conn;                       (* StoreViolationService.js *)
  scanner : Conn;                       (* violation scanner *)
  emailClient : option string;          (* violation scanner *)
  purge : Conn;                         (* purgeData.js *)
  serviceBusClientInstance : option string;
  serviceBusSenderInstance : option string
}.

Definition set_violations (x : list violation) (w : World) : World :=
  {| violations := x; userVehicles := userVehicles w; queue := queue w;
     trace := trace w; clock := clock w; drawn := drawn w;
     service := service w; scanner := scanner w; emailClient := emailClient w;
     purge := purge w;
     serviceBusClientInstance := serviceBusClientInstance w;
     serviceBusSenderInstance := serviceBusSenderInstance w |}.

Definition set_queue (x : list jsval) (w : World) : World :=
  {| violations := violations w; userVehicles := userVehicles w; queue := x;
     trace := trace w; clock := clock w; drawn := drawn w;
     service := service w; scanner := scanner w; emailClient := emailClient w;
     purge := purge w;
     serviceBusClientInstance := serviceBusClientInstance w;
     serviceBusSenderInstance := serviceBusSenderInstance w |}.

Definition set_trace (x : list event) (w : World) : World :=
  {| violations := violations w; userVehicles := userVehicles w; queue := queue w;
     trace := x; clock := clock w; drawn := drawn w;
     service := service w; scanner := scanner w; emailClient := emailClient w;
     purge := purge w;
     serviceBusClientInstance := serviceBusClientInstance w;
     serviceBusSenderInstance := serviceBusSenderInstance w |}.

Definition set_clock (x : Z) (w : World) : World :=
  {| violations := violations w; userVehicles := userVehicles w; queue := queue w;
     trace := trace w; clock := x; drawn := drawn w;
     service := service w; scanner := scanner w; emailClient := emailClient w;
     purge := purge w;
     serviceBusClientInstance := serviceBusClientInstance w;
     serviceBusSenderInstance := serviceBusSenderInstance w |}.

Definition set_drawn (x : nat) (w : World) : World :=
  {| violations := violations w; userVehicles := userVehicles w; queue := queue w;
     trace := trace w; clock := clock w; drawn := x;
     service := service w; scanner := scanner w; emailClient := emailClient w;
     purge := purge w;
     serviceBusClientInstance := serviceBusClientInstance w;
     serviceBusSenderInstance := serviceBusSenderInstance w |}.

Definition set_service (x : Conn) (w : World) : World :=
  {| violations := violations w; userVehicles := userVehicles w; queue := queue w;
     trace := trace w; clock := clock w; drawn := drawn w;
     service := x; scanner := scanner w; emailClient := emailClient w;
     purge := purge w;
     serviceBusClientInstance := serviceBusClientInstance w;
     serviceBusSenderInstance := serviceBusSenderInstance w |}.

Definition set_scanner (x : Conn) (w : World) : World :=
  {| violations := violations w; userVehicles := userVehicles w; queue := queue w;
     trace := trace w; clock := clock w; drawn := drawn w;
     service := service w; scanner := x; emailClient := emailClient w;
     purge := purge w;
     serviceBusClientInstance := serviceBusClientInstance w;
     serviceBusSenderInstance := serviceBusSenderInstance w |}.

Definition set_emailClient (x : option string) (w : World) : World :=
  {| violations := violations w; userVehicles := userVehicles w; queue := queue w;
     trace := trace w; clock := clock w; drawn := drawn w;
     service := service w; scanner := scanner w; emailClient := x;
     purge := purge w;
     serviceBusClientInstance := serviceBusClientInstance w;
     serviceBusSenderInstance := serviceBusSenderInstance w |}.

Definition set_purge (x : Conn) (w : World) : World :=
  {| violations := violations w; userVehicles := userVehicles w; queue := queue w;
     trace := trace w; clock := clock w; drawn := drawn w;
     service := service w; scanner := scanner w; emailClient := emailClient w;
     purge := x;
     serviceBusClientInstance := serviceBusClientInstance w;
     serviceBusSenderInstance := serviceBusSenderInstance w |}.

Definition set_serviceBusClientInstance (x : option string) (w : World) : World :=
  {| violations := violations w; userVehicles := userVehicles w; queue := queue w;
     trace := trace w; clock := clock w; drawn := drawn w;
     service := service w; scanner := scanner w; emailClient := emailClient w;
     purge := purge w;
     serviceBusClientInstance := x;
     serviceBusSenderInstance := serviceBusSenderInstance w |}.

Definition set_serviceBusSenderInstance (x : option string) (w : World) : World :=
  {| violations := violations w; userVehicles := userVehicles w; queue := queue w;
     trace := trace w; clock := clock w; drawn := drawn w;
     service := service w; scanner := scanner w; emailClient := emailClient w;
     purge := purge w;
     serviceBusClientInstance := serviceBusClientInstance w;
     serviceBusSenderInstance := x |}.

(** ** The monad of the embedded code *)

Definition M (A : Type) : Type := World -> completion A * World.

Definition ret {A} (a : A) : M A := fun w => (Return a, w).

Definition throw {A} (e : exn) : M A := fun w => (Throw e, w).

Definition bind {A B} (m : M A) (k : A -> M B) : M B :=
  fun w =>
    match m w with
    | (Return a, w1) => k a w1
    | (Throw e, w1) => (Throw e, w1)
    end.

Declare Scope js_scope.
Delimit Scope js_scope with js.
Notation "x <- m ;; k" := (bind m (fun x => k))
  (at level 100, m at next level, right associativity) : js_scope.
Notation "m ;; k" := (bind m (fun _ => k))
  (at level 100, right associativity) : js_scope.
Local Open Scope js_scope.

Definition get : M World := fun w => (Return w, w).

Definition modify (f : World -> World) : M unit := fun w => (Return tt, f w).

(** [try { m } catch (e) { h e }] *)
Definition try_catch {A} (m : M A) (h : exn -> M A) : M A :=
  fun w =>
    match m w with
    | (Return a, w1) => (Return a, w1)
    | (Throw e, w1) => h e w1
    end.

(** [try { m } finally { f }]: a throwing [f] replaces the completion of [m]. *)
Definition try_finally {A} (m : M A) (f : M unit) : M A :=
  fun w =>
    match m w with
    | (r, w1) =>
        match f w1 with
        | (Return _, w2) => (r, w2)
        | (Throw e, w2) => (Throw e, w2)
        end
    end.

Definition emit (e : event) : M unit :=
  modify (fun w => set_trace (trace w ++ [e]) w).

Definition context_log (text : string) (args : list jsval) : M unit :=
  emit (Logged Info text args).
Definition context_warn (text : string) (args : list jsval) : M unit :=
  emit (Logged Warn text args).
Definition context_error (text : string) (args : list jsval) : M unit :=
  emit (Logged Error text args).

(** [new Date()] / [Date.now()] *)
Definition Date_now : M Z := fun w => (Return (clock w), w).

(** [!s] for a string read from [process.env]: unset and empty are falsy. *)
Definition configured (x : option string) : option string :=
  match x with
  | Some s => if String.eqb s "" then None else Some s
  | None => None
  end.

Definition null_database : exn :=
  "Cannot read properties of null (reading 'collection')".

Definition not_configured (name : string) : exn :=
  (name ++ " environment variable is not configured")%string.

(** ** Operations of the collections and of the values, as the drivers
    and the language perform them *)

(** The filter [{ vid: vehicleId }]. *)
Definition vid_matches (vehicle : jsval) (u : vehicleUser) : bool :=
  match vehicle with
  | JStr s => String.eqb (vid u) s
  | _ => false
  end.

Definition unsent (v : violation) : bool := negb (warningSent v).


(** [$set: { warningSent: true, warningSentAt: now }] *)
Definition set_warned (now : Z) (d : violation) : violation :=
  {| violationId := violationId d; vehicleId := vehicleId d; email := email d;
     latitude := latitude d; longitude := longitude d; timestamp := timestamp d;
     warningSent := true; created := created d; warningSentAt := Some now |}.

Record UpdateResult := {
  matchedCount : nat;
  modifiedCount : nat
}.

(** Does the [$set] leave the document as it was. *)
Definition already_set (now : Z) (d : violation) : bool :=
  warningSent d &&
  match warningSentAt d with
  | Some t => (t =? now)%Z
  | None => false
  end.

(** [updateOne({ violationId: id }, { $set: ... })]: the first document
    the filter selects is updated. *)
Fixpoint updateOne (id : string) (now : Z) (docs : list violation)
  : list violation * UpdateResult :=
  match docs with
  | [] => ([], {| matchedCount := 0; modifiedCount := 0 |})
  | d :: rest =>
      if String.eqb (violationId d) id then
        (set_warned now d :: rest,
         {| matchedCount := 1; modifiedCount := if already_set now d then 0 else 1 |})
      else
        let '(rest', r) := updateOne id now rest in (d :: rest', r)
  end.

(** [v.toFixed(6)] inside the message template: only numbers have it. *)
Definition toFixed (v : jsval) : M unit :=
  match v with
  | JNum _ => ret tt
  | JUndefined | JNull => throw "Cannot read properties of undefined (reading 'toFixed')"
  | _ => throw "toFixed is not a function"
  end.

(** [const { timestamp, vehicleId, latitude, longitude } = message] *)
Definition destructure (message : jsval) : M (jsval * jsval * jsval * jsval) :=
  match message with
  | JUndefined | JNull => throw "Cannot destructure property 'timestamp' of 'message'"
  | _ => ret (prop message "timestamp", prop message "vehicleId",
              prop message "latitude", prop message "longitude")
  end.

(** What [await request.text()] followed by [JSON.parse] makes of the
    request: no text, text that parses, or a rejection / syntax error. *)
Inductive requestBody :=
| EmptyBody
| JsonBody (v : jsval)
| MalformedBody (parseError : exn).

Inductive httpResponse :=
| Status200 (pointCount radiusKm data : jsval)
| Status500 (error : string).

(** [requestData.k]: reading a property of [null] throws. *)
Definition member (o : jsval) (k : string) : M jsval :=
  match o with
  | JUndefined | JNull => throw "Cannot read properties of null"
  | _ => ret (prop o k)
  end.

Definition string_of_nat (n : nat) : string :=
  NilEmpty.string_of_uint (Nat.to_uint n).

Fixpoint zeros (n : nat) : string :=
  match n with
  | 0 => ""
  | S k => ("0" ++ zeros k)%string
  end.

(** [s.padStart(4, '0')] *)
Definition padStart4 (s : string) : string :=
  (zeros (4 - String.length s) ++ s)%string.

Definition defaultLatitude : jsval := JNum (4539574634172982 # 100000000000000).
Definition defaultLongitude : jsval := JNum (-7574740191869692 # 100000000000000).

Record PurgeReport := {
  purgedCount : nat;
  executionTimeMs : Z
}.

(** The literal the source falls back to (its account key is not repeated here). *)
Definition fallbackConnectionString : string :=
  "mongodb://cst8917comosfinal:<key>@cst8917comosfinal.mongo.cosmos.azure.com:10255/?ssl=true&replicaSet=globaldb&retrywrites=false&maxIdleTimeMS=120000&appName=@cst8917comosfinal@".

Section Host.

Variable env : Env.

(** An awaited driver call: it is recorded, takes its time, and either
    resolves or rejects as the environment says. *)
Definition await (o : op) : M unit :=
  fun w =>
    let w1 := set_clock (clock w + latency env o)%Z (set_trace (trace w ++ [Called o]) w) in
    match fault env o with
    | Some m => (Throw m, w1)
    | None => (Return tt, w1)
    end.

(** [crypto.randomUUID()] *)
Definition crypto_randomUUID : M string :=
  fun w => (Return (randomUUID env (drawn w)), set_drawn (S (drawn w)) w).

End Host.

(** ** src/services/StoreViolationService.js *)

Module StoreViolationService.
Section WithEnv.

Variable env : Env.

(** [process.env.MONGODB_CONNECTION_STRING || "mongodb://..."] *)
Definition connectionString : string :=
  match configured (MONGODB_CONNECTION_STRING env) with
  | Some s => s
  | None => fallbackConnectionString
  end.

(** [getMongoClient] of the service.  Its [console.*] lines go to the
    host's standard output and are not traced; its [catch] rethrows. *)
Definition getMongoClient : M unit :=
  try_catch
    (w <- get ;;
     match client (service w) with
     | None =>
         modify (fun w => set_service {| client := Some connectionString;
                                         database := database (service w) |} w) ;;
         await env (Connect connectionString) ;;
         modify (fun w => set_service {| client := client (service w);
                                         database := true |} w)
     | Some _ => ret tt
     end)
    (fun err => throw err).

Definition findVehicleUser (vehicle : jsval) : M (option vehicleUser) :=
  try_catch
    (getMongoClient ;;
     w <- get ;;
     (if database (service w) then ret tt
      else
        context_error "Database object is null, reinitializing" [] ;;
        modify (fun w => set_service {| client := None;
                                        database := database (service w) |} w) ;;
        getMongoClient ;;
        w' <- get ;;
        if database (service w') then ret tt
        else throw "Failed to initialize database connection") ;;
     context_log "Looking up vehicle ID" [vehicle] ;;
     await env (FindOne vehicle) ;;
     w <- get ;;
     let found := find (vid_matches vehicle) (userVehicles w) in
     match found with
     | Some u => context_log "Found vehicle associated with email" [vehicle; JStr (owner_email u)]
     | None => context_warn "No ownership record found for vehicle" [vehicle]
     end ;;
     ret found)
    (fun error =>
       context_error "Error finding vehicle" [vehicle; JStr error] ;;
       throw error).

Definition storeViolation (violationData : violationData) : M unit :=
  try_catch
    (getMongoClient ;;
     w <- get ;;
     (if database (service w) then ret tt else throw null_database) ;;
     context_log "Storing violation for vehicle" [vd_vehicleId violationData] ;;
     id <- crypto_randomUUID env ;;
     now <- Date_now ;;
     let doc := {| violationId := id;
                   vehicleId := vd_vehicleId violationData;
                   email := vd_email violationData;
                   latitude := vd_latitude violationData;
                   longitude := vd_longitude violationData;
                   timestamp := vd_timestamp violationData;
                   warningSent := false;
                   created := now;
                   warningSentAt := None |} in
     await env (InsertOne doc) ;;
     modify (fun w => set_violations (violations w ++ [doc]) w) ;;
     context_log "Violation stored with violationId" [JStr id])
    (fun error =>
       context_error "Error storing violation" [JStr error] ;;
       throw error).


End WithEnv.
End StoreViolationService.

(** ** services/GeofenceService

    The module [ProcessGpsData.js] requires for the containment test.  The
    test is a parameter of the development: it answers what the
    environment says, and calling it is recorded in the trace. *)

Module GeofenceService.
Section WithEnv.

Variable env : Env.

(** [geofenceService.isWithinGeofence(longitude, latitude)] *)
Definition isWithinGeofence (lon lat : jsval) : M jsval :=
  emit (Evaluated lon lat) ;;
  match isWithinGeofence env lon lat with
  | Return v => ret v
  | Throw e => throw e
  end.

End WithEnv.
End GeofenceService.

(** ** src/functions/ProcessGpsData.js *)

Module ProcessGpsData.
Section WithEnv.

Variable env : Env.

(** The handler registered as [processGpsData]. *)
Definition handler (message : jsval) : M unit :=
  try_catch
    (fields <- destructure message ;;
     let '(timestamp, vehicleId, latitude, longitude) := fields in
     context_log "Processing GPS data" [vehicleId; timestamp; latitude; longitude] ;;
     isInside <- GeofenceService.isWithinGeofence env longitude latitude ;;
     if truthy isInside then
       context_log "Vehicle is INSIDE the geofence" [vehicleId; latitude; longitude]
     else
       context_warn "Vehicle is OUTSIDE the geofence" [vehicleId; latitude; longitude] ;;
       try_catch
         (vehicleRecord <- StoreViolationService.findVehicleUser env vehicleId ;;
          match vehicleRecord with
          | Some r =>
              StoreViolationService.storeViolation env
                {| vd_vehicleId := vehicleId;
                   vd_email := owner_email r;
                   vd_latitude := latitude;
                   vd_longitude := longitude;
                   vd_timestamp := timestamp |} ;;
              context_log "Violation for vehicle stored successfully" [vehicleId]
          | None =>
              context_warn "Cannot record violation: No owner found for vehicle" [vehicleId]
          end)
         (fun dbError =>
            context_error "Database operation failed" [JStr dbError]))
    (fun error =>
       context_error "Error processing message" [JStr error] ;;
       throw error).

End WithEnv.
End ProcessGpsData.

(** ** The violation scanner (timer trigger [scanViolations]) *)

Module ScanViolations.
Section WithEnv.

Variable env : Env.

Definition getMongoClient : M unit :=
  w <- get ;;
  match client (scanner w) with
  | None =>
      match configured (MONGODB_CONNECTION_STRING env) with
      | None => throw (not_configured "MONGODB_CONNECTION_STRING")
      | Some connectionString =>
          modify (fun w => set_scanner {| client := Some connectionString;
                                          database := database (scanner w) |} w) ;;
          await env (Connect connectionString) ;;
          modify (fun w => set_scanner {| client := client (scanner w);
                                          database := true |} w)
      end
  | Some _ => ret tt
  end.

Definition getEmailClient : M unit :=
  w <- get ;;
  match emailClient w with
  | None =>
      match configured (COMMUNICATION_SERVICES_CONNECTION_STRING env) with
      | None => throw (not_configured "COMMUNICATION_SERVICES_CONNECTION_STRING")
      | Some connectionString => modify (set_emailClient (Some connectionString))
      end
  | Some _ => ret tt
  end.

Definition sendViolationEmail (v : violation) : M unit :=
  getEmailClient ;;
  context_log "Preparing to send violation email" [JStr (email v); vehicleId v] ;;
  toFixed (latitude v) ;;
  toFixed (longitude v) ;;
  try_catch
    (context_log "Sending email" [JStr (email v)] ;;
     await env (BeginSend v) ;;
     await env (PollUntilDone v) ;;
     context_log "Email sent successfully" [JStr (email v)])
    (fun error =>
       context_error "Failed to send email" [JStr (email v); JStr error] ;;
       throw error).

Definition markViolationAsWarned (id : string) : M UpdateResult :=
  try_catch
    (getMongoClient ;;
     w <- get ;;
     (if database (scanner w) then ret tt else throw null_database) ;;
     now <- Date_now ;;
     await env (UpdateOne id) ;;
     w <- get ;;
     let '(docs, result) := updateOne id now (violations w) in
     modify (set_violations docs) ;;
     context_log "Updated violation record"
       [JStr id; JInt (matchedCount result); JInt (modifiedCount result)] ;;
     ret result)
    (fun error =>
       context_error "Failed to update violation record" [JStr id; JStr error] ;;
       throw error).

Definition getUnsentViolations : M (list violation) :=
  try_catch
    (getMongoClient ;;
     w <- get ;;
     (if database (scanner w) then ret tt else throw null_database) ;;
     await env Find ;;
     w <- get ;;
     let found := filter unsent (violations w) in
     context_log "Found violations with unsent warnings" [JInt (List.length found)] ;;
     ret found)
    (fun error =>
       context_error "Failed to fetch unsent violations" [JStr error] ;;
       throw error).

Definition cleanupResources : M unit :=
  w <- get ;;
  match client (scanner w) with
  | Some _ =>
      await env Close ;;
      modify (set_scanner disconnected)
  | None => ret tt
  end.

(** The body of the [for (const violation of violations)] loop: [true]
    when it reached [successCount++], [false] when its [catch] ran. *)
Definition processViolation (v : violation) : M bool :=
  try_catch
    (context_log "Processing violation" [JStr (violationId v); vehicleId v] ;;
     sendViolationEmail v ;;
     markViolationAsWarned (violationId v) ;;
     ret true)
    (fun error =>
       context_error "Error processing violation" [JStr (violationId v); JStr error] ;;
       ret false).

Fixpoint processViolations (vs : list violation) (successCount failCount : nat)
  : M (nat * nat) :=
  match vs with
  | [] => ret (successCount, failCount)
  | v :: rest =>
      ok <- processViolation v ;;
      if ok then processViolations rest (S successCount) failCount
      else processViolations rest successCount (S failCount)
  end.

(** The handler registered as [scanViolations]. *)
Definition handler : M unit :=
  context_log "Violation scanner timer trigger function started" [] ;;
  try_finally
    (try_catch
       (found <- getUnsentViolations ;;
        match found with
        | [] => context_log "No new violations to process" []
        | _ :: _ =>
            counts <- processViolations found 0 0 ;;
            context_log "Violation processing completed"
              [JInt (fst counts); JInt (snd counts)]
        end)
       (fun error =>
          context_error "Function execution failed" [JStr error] ;;
          throw error))
    cleanupResources.

End WithEnv.
End ScanViolations.

(** ** src/functions/purgeData.js *)

Module PurgeData.
Section WithEnv.

Variable env : Env.

Definition getMongoClient : M unit :=
  w <- get ;;
  if match client (purge w) with
     | Some _ => database (purge w)
     | None => false
     end
  then ret tt
  else
    match configured (MONGODB_CONNECTION_STRING env) with
    | None => throw (not_configured "MONGODB_CONNECTION_STRING")
    | Some connectionString =>
        modify (fun w => set_purge {| client := Some connectionString;
                                      database := database (purge w) |} w) ;;
        await env (Connect connectionString) ;;
        await env Ping ;;
        modify (fun w => set_purge {| client := client (purge w);
                                      database := true |} w)
    end.

(** [collection.countDocuments({ warningSent: true })] and
    [collection.countDocuments()] *)
Definition countDocuments (sentOnly : bool) : M nat :=
  await env (CountDocuments sentOnly) ;;
  w <- get ;;
  ret (List.length (if sentOnly then filter warningSent (violations w) else violations w)).

(** Returns [result.deletedCount]. *)
Definition purgeProcessedViolations : M nat :=
  try_catch
    (getMongoClient ;;
     w <- get ;;
     (if database (purge w) then ret tt
      else throw "Database connection not initialized") ;;
     countBefore <- countDocuments true ;;
     context_log "Found processed violations to purge" [JInt countBefore] ;;
     if Nat.eqb countBefore 0 then ret 0
     else
       await env DeleteMany ;;
       w <- get ;;
       let deletedCount := List.length (filter warningSent (violations w)) in
       modify (fun w => set_violations (filter unsent (violations w)) w) ;;
       context_log "Purged processed violations" [JInt deletedCount] ;;
       ret deletedCount)
    (fun error =>
       context_error "Failed to purge processed violations" [JStr error] ;;
       throw error).

Definition cleanupResources : M unit :=
  w <- get ;;
  match client (purge w) with
  | Some _ =>
      try_finally
        (try_catch (await env Close) (fun err => ret tt))
        (modify (set_purge disconnected))
  | None => ret tt
  end.

(** The handler registered as [purgeProcessedViolations] (the timer).
    The invocation id that the first log line also prints is left out. *)
Definition handler : M PurgeReport :=
  now <- Date_now ;;
  let timeStamp := toISOString env now in
  context_log "Purge data function executed" [JStr timeStamp] ;;
  try_finally
    (try_catch
       (startTime <- Date_now ;;
        getMongoClient ;;
        countBeforePurge <- countDocuments false ;;
        deletedCount <- purgeProcessedViolations ;;
        countAfterPurge <- countDocuments false ;;
        endTime <- Date_now ;;
        let elapsed := (endTime - startTime)%Z in
        context_log "Purge operation completed successfully"
          [JInt countBeforePurge; JInt countAfterPurge; JInt deletedCount;
           JNum (inject_Z elapsed); JStr timeStamp] ;;
        ret {| purgedCount := deletedCount; executionTimeMs := elapsed |})
       (fun error =>
          context_error "Error during purge operation" [JStr error] ;;
          throw error))
    cleanupResources.

End WithEnv.
End PurgeData.

(** ** src/functions/GenerateGpsData.js *)

Module GenerateGpsData.
Section WithEnv.

Variable env : Env.

Definition getServiceBusClient : M unit :=
  w <- get ;;
  match serviceBusClientInstance w with
  | None =>
      match configured (SERVICE_BUS_CONNECTION_STRING env) with
      | None => throw (not_configured "SERVICE_BUS_CONNECTION_STRING")
      | Some connectionString =>
          modify (set_serviceBusClientInstance (Some connectionString))
      end
  | Some _ => ret tt
  end.

Definition getServiceBusSender (queueName : string) : M unit :=
  w <- get ;;
  match serviceBusSenderInstance w with
  | None =>
      getServiceBusClient ;;
      modify (set_serviceBusSenderInstance (Some queueName))
  | Some _ => ret tt
  end.

(** The handler registered as [generateGpsPoints]. *)
Definition handler (request : requestBody) : M httpResponse :=
  context_log "Processing request to generate GPS points" [] ;;
  try_catch
    (requestData <-
       try_catch
         (match request with
          | EmptyBody => ret (JObj [])
          | JsonBody v => ret v
          | MalformedBody parseError => throw parseError
          end)
         (fun parseError =>
            if log_has_warn env then
              context_warn "Failed to parse request body, using defaults" [JStr parseError] ;;
              ret (JObj [])
            else throw "context.log.warn is not a function") ;;
     lat <- member requestData "latitude" ;;
     lng <- member requestData "longitude" ;;
     radius <- member requestData "radiusKm" ;;
     count <- member requestData "pointCount" ;;
     let centerLat := js_or lat defaultLatitude in
     let centerLng := js_or lng defaultLongitude in
     let radiusKm := js_or radius (JInt 20) in
     let pointCount := js_or count (JInt 100) in
     w <- get ;;
     let gpsPoints :=
       generateRandomPointsInRadius env centerLat centerLng radiusKm pointCount (drawn w) in
     modify (set_drawn (S (drawn w))) ;;
     let queueName :=
       match configured (SERVICE_BUS_QUEUE_NAME env) with
       | Some q => q
       | None => "gps"
       end in
     try_catch
       (getServiceBusSender queueName ;;
        now <- Date_now ;;
        w <- get ;;
        let n := random9999 env (drawn w) in
        modify (set_drawn (S (drawn w))) ;;
        let message :=
          JObj [("timestamp", JStr (toISOString env now));
                ("vehicleId", JStr (padStart4 (string_of_nat (n + 1))));
                ("center", JObj [("latitude", centerLat); ("longitude", centerLng)]);
                ("radiusKm", radiusKm);
                ("points", gpsPoints)] in
        await env (SendMessages message) ;;
        modify (fun w => set_queue (queue w ++ [message]) w) ;;
        context_log "Message sent to Service Bus queue:" [JStr queueName] ;;
        ret (Status200 pointCount radiusKm message))
       (fun sbError => throw ("Service Bus error: " ++ sbError)%string))
    (fun error =>
       context_error "Error processing request:" [JStr error] ;;
       ret (Status500 ("Failed to process request: " ++ error)%string)).

End WithEnv.
End GenerateGpsData.

(** * Vocabulary of the properties *)

(** The collections, the queue and the random sources are as before. *)
Definition same_store (w w' : World) : Prop :=
  violations w' = violations w /\
  userVehicles w' = userVehicles w /\
  queue w' = queue w /\
  drawn w' = drawn w.

(** The trace only grows. *)
Definition extends (w w' : World) : Prop :=
  exists es, trace w' = trace w ++ es.

Definition connected (c : Conn) : Prop :=
  client c <> None /\ database c = true.

(** The document [StoreViolationService.storeViolation] builds. *)
Definition violation_of (d : violationData) (id : string) (now : Z) : violation :=
  {| violationId := id;
     vehicleId := vd_vehicleId d;
     email := vd_email d;
     latitude := vd_latitude d;
     longitude := vd_longitude d;
     timestamp := vd_timestamp d;
     warningSent := false;
     created := now;
     warningSentAt := None |}.

(** The world in which the handler enters its [else] branch. *)
Definition detected (fields : list (string * jsval)) (w : World) : World :=
  let message := JObj fields in
  let vehicle := prop message "vehicleId" in
  let lat := prop message "latitude" in
  let lon := prop message "longitude" in
  set_trace
    (((trace w ++ [Logged Info "Processing GPS data" [vehicle; prop message "timestamp"; lat; lon]])
        ++ [Evaluated lon lat])
       ++ [Logged Warn "Vehicle is OUTSIDE the geofence" [vehicle; lat; lon]]) w.

(** The inner [try]/[catch] of the handler. *)
Definition record_violation (env : Env) (fields : list (string * jsval)) : M unit :=
  let message := JObj fields in
  try_catch
    (vehicleRecord <- StoreViolationService.findVehicleUser env (prop message "vehicleId") ;;
     match vehicleRecord with
     | Some r =>
         StoreViolationService.storeViolation env {| vd_vehicleId := prop message "vehicleId";
                               vd_email := owner_email r;
                               vd_latitude := prop message "latitude";
                               vd_longitude := prop message "longitude";
                               vd_timestamp := prop message "timestamp" |} ;;
         context_log "Violation for vehicle stored successfully" [prop message "vehicleId"]
     | None =>
         context_warn "Cannot record violation: No owner found for vehicle"
           [prop message "vehicleId"]
     end)
    (fun dbError => context_error "Database operation failed" [JStr dbError]).

(** What the scanner and the sweeper look at: identifier and state. *)
Definition status (docs : list violation) : list (string * bool) :=
  map (fun d => (violationId d, warningSent d)) docs.

(** The state after the documents named in [ids] have been marked. *)
Definition status_after (ids : list string) (st : list (string * bool))
  : list (string * bool) :=
  map (fun p => (fst p, snd p || existsb (String.eqb (fst p)) ids)) st.

Definition is_number (v : jsval) : bool :=
  match v with
  | JNum _ => true
  | _ => false
  end.

Definition resolves (env : Env) (o : op) : bool :=
  match fault env o with
  | None => true
  | Some _ => false
  end.

(** Can an e-mail client be had: one exists, or its connection string is
    configured. *)
Definition email_ready (env : Env) (w : World) : bool :=
  match emailClient w with
  | Some _ => true
  | None =>
      match configured (COMMUNICATION_SERVICES_CONNECTION_STRING env) with
      | Some _ => true
      | None => false
      end
  end.

(** The e-mail about [v] goes out. *)
Definition delivered (env : Env) (ready : bool) (v : violation) : bool :=
  ready && is_number (latitude v) && is_number (longitude v) &&
  resolves env (BeginSend v) && resolves env (PollUntilDone v).

(** The e-mail goes out and the update is acknowledged. *)
Definition notified (env : Env) (ready : bool) (v : violation) : bool :=
  delivered env ready v && resolves env (UpdateOne (violationId v)).

(** The scanner can reach the store: its client is up, or it has none yet
    and can make one. *)
Definition scanner_usable (env : Env) (w : World) : Prop :=
  connected (scanner w) \/
  (client (scanner w) = None /\
   exists cs, configured (MONGODB_CONNECTION_STRING env) = Some cs /\
              fault env (Connect cs) = None).

(** The computation relates every world to the one it ends in. *)
Definition keeps (R : World -> World -> Prop) {A} (m : M A) : Prop :=
  forall w, R w (snd (m w)).

(** The sweeper's relation: the collection is as it was, or it is its
    unsent documents. *)
Definition swept (w w' : World) : Prop :=
  violations w' = violations w \/
  violations w' = filter unsent (violations w).

(** A message body as the generator builds it: five properties, none of
    them a coordinate, so that the consumer handed this body logs and
    evaluates [undefined] coordinates. *)
Definition coordinate_free (body : jsval) : Prop :=
  keys body = ["timestamp"; "vehicleId"; "center"; "radiusKm"; "points"] /\
  prop body "latitude" = JUndefined /\
  prop body "longitude" = JUndefined /\
  forall env w,
  exists rest,
    trace (snd (ProcessGpsData.handler env body w)) =
    trace w ++
      Logged Info "Processing GPS data"
        [prop body "vehicleId"; prop body "timestamp"; JUndefined; JUndefined]
      :: Evaluated JUndefined JUndefined
      :: rest.

(** The generator's relation: the queue grew by such bodies only. *)
Definition enqueued (w w' : World) : Prop :=
  exists bodies, queue w' = queue w ++ bodies /\ Forall coordinate_free bodies.


(** The module variables of the service after a [connect()] that was
    rejected: the client is assigned, the database is not. *)
Definition half_initialised (c : Conn) : Prop :=
  client c <> None /\ database c = false.

(** [d'] is [d] itself or [d] marked as warned. *)
Definition marked_or_same (d d' : violation) : Prop :=
  d' = d \/ exists now, d' = set_warned now d.

(** The scanner's relation: document by document the collection is as it
    was or marked, and the ownership collection is as it was. *)
Definition only_marks (w w' : World) : Prop :=
  Forall2 marked_or_same (violations w) (violations w') /\
  userVehicles w' = userVehicles w.

(** The trace grew, and every e-mail begun meanwhile is about a violation
    in [S]. *)
Definition sends_only (S : violation -> Prop) (w w' : World) : Prop :=
  exists es,
    trace w' = trace w ++ es /\
    forall v, In (Called (BeginSend v)) es -> S v.

(** A client once assigned is still assigned. *)
Definition client_kept (w w' : World) : Prop :=
  client (scanner w) <> None -> client (scanner w') <> None.

(** The [try]/[catch] of the scanner's handler, which its [finally]
    follows. *)
Definition scan_body (env : Env) : M unit :=
  try_catch
    (found <- ScanViolations.getUnsentViolations env ;;
     match found with
     | [] => context_log "No new violations to process" []
     | _ :: _ =>
         counts <- ScanViolations.processViolations env found 0 0 ;;
         context_log "Violation processing completed"
           [JInt (fst counts); JInt (snd counts)]
     end)
    (fun error =>
       context_error "Function execution failed" [JStr error] ;;
       throw error).

(** The world in which the scanner's handler enters its [try]. *)
Definition scan_started (w : World) : World :=
  set_trace (trace w ++ [Logged Info "Violation scanner timer trigger function started" []]) w.

(** The trace grew, and by driver calls in [P] only. *)
Definition calls_only (P : op -> Prop) (w w' : World) : Prop :=
  exists es, trace w' = trace w ++ es /\ forall o, In (Called o) es -> P o.

(** The driver calls that the sweeper's code contains. *)
Definition sweeper_op (o : op) : Prop :=
  match o with
  | Connect _ | Ping | CountDocuments _ | DeleteMany | Close => True
  | _ => False
  end.

(** The driver calls of a run that notifies nobody. *)
Definition no_notification (o : op) : Prop :=
  match o with
  | BeginSend _ | PollUntilDone _ | UpdateOne _ => False
  | _ => True
  end.

(** The stages of the generator's handler: the request body is read, *)
Definition request_data (env : Env) (request : requestBody) : M jsval :=
  try_catch
    (match request with
     | EmptyBody => ret (JObj [])
     | JsonBody v => ret v
     | MalformedBody parseError => throw parseError
     end)
    (fun parseError =>
       if log_has_warn env then
         context_warn "Failed to parse request body, using defaults" [JStr parseError] ;;
         ret (JObj [])
       else throw "context.log.warn is not a function").

(** the message is built and sent in the inner [try], *)
Definition send_message (env : Env)
    (centerLat centerLng radiusKm pointCount gpsPoints : jsval) (queueName : string)
  : M httpResponse :=
  try_catch
    (GenerateGpsData.getServiceBusSender env queueName ;;
     now <- Date_now ;;
     w <- get ;;
     let n := random9999 env (drawn w) in
     modify (set_drawn (S (drawn w))) ;;
     let message :=
       JObj [("timestamp", JStr (toISOString env now));
             ("vehicleId", JStr (padStart4 (string_of_nat (n + 1))));
             ("center", JObj [("latitude", centerLat); ("longitude", centerLng)]);
             ("radiusKm", radiusKm);
             ("points", gpsPoints)] in
     await env (SendMessages message) ;;
     modify (fun w => set_queue (queue w ++ [message]) w) ;;
     context_log "Message sent to Service Bus queue:" [JStr queueName] ;;
     ret (Status200 pointCount radiusKm message))
    (fun sbError => throw ("Service Bus error: " ++ sbError)%string).

(** [process.env.SERVICE_BUS_QUEUE_NAME || "gps"] *)
Definition queue_name (env : Env) : string :=
  match configured (SERVICE_BUS_QUEUE_NAME env) with
  | Some q => q
  | None => "gps"
  end.

(** and between the two the parameters are chosen and the points drawn. *)
Definition generate (env : Env) (requestData : jsval) : M httpResponse :=
  lat <- member requestData "latitude" ;;
  lng <- member requestData "longitude" ;;
  radius <- member requestData "radiusKm" ;;
  count <- member requestData "pointCount" ;;
  let centerLat := js_or lat defaultLatitude in
  let centerLng := js_or lng defaultLongitude in
  let radiusKm := js_or radius (JInt 20) in
  let pointCount := js_or count (JInt 100) in
  w <- get ;;
  let gpsPoints :=
    generateRandomPointsInRadius env centerLat centerLng radiusKm pointCount (drawn w) in
  modify (set_drawn (S (drawn w))) ;;
  send_message env centerLat centerLng radiusKm pointCount gpsPoints (queue_name env).



(** [f] reads the same in both worlds. *)
Definition same {X} (f : World -> X) (w w' : World) : Prop := f w' = f w.

(** * Sample environment and worlds *)

Fixpoint tally (n : nat) : string :=
  match n with
  | 0 => "uuid-"
  | S k => (tally k ++ "i")%string
  end.

(** Everything configured, every driver call resolves after one
    millisecond, and the geofence service answers [fence]. *)
Definition sample_env (fence : jsval) : Env :=
  {| MONGODB_CONNECTION_STRING := Some "mongodb://localhost:27017";
     COMMUNICATION_SERVICES_CONNECTION_STRING := Some "endpoint=https://acs.example";
     SERVICE_BUS_CONNECTION_STRING := Some "Endpoint=sb://bus.example";
     SERVICE_BUS_QUEUE_NAME := None;
     isWithinGeofence := fun _ _ => Return fence;
     randomUUID := tally;
     random9999 := fun _ => 41;
     generateRandomPointsInRadius := fun _ _ _ _ _ => JArr [];
     toISOString := fun _ => "2025-01-01T00:00:00.000Z";
     log_has_warn := false;
     fault := fun _ => None;
     latency := fun _ => 1%Z |}.

Definition with_fault (f : op -> option exn) (e : Env) : Env :=
  {| MONGODB_CONNECTION_STRING := MONGODB_CONNECTION_STRING e;
     COMMUNICATION_SERVICES_CONNECTION_STRING := COMMUNICATION_SERVICES_CONNECTION_STRING e;
     SERVICE_BUS_CONNECTION_STRING := SERVICE_BUS_CONNECTION_STRING e;
     SERVICE_BUS_QUEUE_NAME := SERVICE_BUS_QUEUE_NAME e;
     isWithinGeofence := isWithinGeofence e;
     randomUUID := randomUUID e;
     random9999 := random9999 e;
     generateRandomPointsInRadius := generateRandomPointsInRadius e;
     toISOString := toISOString e;
     log_has_warn := log_has_warn e;
     fault := f;
     latency := latency e |}.

Definition without_mongodb_configuration (e : Env) : Env :=
  {| MONGODB_CONNECTION_STRING := None;
     COMMUNICATION_SERVICES_CONNECTION_STRING := COMMUNICATION_SERVICES_CONNECTION_STRING e;
     SERVICE_BUS_CONNECTION_STRING := SERVICE_BUS_CONNECTION_STRING e;
     SERVICE_BUS_QUEUE_NAME := SERVICE_BUS_QUEUE_NAME e;
     isWithinGeofence := isWithinGeofence e;
     randomUUID := randomUUID e;
     random9999 := random9999 e;
     generateRandomPointsInRadius := generateRandomPointsInRadius e;
     toISOString := toISOString e;
     log_has_warn := log_has_warn e;
     fault := fault e;
     latency := latency e |}.

(** A freshly started process holding the given collections. *)
Definition fresh_world (vs : list violation) (us : list vehicleUser) : World :=
  {| violations := vs; userVehicles := us; queue := []; trace := [];
     clock := 1000; drawn := 0;
     service := disconnected; scanner := disconnected; emailClient := None;
     purge := disconnected;
     serviceBusClientInstance := None; serviceBusSenderInstance := None |}.

Definition registry : list vehicleUser := [{| vid := "V1"; owner_email := "a@x.com" |}].

(** The fix of the scenario: vehicle V1 at (50, 50). *)
Definition fix_of (vehicle : string) : jsval :=
  JObj [("timestamp", JStr "2025-01-01T00:00:00.000Z");
        ("vehicleId", JStr vehicle);
        ("latitude", JNum (50 # 1));
        ("longitude", JNum (50 # 1))].

Definition sample_violation (id : string) (sent : bool) : violation :=
  {| violationId := id; vehicleId := JStr "V1"; email := "a@x.com";
     latitude := JNum (50 # 1); longitude := JNum (50 # 1);
     timestamp := JStr "2025-01-01T00:00:00.000Z";
     warningSent := sent; created := 900;
     warningSentAt := if sent then Some 950%Z else None |}.

Definition lookup_rejects (o : op) : option exn :=
  match o with
  | FindOne _ => Some "connection reset"
  | _ => None
  end.

Definition insert_rejects (o : op) : option exn :=
  match o with
  | InsertOne _ => Some "write timed out"
  | _ => None
  end.

(** The notifier fails on the record named ["v2"]. *)
Definition notifier_rejects_v2 (o : op) : option exn :=
  match o with
  | BeginSend v => if String.eqb (violationId v) "v2" then Some "send failed" else None
  | _ => None
  end.

Definition three_unsent : World :=
  fresh_world [sample_violation "v1" false;
               sample_violation "v2" false;
               sample_violation "v3" false] registry.

(** Five marked and two unmarked documents. *)
Definition five_sent_two_unsent : World :=
  fresh_world [sample_violation "s1" true; sample_violation "u1" false;
               sample_violation "s2" true; sample_violation "s3" true;
               sample_violation "u2" false; sample_violation "s4" true;
               sample_violation "s5" true] registry.


Definition connect_rejects (o : op) : option exn :=
  match o with
  | Connect _ => Some "server selection timed out"
  | _ => None
  end.

(** A violation as the consumer stores it for a fix without coordinates. *)
Definition violation_without_coordinates : violation :=
  {| violationId := "v0"; vehicleId := JStr "0042"; email := "a@x.com";
     latitude := JUndefined; longitude := JUndefined;
     timestamp := JStr "2025-01-01T00:00:00.000Z";
     warningSent := false; created := 900; warningSentAt := None |}.

Definition update_rejects (o : op) : option exn :=
  match o with
  | UpdateOne _ => Some "write conflict"
  | _ => None
  end.

Definition close_rejects (o : op) : option exn :=
  match o with
  | Close => Some "socket closed"
  | _ => None
  end.

Definition delete_rejects (o : op) : option exn :=
  match o with
  | DeleteMany => Some "not primary"
  | _ => None
  end.

Definition without_email_configuration (e : Env) : Env :=
  {| MONGODB_CONNECTION_STRING := MONGODB_CONNECTION_STRING e;
     COMMUNICATION_SERVICES_CONNECTION_STRING := None;
     SERVICE_BUS_CONNECTION_STRING := SERVICE_BUS_CONNECTION_STRING e;
     SERVICE_BUS_QUEUE_NAME := SERVICE_BUS_QUEUE_NAME e;
     isWithinGeofence := isWithinGeofence e;
     randomUUID := randomUUID e;
     random9999 := random9999 e;
     generateRandomPointsInRadius := generateRandomPointsInRadius e;
     toISOString := toISOString e;
     log_has_warn := log_has_warn e;
     fault := fault e;
     latency := latency e |}.


(** * Properties *)

(** ** Tactics *)

(** Reduction of the monad's plumbing and of world updates, leaving the
    functions of the source and the values they handle folded. *)
Ltac js_run :=
  cbv beta iota zeta delta
      [bind ret throw get modify try_catch try_finally emit
       context_log context_warn context_error Date_now crypto_randomUUID
       set_violations set_queue set_trace set_clock set_drawn set_service
       set_scanner set_emailClient set_purge
       set_serviceBusClientInstance set_serviceBusSenderInstance disconnected];
  cbn [fst snd
       violations userVehicles queue trace clock drawn service scanner
       emailClient purge serviceBusClientInstance serviceBusSenderInstance
       client database].

(** Case analysis on what the environment and the module singletons
    decide. *)
Ltac js_cases :=
  repeat (js_run;
          match goal with
          | |- context [match fault ?e ?o with _ => _ end] => destruct (fault e o) eqn:?
          | |- context [match client ?c with _ => _ end] => destruct (client c) eqn:?
          | |- context [if database ?c then _ else _] => destruct (database c) eqn:?
          | |- context [match emailClient ?w with _ => _ end] => destruct (emailClient w) eqn:?
          | |- context [match configured ?x with _ => _ end] => destruct (configured x) eqn:?
          | |- context [match find ?f ?l with _ => _ end] => destruct (find f l) eqn:?
          end);
  js_run.

(** Case analysis for the sweeper, which also branches on the count. *)
Ltac purge_cases :=
  repeat (js_run;
          match goal with
          | |- context [match fault ?e ?o with _ => _ end] => destruct (fault e o) eqn:?
          | |- context [match client ?c with _ => _ end] => destruct (client c) eqn:?
          | |- context [if database ?c then _ else _] => destruct (database c) eqn:?
          | |- context [match configured ?x with _ => _ end] => destruct (configured x) eqn:?
          | |- context [if Nat.eqb ?n 0 then _ else _] => destruct (Nat.eqb_spec n 0)
          end);
  js_run.

(** ** Running computations *)

Lemma extends_refl w : extends w w.
Proof. exists []. now rewrite app_nil_r. Qed.

Lemma extends_trans w1 w2 w3 : extends w1 w2 -> extends w2 w3 -> extends w1 w3.
Proof.
  intros [a Ha] [b Hb]. exists (a ++ b). now rewrite Hb, Ha, app_assoc.
Qed.

(** *** The service *)

Lemma findVehicleUser_spec env vehicle w :
  same_store w (snd (StoreViolationService.findVehicleUser env vehicle w)) /\
  match fst (StoreViolationService.findVehicleUser env vehicle w) with
  | Return found =>
      found = find (vid_matches vehicle) (userVehicles w) /\
      connected (service (snd (StoreViolationService.findVehicleUser env vehicle w))) /\
      exists pre,
        trace (snd (StoreViolationService.findVehicleUser env vehicle w)) =
        pre ++ [match found with
                | Some u => Logged Info "Found vehicle associated with email"
                              [vehicle; JStr (owner_email u)]
                | None => Logged Warn "No ownership record found for vehicle" [vehicle]
                end]
  | Throw _ => True
  end.
Proof.
  destruct (StoreViolationService.findVehicleUser env vehicle w) as [r w'] eqn:E. revert E.
  unfold StoreViolationService.findVehicleUser, StoreViolationService.getMongoClient, await, connected.
  js_cases; intros E; injection E as <- <-; js_run;
    (split; [now repeat split | ]); try exact I.
  all: repeat split; try congruence; eexists; reflexivity.
Qed.

Lemma findVehicleUser_resolves env vehicle w :
  fault env (Connect (StoreViolationService.connectionString env)) = None ->
  fault env (FindOne vehicle) = None ->
  fst (StoreViolationService.findVehicleUser env vehicle w) = Return (find (vid_matches vehicle) (userVehicles w)).
Proof.
  intros Hc Hf.
  unfold StoreViolationService.findVehicleUser, StoreViolationService.getMongoClient, await.
  js_cases; first [reflexivity | congruence].
Qed.

Lemma storeViolation_spec env d w :
  userVehicles (snd (StoreViolationService.storeViolation env d w)) = userVehicles w /\
  match fst (StoreViolationService.storeViolation env d w) with
  | Return _ =>
      exists now,
        violations (snd (StoreViolationService.storeViolation env d w)) =
          violations w ++ [violation_of d (randomUUID env (drawn w)) now] /\
        drawn (snd (StoreViolationService.storeViolation env d w)) = S (drawn w)
  | Throw _ => violations (snd (StoreViolationService.storeViolation env d w)) = violations w
  end.
Proof.
  destruct (StoreViolationService.storeViolation env d w) as [r w'] eqn:E. revert E.
  unfold StoreViolationService.storeViolation, StoreViolationService.getMongoClient, await.
  js_cases; intros E; injection E as <- <-; js_run;
    (split; [reflexivity | ]); try reflexivity.
  all: eexists; split; reflexivity.
Qed.

Lemma storeViolation_inserts env d w :
  connected (service w) ->
  (forall doc, fault env (InsertOne doc) = None) ->
  fst (StoreViolationService.storeViolation env d w) = Return tt.
Proof.
  intros [Hc Hd] Hf.
  unfold StoreViolationService.storeViolation, StoreViolationService.getMongoClient, await.
  js_cases; first [reflexivity | congruence | rewrite Hf in *; congruence].
Qed.

(** *** The ingestion handler outside the geofence *)

Lemma record_violation_returns env fields w :
  fst (record_violation env fields w) = Return tt.
Proof.
  unfold record_violation. js_run.
  destruct (StoreViolationService.findVehicleUser env _ w) as [[[r|]|e] w1]; js_run; try reflexivity.
  destruct (StoreViolationService.storeViolation env _ w1) as [[[]|e] w2]; reflexivity.
Qed.

Lemma processGpsData_outside env fields w v :
  isWithinGeofence env (prop (JObj fields) "longitude") (prop (JObj fields) "latitude")
    = Return v ->
  truthy v = false ->
  ProcessGpsData.handler env (JObj fields) w = record_violation env fields (detected fields w).
Proof.
  intros Hv Ht.
  unfold ProcessGpsData.handler, destructure, GeofenceService.isWithinGeofence,
    record_violation, detected.
  js_run. rewrite Hv. js_run. rewrite Ht. js_run.
  match goal with |- context [StoreViolationService.findVehicleUser env ?a ?b] =>
    destruct (StoreViolationService.findVehicleUser env a b) as [[[r|]|e] w1] end; js_run; try reflexivity.
  match goal with |- context [StoreViolationService.storeViolation env ?a ?b] =>
    destruct (StoreViolationService.storeViolation env a b) as [[[]|e] w2] end; reflexivity.
Qed.

(** ** Inside the geofence *)

(** C9. A fix that the geofence service reports as inside is only logged:
    the handler returns normally, both collections are left as they were,
    and the trace grows by two log lines and the evaluation itself, so no
    lookup and no insert is issued. *)
Theorem processGpsData_inside env fields w v :
  let message := JObj fields in
  let vehicle := prop message "vehicleId" in
  let lat := prop message "latitude" in
  let lon := prop message "longitude" in
  isWithinGeofence env lon lat = Return v ->
  truthy v = true ->
  fst (ProcessGpsData.handler env message w) = Return tt /\
  violations (snd (ProcessGpsData.handler env message w)) = violations w /\
  userVehicles (snd (ProcessGpsData.handler env message w)) = userVehicles w /\
  service (snd (ProcessGpsData.handler env message w)) = service w /\
  trace (snd (ProcessGpsData.handler env message w)) =
    trace w ++ [Logged Info "Processing GPS data" [vehicle; prop message "timestamp"; lat; lon];
                Evaluated lon lat;
                Logged Info "Vehicle is INSIDE the geofence" [vehicle; lat; lon]].
Proof.
  intros message vehicle lat lon Hv Ht. subst message vehicle lat lon.
  destruct (ProcessGpsData.handler env (JObj fields) w) as [r w'] eqn:E.
  revert E. unfold ProcessGpsData.handler, destructure, GeofenceService.isWithinGeofence.
  js_run. rewrite Hv. js_run. rewrite Ht. js_run.
  intros E. injection E as <- <-. js_run.
  repeat split; try reflexivity.
  now rewrite <- !app_assoc.
Qed.

Lemma processGpsData_inside_witness :
  fst (ProcessGpsData.handler (sample_env (JBool true)) (fix_of "V1") (fresh_world [] registry))
    = Return tt /\
  violations (snd (ProcessGpsData.handler (sample_env (JBool true)) (fix_of "V1")
                     (fresh_world [] registry))) = [].
Proof.
  pose proof (processGpsData_inside (sample_env (JBool true))
                [("timestamp", JStr "2025-01-01T00:00:00.000Z");
                 ("vehicleId", JStr "V1");
                 ("latitude", JNum (50 # 1));
                 ("longitude", JNum (50 # 1))]
                (fresh_world [] registry) (JBool true) eq_refl eq_refl) as H.
  split; [exact (proj1 H) | exact (proj1 (proj2 H))].
Defined.

(** ** Outside the geofence *)

Lemma NoDup_snoc {A} (l : list A) (x : A) :
  ~ In x l -> NoDup l -> NoDup (l ++ [x]).
Proof.
  intros Hx Hl. induction Hl as [|y l Hy Hl IH]; simpl.
  - constructor; [tauto | constructor].
  - constructor.
    + rewrite in_app_iff. simpl in *. intuition congruence.
    + apply IH. simpl in Hx. tauto.
Qed.

Lemma processGpsData_stores env fields w v r :
  let message := JObj fields in
  let vehicle := prop message "vehicleId" in
  isWithinGeofence env (prop message "longitude") (prop message "latitude") = Return v ->
  truthy v = false ->
  find (vid_matches vehicle) (userVehicles w) = Some r ->
  fault env (Connect (StoreViolationService.connectionString env)) = None ->
  fault env (FindOne vehicle) = None ->
  (forall doc, fault env (InsertOne doc) = None) ->
  fst (ProcessGpsData.handler env message w) = Return tt /\
  userVehicles (snd (ProcessGpsData.handler env message w)) = userVehicles w /\
  drawn (snd (ProcessGpsData.handler env message w)) = S (drawn w) /\
  exists now,
    violations (snd (ProcessGpsData.handler env message w)) =
    violations w ++
      [violation_of {| vd_vehicleId := vehicle;
                       vd_email := owner_email r;
                       vd_latitude := prop message "latitude";
                       vd_longitude := prop message "longitude";
                       vd_timestamp := prop message "timestamp" |}
                    (randomUUID env (drawn w)) now].
Proof.
  intros message vehicle Hv Ht Hr Hc Hf Hi. subst message vehicle.
  rewrite (processGpsData_outside env fields w v Hv Ht).
  unfold record_violation. js_run.
  pose proof (findVehicleUser_spec env (prop (JObj fields) "vehicleId") (detected fields w)) as S1.
  pose proof (findVehicleUser_resolves env (prop (JObj fields) "vehicleId") (detected fields w) Hc Hf)
    as R1.
  destruct (StoreViolationService.findVehicleUser env _ (detected fields w)) as [r1 w1].
  cbn [fst snd] in *. subst r1.
  destruct S1 as ((Sv & Su & _ & Sd) & _ & Sc & _).
  change (userVehicles (detected fields w)) with (userVehicles w).
  rewrite Hr. js_run.
  match goal with |- context [StoreViolationService.storeViolation env ?d w1] =>
    pose proof (storeViolation_spec env d w1) as S2;
    pose proof (storeViolation_inserts env d w1 Sc Hi) as R2;
    destruct (StoreViolationService.storeViolation env d w1) as [r2 w2] end.
  cbn [fst snd] in *. subst r2. js_run.
  destruct S2 as (Su2 & now & Sv2 & Sd2).
  repeat split.
  - now rewrite Su2, Su.
  - now rewrite Sd2, Sd.
  - exists now. now rewrite Sv2, Sv, Sd.
Qed.

(** C3. An outside fix whose vehicle has an ownership record, handled
    while the store answers, appends exactly one document to
    [violations]: its [violationId] is the value [crypto.randomUUID()]
    returns at this call (the draw is consumed), its [email] is the one of
    the ownership record, its vehicle, coordinates and timestamp are the
    ones of the fix, and [warningSent] is [false].  When the drawn
    identifier is not yet in the collection, identifiers stay distinct. *)
Theorem processGpsData_creates_one_violation env fields w v r :
  let message := JObj fields in
  let vehicle := prop message "vehicleId" in
  isWithinGeofence env (prop message "longitude") (prop message "latitude") = Return v ->
  truthy v = false ->
  find (vid_matches vehicle) (userVehicles w) = Some r ->
  fault env (Connect (StoreViolationService.connectionString env)) = None ->
  fault env (FindOne vehicle) = None ->
  (forall doc, fault env (InsertOne doc) = None) ->
  fst (ProcessGpsData.handler env message w) = Return tt /\
  drawn (snd (ProcessGpsData.handler env message w)) = S (drawn w) /\
  exists d,
    violations (snd (ProcessGpsData.handler env message w)) = violations w ++ [d] /\
    violationId d = randomUUID env (drawn w) /\
    email d = owner_email r /\
    vehicleId d = vehicle /\
    latitude d = prop message "latitude" /\
    longitude d = prop message "longitude" /\
    timestamp d = prop message "timestamp" /\
    warningSent d = false /\
    warningSentAt d = None /\
    (~ In (violationId d) (map violationId (violations w)) ->
     NoDup (map violationId (violations w)) ->
     NoDup (map violationId (violations (snd (ProcessGpsData.handler env message w))))).
Proof.
  intros message vehicle Hv Ht Hr Hc Hf Hi.
  destruct (processGpsData_stores env fields w v r Hv Ht Hr Hc Hf Hi)
    as (R & _ & D & now & V).
  split; [exact R | split; [exact D | ]].
  eexists. split; [exact V | ]. repeat split.
  subst message. rewrite V, map_app. cbn [map violationId violation_of].
  intros Hfresh Hnd. now apply NoDup_snoc.
Qed.

Lemma processGpsData_creates_one_violation_witness :
  exists d,
    violations (snd (ProcessGpsData.handler (sample_env (JBool false)) (fix_of "V1")
                       (fresh_world [] registry))) = [] ++ [d] /\
    email d = "a@x.com" /\ warningSent d = false.
Proof.
  destruct (processGpsData_creates_one_violation (sample_env (JBool false))
              [("timestamp", JStr "2025-01-01T00:00:00.000Z");
               ("vehicleId", JStr "V1");
               ("latitude", JNum (50 # 1));
               ("longitude", JNum (50 # 1))]
              (fresh_world [] registry) (JBool false)
              {| vid := "V1"; owner_email := "a@x.com" |}
              eq_refl eq_refl eq_refl eq_refl eq_refl (fun _ => eq_refl))
    as (_ & _ & d & V & _ & E & _ & _ & _ & _ & S & _).
  exists d. split; [exact V | split; [exact E | exact S]].
Defined.

(** C6. Delivering the same outside fix twice appends two documents, one
    per delivery, for the same vehicle and coordinates: the second
    delivery neither finds nor looks for the first one.  Their
    [violationId]s are two successive draws of [crypto.randomUUID()], so
    the documents differ whenever the two draws do. *)
Theorem processGpsData_redelivery_duplicates env fields w v r :
  let message := JObj fields in
  let vehicle := prop message "vehicleId" in
  let w1 := snd (ProcessGpsData.handler env message w) in
  let w2 := snd (ProcessGpsData.handler env message w1) in
  isWithinGeofence env (prop message "longitude") (prop message "latitude") = Return v ->
  truthy v = false ->
  find (vid_matches vehicle) (userVehicles w) = Some r ->
  fault env (Connect (StoreViolationService.connectionString env)) = None ->
  fault env (FindOne vehicle) = None ->
  (forall doc, fault env (InsertOne doc) = None) ->
  fst (ProcessGpsData.handler env message w) = Return tt /\
  fst (ProcessGpsData.handler env message w1) = Return tt /\
  exists d1 d2,
    violations w1 = violations w ++ [d1] /\
    violations w2 = violations w ++ [d1; d2] /\
    violationId d1 = randomUUID env (drawn w) /\
    violationId d2 = randomUUID env (S (drawn w)) /\
    vehicleId d1 = vehicle /\ vehicleId d2 = vehicle /\
    latitude d2 = latitude d1 /\ longitude d2 = longitude d1 /\
    timestamp d2 = timestamp d1 /\
    warningSent d1 = false /\ warningSent d2 = false /\
    (randomUUID env (drawn w) <> randomUUID env (S (drawn w)) -> d1 <> d2).
Proof.
  intros message vehicle w1 w2 Hv Ht Hr Hc Hf Hi.
  destruct (processGpsData_stores env fields w v r Hv Ht Hr Hc Hf Hi)
    as (R1 & U1 & D1 & now1 & V1).
  fold message in R1, U1, D1, V1. fold w1 in U1, D1, V1. fold vehicle in V1.
  assert (Hr1 : find (vid_matches vehicle) (userVehicles w1) = Some r)
    by now rewrite U1.
  destruct (processGpsData_stores env fields w1 v r Hv Ht Hr1 Hc Hf Hi)
    as (R2 & _ & _ & now2 & V2).
  fold message in R2, V2. fold w2 in V2. fold vehicle in V2.
  split; [exact R1 | split; [exact R2 | ]].
  eexists. eexists. split; [exact V1 | ]. split.
  - rewrite V2, V1, <- app_assoc. reflexivity.
  - rewrite D1. repeat split. intros Hne Heq. apply Hne.
    now apply (f_equal violationId) in Heq.
Qed.

Lemma processGpsData_redelivery_duplicates_witness :
  List.length
    (violations
       (snd (ProcessGpsData.handler (sample_env (JBool false)) (fix_of "V1")
               (snd (ProcessGpsData.handler (sample_env (JBool false)) (fix_of "V1")
                       (fresh_world [] registry)))))) = 2.
Proof.
  destruct (processGpsData_redelivery_duplicates (sample_env (JBool false))
              [("timestamp", JStr "2025-01-01T00:00:00.000Z");
               ("vehicleId", JStr "V1");
               ("latitude", JNum (50 # 1));
               ("longitude", JNum (50 # 1))]
              (fresh_world [] registry) (JBool false)
              {| vid := "V1"; owner_email := "a@x.com" |}
              eq_refl eq_refl eq_refl eq_refl eq_refl (fun _ => eq_refl))
    as (_ & _ & d1 & d2 & _ & V & _).
  unfold fix_of. rewrite V. reflexivity.
Defined.

(** C8. An outside fix whose vehicle has no ownership record creates no
    violation and the handler returns normally, whatever the store does;
    when the lookup is answered, the last two lines of the trace are the
    warnings of the lookup and of the handler. *)
Theorem processGpsData_no_owner env fields w v :
  let message := JObj fields in
  let vehicle := prop message "vehicleId" in
  isWithinGeofence env (prop message "longitude") (prop message "latitude") = Return v ->
  truthy v = false ->
  find (vid_matches vehicle) (userVehicles w) = None ->
  fst (ProcessGpsData.handler env message w) = Return tt /\
  violations (snd (ProcessGpsData.handler env message w)) = violations w /\
  (fault env (Connect (StoreViolationService.connectionString env)) = None ->
   fault env (FindOne vehicle) = None ->
   exists pre,
     trace (snd (ProcessGpsData.handler env message w)) =
     pre ++ [Logged Warn "No ownership record found for vehicle" [vehicle];
             Logged Warn "Cannot record violation: No owner found for vehicle" [vehicle]]).
Proof.
  intros message vehicle Hv Ht Hr. subst message vehicle.
  rewrite (processGpsData_outside env fields w v Hv Ht).
  split; [apply record_violation_returns | ].
  unfold record_violation. js_run.
  pose proof (findVehicleUser_spec env (prop (JObj fields) "vehicleId") (detected fields w)) as S1.
  pose proof (findVehicleUser_resolves env (prop (JObj fields) "vehicleId") (detected fields w))
    as R1.
  destruct (StoreViolationService.findVehicleUser env _ (detected fields w)) as [[found|e] w1];
    cbn [fst snd] in *; destruct S1 as ((Sv & _) & S1).
  - destruct S1 as (Hfound & _ & pre & Htr).
    change (userVehicles (detected fields w)) with (userVehicles w) in Hfound.
    rewrite Hr in Hfound. subst found. js_run. split; [exact Sv | ].
    intros _ _. exists pre. rewrite Htr, <- app_assoc. reflexivity.
  - js_run. split; [exact Sv | ].
    intros Hc Hf. specialize (R1 Hc Hf). discriminate R1.
Qed.

Lemma processGpsData_no_owner_witness :
  fst (ProcessGpsData.handler (sample_env (JBool false)) (fix_of "V9") (fresh_world [] registry))
    = Return tt /\
  violations (snd (ProcessGpsData.handler (sample_env (JBool false)) (fix_of "V9")
                     (fresh_world [] registry))) = [].
Proof.
  pose proof (processGpsData_no_owner (sample_env (JBool false))
                [("timestamp", JStr "2025-01-01T00:00:00.000Z");
                 ("vehicleId", JStr "V9");
                 ("latitude", JNum (50 # 1));
                 ("longitude", JNum (50 # 1))]
                (fresh_world [] registry) (JBool false) eq_refl eq_refl eq_refl) as H.
  split; [exact (proj1 H) | exact (proj1 (proj2 H))].
Defined.

(** *** Store failures during ingestion *)

(** With a lookup that rejects, [StoreViolationService.findVehicleUser] throws and the handler
    still returns normally: nothing reaches the caller. *)
Lemma processGpsData_lookup_failure_not_surfaced :
  let env := with_fault lookup_rejects (sample_env (JBool false)) in
  let w := fresh_world [] registry in
  fst (StoreViolationService.findVehicleUser env (JStr "V1") w) = Throw "connection reset" /\
  fst (ProcessGpsData.handler env (fix_of "V1") w) = Return tt /\
  ~ (exists e, fst (ProcessGpsData.handler env (fix_of "V1") w) = Throw e).
Proof.
  cbv zeta. split; [vm_compute; reflexivity | ].
  assert (H : fst (ProcessGpsData.handler (with_fault lookup_rejects (sample_env (JBool false)))
                     (fix_of "V1") (fresh_world [] registry)) = Return tt)
    by (vm_compute; reflexivity).
  split; [exact H | ]. intros [e He]. rewrite H in He. discriminate He.
Qed.

(** C2, as the code has it.  For an outside fix the handler always
    returns normally.  When the lookup throws, or when the lookup finds
    the owner and the insert throws, the error is caught by the inner
    [catch]: [violations] is left as it was and the last line of the trace
    is the [context.error] of that [catch]. *)
Theorem processGpsData_swallows_store_errors env fields w v :
  let message := JObj fields in
  let vehicle := prop message "vehicleId" in
  let lookup := StoreViolationService.findVehicleUser env vehicle (detected fields w) in
  let data r := {| vd_vehicleId := vehicle;
                   vd_email := owner_email r;
                   vd_latitude := prop message "latitude";
                   vd_longitude := prop message "longitude";
                   vd_timestamp := prop message "timestamp" |} in
  isWithinGeofence env (prop message "longitude") (prop message "latitude") = Return v ->
  truthy v = false ->
  fst (ProcessGpsData.handler env message w) = Return tt /\
  (forall e,
     fst lookup = Throw e ->
     violations (snd (ProcessGpsData.handler env message w)) = violations w /\
     exists pre,
       trace (snd (ProcessGpsData.handler env message w)) =
       pre ++ [Logged Error "Database operation failed" [JStr e]]) /\
  (forall r e,
     fst lookup = Return (Some r) ->
     fst (StoreViolationService.storeViolation env (data r) (snd lookup)) = Throw e ->
     violations (snd (ProcessGpsData.handler env message w)) = violations w /\
     exists pre,
       trace (snd (ProcessGpsData.handler env message w)) =
       pre ++ [Logged Error "Database operation failed" [JStr e]]).
Proof.
  intros message vehicle lookup data Hv Ht. subst message vehicle lookup data.
  rewrite (processGpsData_outside env fields w v Hv Ht).
  split; [apply record_violation_returns | ].
  unfold record_violation. js_run.
  pose proof (findVehicleUser_spec env (prop (JObj fields) "vehicleId") (detected fields w)) as S1.
  destruct (StoreViolationService.findVehicleUser env _ (detected fields w)) as [r1 w1].
  cbn [fst snd] in *. destruct S1 as ((Sv & _) & _).
  change (violations (detected fields w)) with (violations w) in Sv.
  split.
  - intros e ->. js_run. split; [exact Sv | ]. eexists; reflexivity.
  - intros r e -> He. js_run.
    match goal with |- context [StoreViolationService.storeViolation env ?d w1] =>
      pose proof (storeViolation_spec env d w1) as S2;
      destruct (StoreViolationService.storeViolation env d w1) as [r2 w2] end.
    cbn [fst snd] in *. subst r2. destruct S2 as (_ & Sv2). js_run.
    split; [congruence | ]. eexists; reflexivity.
Qed.

Lemma processGpsData_swallows_store_errors_witness :
  fst (ProcessGpsData.handler (with_fault insert_rejects (sample_env (JBool false)))
         (fix_of "V1") (fresh_world [] registry)) = Return tt /\
  violations (snd (ProcessGpsData.handler (with_fault insert_rejects (sample_env (JBool false)))
                     (fix_of "V1") (fresh_world [] registry))) = [].
Proof.
  pose proof (processGpsData_swallows_store_errors
                (with_fault insert_rejects (sample_env (JBool false)))
                [("timestamp", JStr "2025-01-01T00:00:00.000Z");
                 ("vehicleId", JStr "V1");
                 ("latitude", JNum (50 # 1));
                 ("longitude", JNum (50 # 1))]
                (fresh_world [] registry) (JBool false) eq_refl eq_refl) as H.
  split; [exact (proj1 H) | ].
  exact (proj1 (proj2 (proj2 H) {| vid := "V1"; owner_email := "a@x.com" |}
                  "write timed out" eq_refl eq_refl)).
Defined.

(** ** The scanner *)

(** *** [updateOne] *)

Lemma updateOne_first id now pre d post :
  violationId d = id ->
  (forall x, In x pre -> violationId x <> id) ->
  updateOne id now (pre ++ d :: post) =
  (pre ++ set_warned now d :: post,
   {| matchedCount := 1; modifiedCount := if already_set now d then 0 else 1 |}).
Proof.
  intros Hd. induction pre as [|x pre IH]; intros Hpre; simpl.
  - rewrite Hd, String.eqb_refl. reflexivity.
  - destruct (String.eqb_spec (violationId x) id) as [Heq|_].
    + exfalso. apply (Hpre x); [now left | exact Heq].
    + rewrite IH; [reflexivity | ]. intros y Hy. apply Hpre. now right.
Qed.

Lemma updateOne_absent id now docs :
  (forall x, In x docs -> violationId x <> id) ->
  updateOne id now docs = (docs, {| matchedCount := 0; modifiedCount := 0 |}).
Proof.
  induction docs as [|x docs IH]; intros H; simpl; [reflexivity | ].
  destruct (String.eqb_spec (violationId x) id) as [Heq|_].
  - exfalso. apply (H x); [now left | exact Heq].
  - rewrite IH; [reflexivity | ]. intros y Hy. apply H. now right.
Qed.

Lemma status_ids docs : map fst (status docs) = map violationId docs.
Proof. unfold status. rewrite map_map. reflexivity. Qed.

Lemma status_after_ids ids st : map fst (status_after ids st) = map fst st.
Proof. unfold status_after. rewrite map_map. reflexivity. Qed.

Lemma status_after_nil st : status_after [] st = st.
Proof.
  unfold status_after. transitivity (map (fun p : string * bool => p) st).
  - apply map_ext. intros [i b]. simpl. now rewrite orb_false_r.
  - apply map_id.
Qed.

Lemma status_after_app ids1 ids2 st :
  status_after ids2 (status_after ids1 st) = status_after (ids1 ++ ids2) st.
Proof.
  unfold status_after. rewrite map_map. apply map_ext.
  intros [i b]. simpl. now rewrite existsb_app, orb_assoc.
Qed.

Lemma status_after_other id st :
  ~ In id (map fst st) -> status_after [id] st = st.
Proof.
  intros H. unfold status_after.
  transitivity (map (fun p : string * bool => p) st); [ | apply map_id].
  apply map_ext_in. intros [i b] Hin. simpl.
  destruct (String.eqb_spec i id) as [->|_].
  - exfalso. apply H. exact (in_map fst _ _ Hin).
  - now rewrite !orb_false_r.
Qed.

Lemma updateOne_status id now docs :
  NoDup (map violationId docs) ->
  status (fst (updateOne id now docs)) = status_after [id] (status docs).
Proof.
  induction docs as [|d docs IH]; intros Hnd; simpl; [reflexivity | ].
  inversion Hnd as [|? ? Hnotin Hnd']; subst.
  destruct (String.eqb_spec (violationId d) id) as [Heq|Hne].
  - simpl. rewrite orb_true_r. f_equal.
    rewrite status_after_other; [reflexivity | ].
    rewrite status_ids. now rewrite <- Heq.
  - specialize (IH Hnd'). destruct (updateOne id now docs) as [rest r].
    simpl in *. rewrite IH. now rewrite orb_false_r.
Qed.

Lemma updateOne_unsent id now docs d :
  In d (fst (updateOne id now docs)) -> warningSent d = false -> In d docs.
Proof.
  induction docs as [|x docs IH]; simpl; [tauto | ].
  destruct (String.eqb (violationId x) id).
  - simpl. intros [<-|H] Hd; [discriminate Hd | now right].
  - destruct (updateOne id now docs) as [rest r]. simpl in *.
    intros [<-|H] Hd; [now left | right; now apply IH].
Qed.

(** *** One record *)

Lemma email_ready_ext env w w' :
  emailClient w' = emailClient w -> email_ready env w' = email_ready env w.
Proof. unfold email_ready. now intros ->. Qed.

Lemma toFixed_cases x :
  (is_number x = true /\ toFixed x = ret tt) \/
  (is_number x = false /\ exists e, toFixed x = throw e).
Proof.
  destruct x; simpl; first [left; split; reflexivity | right; split; [reflexivity | eexists; reflexivity]].
Qed.

Lemma scanner_getMongoClient_connected env w :
  connected (scanner w) -> ScanViolations.getMongoClient env w = (Return tt, w).
Proof.
  intros [Hc _]. unfold ScanViolations.getMongoClient. js_run.
  destruct (client (scanner w)); [reflexivity | congruence].
Qed.

Lemma sendViolationEmail_spec env v w :
  same_store w (snd (ScanViolations.sendViolationEmail env v w)) /\
  scanner (snd (ScanViolations.sendViolationEmail env v w)) = scanner w /\
  email_ready env (snd (ScanViolations.sendViolationEmail env v w)) = email_ready env w /\
  extends w (snd (ScanViolations.sendViolationEmail env v w)) /\
  match fst (ScanViolations.sendViolationEmail env v w) with
  | Return _ => delivered env (email_ready env w) v = true
  | Throw _ => delivered env (email_ready env w) v = false
  end.
Proof.
  destruct (ScanViolations.sendViolationEmail env v w) as [r w'] eqn:E. revert E.
  unfold ScanViolations.sendViolationEmail, ScanViolations.getEmailClient, await, extends.
  destruct (toFixed_cases (latitude v)) as [[L ->]|[L [e1 ->]]];
    destruct (toFixed_cases (longitude v)) as [[G ->]|[G [e2 ->]]];
    js_cases; intros E; injection E as <- <-;
    unfold delivered, email_ready, resolves; js_run;
    repeat match goal with H : _ = _ |- _ => rewrite H end;
    cbn [andb];
    repeat split; try reflexivity;
    try (rewrite <- ?app_assoc; eexists; reflexivity);
    try (exists []; now rewrite app_nil_r);
    try (destruct (emailClient w); reflexivity).
Qed.

Lemma markViolationAsWarned_spec env id w :
  connected (scanner w) ->
  userVehicles (snd (ScanViolations.markViolationAsWarned env id w)) = userVehicles w /\
  scanner (snd (ScanViolations.markViolationAsWarned env id w)) = scanner w /\
  emailClient (snd (ScanViolations.markViolationAsWarned env id w)) = emailClient w /\
  extends w (snd (ScanViolations.markViolationAsWarned env id w)) /\
  match fst (ScanViolations.markViolationAsWarned env id w) with
  | Return result =>
      resolves env (UpdateOne id) = true /\
      updateOne id (clock w) (violations w) =
        (violations (snd (ScanViolations.markViolationAsWarned env id w)), result)
  | Throw _ =>
      resolves env (UpdateOne id) = false /\
      violations (snd (ScanViolations.markViolationAsWarned env id w)) = violations w
  end.
Proof.
  intros Hc.
  destruct (ScanViolations.markViolationAsWarned env id w) as [r w'] eqn:E. revert E.
  unfold ScanViolations.markViolationAsWarned. js_run.
  rewrite (scanner_getMongoClient_connected env w Hc).
  destruct Hc as [_ Hd]. rewrite Hd. unfold await, resolves, extends. js_run.
  destruct (fault env (UpdateOne id)); js_run.
  - intros E; injection E as <- <-. js_run.
    repeat split; rewrite <- ?app_assoc; eexists; reflexivity.
  - destruct (updateOne id (clock w) (violations w)) as [docs result].
    intros E; injection E as <- <-. js_run.
    repeat split; rewrite <- ?app_assoc; eexists; reflexivity.
Qed.

Lemma processViolation_spec env v w :
  connected (scanner w) ->
  let ok := notified env (email_ready env w) v in
  fst (ScanViolations.processViolation env v w) = Return ok /\
  userVehicles (snd (ScanViolations.processViolation env v w)) = userVehicles w /\
  scanner (snd (ScanViolations.processViolation env v w)) = scanner w /\
  email_ready env (snd (ScanViolations.processViolation env v w)) = email_ready env w /\
  (exists es,
     trace (snd (ScanViolations.processViolation env v w)) =
     trace w ++ Logged Info "Processing violation" [JStr (violationId v); vehicleId v] :: es) /\
  exists now,
    violations (snd (ScanViolations.processViolation env v w)) =
    if ok then fst (updateOne (violationId v) now (violations w)) else violations w.
Proof.
  intros Hc ok. subst ok.
  destruct (ScanViolations.processViolation env v w) as [r w'] eqn:E. revert E.
  unfold ScanViolations.processViolation, notified. js_run.
  match goal with |- context [ScanViolations.sendViolationEmail env v ?x] => set (w0 := x) end.
  pose proof (sendViolationEmail_spec env v w0) as S1.
  change (email_ready env w0) with (email_ready env w) in S1.
  destruct (ScanViolations.sendViolationEmail env v w0) as [r1 w1].
  cbn [fst snd] in S1.
  destruct S1 as ((Sv & Su & _ & _) & Ssc & Ser & [es1 Hes1] & Sd).
  change (violations w0) with (violations w) in Sv.
  change (userVehicles w0) with (userVehicles w) in Su.
  change (scanner w0) with (scanner w) in Ssc.
  change (trace w0) with
    (trace w ++ [Logged Info "Processing violation" [JStr (violationId v); vehicleId v]])
    in Hes1.
  clearbody w0.
  destruct r1 as [[]|e1]; rewrite Sd; cbn [andb].
  - assert (Hc1 : connected (scanner w1)) by now rewrite Ssc.
    pose proof (markViolationAsWarned_spec env (violationId v) w1 Hc1) as S2.
    destruct (ScanViolations.markViolationAsWarned env (violationId v) w1) as [r2 w2].
    cbn [fst snd] in S2. destruct S2 as (Mu & Msc & Mec & [es2 Hes2] & Mr).
    assert (Her : email_ready env w2 = email_ready env w)
      by (unfold email_ready in *; now rewrite Mec).
    destruct r2 as [result|e2]; destruct Mr as [Mres Mv]; rewrite Mres;
      intros E; injection E as <- <-; js_run;
      (split; [reflexivity | split; [congruence | split; [congruence | split; [ | split]]]]).
    + exact Her.
    + exists (es1 ++ es2). rewrite Hes2, Hes1, <- !app_assoc. reflexivity.
    + exists (clock w1). rewrite <- Sv. now rewrite Mv.
    + rewrite <- Her. now apply email_ready_ext.
    + eexists. rewrite Hes2, Hes1, <- !app_assoc. reflexivity.
    + exists 0%Z. congruence.
  - intros E; injection E as <- <-. js_run.
    split; [reflexivity | split; [congruence | split; [congruence | split; [ | split]]]].
    + rewrite <- Ser. now apply email_ready_ext.
    + eexists. rewrite Hes1, <- !app_assoc. reflexivity.
    + exists 0%Z. exact Sv.
Qed.

Lemma updateOne_ids id now docs :
  map violationId (fst (updateOne id now docs)) = map violationId docs.
Proof.
  induction docs as [|d docs IH]; simpl; [reflexivity | ].
  destruct (String.eqb (violationId d) id); [reflexivity | ].
  destruct (updateOne id now docs) as [rest r]. simpl in *. now rewrite IH.
Qed.

(** *** The loop *)

Lemma processViolations_spec env vs :
  forall w successCount failCount,
    connected (scanner w) ->
    NoDup (map violationId (violations w)) ->
    let ready := email_ready env w in
    let ok := filter (notified env ready) vs in
    let failed := filter (fun v => negb (notified env ready v)) vs in
    let run := ScanViolations.processViolations env vs successCount failCount w in
    fst run = Return (successCount + List.length ok, failCount + List.length failed) /\
    scanner (snd run) = scanner w /\
    status (violations (snd run)) = status_after (map violationId ok) (status (violations w)) /\
    (forall d, In d (violations (snd run)) -> warningSent d = false -> In d (violations w)) /\
    extends w (snd run) /\
    (forall v, In v vs ->
       In (Logged Info "Processing violation" [JStr (violationId v); vehicleId v])
          (trace (snd run))).
Proof.
  induction vs as [|v rest IH]; intros w s f Hc Hnd; cbv zeta.
  - simpl. rewrite !Nat.add_0_r, status_after_nil.
    repeat split; try tauto. apply extends_refl.
  - destruct (processViolation_spec env v w Hc) as (R1 & _ & Sc1 & Er1 & [es1 T1] & now & V1).
    cbv zeta in R1, V1.
    change (ScanViolations.processViolations env (v :: rest) s f w) with
      (bind (ScanViolations.processViolation env v)
            (fun ok => if ok then ScanViolations.processViolations env rest (S s) f
                       else ScanViolations.processViolations env rest s (S f)) w).
    unfold bind. destruct (ScanViolations.processViolation env v w) as [r1 w1].
    cbn [fst snd] in R1, Sc1, Er1, T1, V1. subst r1.
    assert (Hc1 : connected (scanner w1)) by now rewrite Sc1.
    assert (Hids : map violationId (violations w1) = map violationId (violations w)).
    { rewrite V1. destruct (notified env (email_ready env w) v);
        [apply updateOne_ids | reflexivity]. }
    assert (Hnd1 : NoDup (map violationId (violations w1))) by now rewrite Hids.
    assert (Hex1 : extends w w1) by (eexists; exact T1).
    cbn [filter].
    destruct (notified env (email_ready env w) v) eqn:Hok; cbn [negb].
    + destruct (IH w1 (S s) f Hc1 Hnd1) as (R2 & Sc2 & St2 & Un2 & Ex2 & Lg2).
      cbv zeta in *. rewrite Er1 in *.
      destruct (ScanViolations.processViolations env rest (S s) f w1) as [r2 w2].
      cbn [fst snd] in *. subst r2.
      split; [cbn [List.length]; f_equal; f_equal; lia | ].
      split; [congruence | ].
      split.
      { rewrite St2, V1, (updateOne_status _ _ _ Hnd), status_after_app. reflexivity. }
      split.
      { intros d Hd Hu. specialize (Un2 d Hd Hu). rewrite V1 in Un2.
        now apply (updateOne_unsent _ _ _ _ Un2). }
      split; [now apply (extends_trans w w1 w2) | ].
      intros x [<-|Hx].
      * destruct Ex2 as [es2 T2]. rewrite T2, T1, <- app_assoc.
        apply in_or_app. right. now left.
      * now apply Lg2.
    + destruct (IH w1 s (S f) Hc1 Hnd1) as (R2 & Sc2 & St2 & Un2 & Ex2 & Lg2).
      cbv zeta in *. rewrite Er1 in *.
      destruct (ScanViolations.processViolations env rest s (S f) w1) as [r2 w2].
      cbn [fst snd] in *. subst r2.
      split; [cbn [List.length]; f_equal; f_equal; lia | ].
      split; [congruence | ].
      split; [now rewrite St2, V1 | ].
      split.
      { intros d Hd Hu. specialize (Un2 d Hd Hu). now rewrite V1 in Un2. }
      split; [now apply (extends_trans w w1 w2) | ].
      intros x [<-|Hx].
      * destruct Ex2 as [es2 T2]. rewrite T2, T1, <- app_assoc.
        apply in_or_app. right. now left.
      * now apply Lg2.
Qed.

(** *** One run *)

Lemma getUnsentViolations_finds env w :
  scanner_usable env w ->
  fault env Find = None ->
  fst (ScanViolations.getUnsentViolations env w) = Return (filter unsent (violations w)) /\
  same_store w (snd (ScanViolations.getUnsentViolations env w)) /\
  connected (scanner (snd (ScanViolations.getUnsentViolations env w))) /\
  emailClient (snd (ScanViolations.getUnsentViolations env w)) = emailClient w /\
  extends w (snd (ScanViolations.getUnsentViolations env w)).
Proof.
  intros U Hf.
  destruct (ScanViolations.getUnsentViolations env w) as [r w'] eqn:E. revert E.
  unfold ScanViolations.getUnsentViolations, ScanViolations.getMongoClient, await, connected, extends.
  destruct U as [[Hc Hd]|(Hc & cs & Hcs & Hcon)].
  - destruct (client (scanner w)) eqn:C; [ | congruence].
    js_run. rewrite C, Hd, Hf. js_run.
    intros E; injection E as <- <-. js_run. rewrite C, Hd.
    repeat split; try congruence. rewrite <- app_assoc. eexists; reflexivity.
  - js_run. rewrite Hc, Hcs. js_run. rewrite Hcon. js_run. rewrite Hf. js_run.
    intros E; injection E as <- <-. js_run.
    repeat split; try congruence. rewrite <- !app_assoc. eexists; reflexivity.
Qed.



(** *** Marking a record that is already marked *)

(** On a record with [warningSent = true] the update still matches, and
    it rewrites [warningSentAt]. *)
Lemma markViolationAsWarned_matches_sent_record :
  let env := sample_env (JBool false) in
  let w := fresh_world [sample_violation "v1" true] registry in
  map warningSent (violations w) = [true] /\
  fst (ScanViolations.markViolationAsWarned env "v1" w)
    = Return {| matchedCount := 1; modifiedCount := 1 |} /\
  map warningSentAt (violations w) = [Some 950%Z] /\
  map warningSentAt (violations (snd (ScanViolations.markViolationAsWarned env "v1" w))) = [Some 1001%Z].
Proof. cbv zeta. repeat split; vm_compute; reflexivity. Qed.

(** C1, as the code has it.  The filter of the update is the identifier
    alone.  On a record that is already marked, the update matches it
    (matched = 1), leaves [warningSent = true], and sets [warningSentAt]
    to the time of this call; it counts as modified unless that time is
    the one already stored.  No other record is touched. *)
Theorem markViolationAsWarned_on_sent env w pre d post :
  violations w = pre ++ d :: post ->
  (forall x, In x pre -> violationId x <> violationId d) ->
  warningSent d = true ->
  connected (scanner w) ->
  fault env (UpdateOne (violationId d)) = None ->
  fst (ScanViolations.markViolationAsWarned env (violationId d) w) =
    Return {| matchedCount := 1;
              modifiedCount := if already_set (clock w) d then 0 else 1 |} /\
  violations (snd (ScanViolations.markViolationAsWarned env (violationId d) w)) =
    pre ++ set_warned (clock w) d :: post /\
  warningSent (set_warned (clock w) d) = true /\
  warningSentAt (set_warned (clock w) d) = Some (clock w).
Proof.
  intros Hv Hpre Hs Hc Hf.
  pose proof (markViolationAsWarned_spec env (violationId d) w Hc) as S.
  destruct (ScanViolations.markViolationAsWarned env (violationId d) w) as [r w'].
  cbn [fst snd] in *. destruct S as (_ & _ & _ & _ & S).
  unfold resolves in S. rewrite Hf in S.
  destruct r as [result|e]; [ | destruct S; discriminate].
  destruct S as [_ S]. rewrite Hv, (updateOne_first _ _ _ _ _ eq_refl Hpre) in S.
  injection S as <- <-. repeat split; reflexivity.
Qed.

Lemma markViolationAsWarned_on_sent_witness :
  let w := set_scanner {| client := Some "mongodb://localhost:27017"; database := true |}
             (fresh_world [sample_violation "v1" true] registry) in
  fst (ScanViolations.markViolationAsWarned (sample_env (JBool false)) "v1" w)
    = Return {| matchedCount := 1; modifiedCount := 1 |}.
Proof.
  cbv zeta.
  refine (proj1 (markViolationAsWarned_on_sent (sample_env (JBool false))
                   (set_scanner {| client := Some "mongodb://localhost:27017";
                                   database := true |}
                      (fresh_world [sample_violation "v1" true] registry))
                   [] (sample_violation "v1" true) [] eq_refl _ eq_refl _ eq_refl)).
  - intros x [].
  - split; [discriminate | reflexivity].
Defined.

(** ** The sweeper *)

Lemma filter_unsent_idem docs : filter unsent (filter unsent docs) = filter unsent docs.
Proof.
  induction docs as [|d docs IH]; simpl; [reflexivity | ].
  destruct (unsent d) eqn:U; simpl; rewrite ?U, IH; reflexivity.
Qed.

Lemma filter_unsent_all docs :
  List.length (filter warningSent docs) = 0 -> filter unsent docs = docs.
Proof.
  induction docs as [|d docs IH]; simpl; [reflexivity | ].
  unfold unsent at 1. destruct (warningSent d); simpl; [discriminate | ].
  intros H. now rewrite IH.
Qed.

(** *** What every step leaves in place *)

Section Frame.

Variable R : World -> World -> Prop.
Hypothesis R_refl : forall w, R w w.
Hypothesis R_trans : forall w1 w2 w3, R w1 w2 -> R w2 w3 -> R w1 w3.

Lemma keeps_ret {A} (a : A) : keeps R (ret a).
Proof. intros w. apply R_refl. Qed.

Lemma keeps_throw {A} (e : exn) : keeps R (@throw A e).
Proof. intros w. apply R_refl. Qed.

Lemma keeps_get : keeps R get.
Proof. intros w. apply R_refl. Qed.

Lemma keeps_Date_now : keeps R Date_now.
Proof. intros w. apply R_refl. Qed.

Lemma keeps_bind {A B} (m : M A) (k : A -> M B) :
  keeps R m -> (forall a, keeps R (k a)) -> keeps R (bind m k).
Proof.
  intros Hm Hk w. unfold bind. specialize (Hm w).
  destruct (m w) as [[a|e] w1]; cbn [snd] in *; [ | exact Hm].
  apply (R_trans _ _ _ Hm). apply Hk.
Qed.

Lemma keeps_try_catch {A} (m : M A) (h : exn -> M A) :
  keeps R m -> (forall e, keeps R (h e)) -> keeps R (try_catch m h).
Proof.
  intros Hm Hh w. unfold try_catch. specialize (Hm w).
  destruct (m w) as [[a|e] w1]; cbn [snd] in *; [exact Hm | ].
  apply (R_trans _ _ _ Hm). apply Hh.
Qed.

Lemma keeps_try_finally {A} (m : M A) (f : M unit) :
  keeps R m -> keeps R f -> keeps R (try_finally m f).
Proof.
  intros Hm Hf w. unfold try_finally. specialize (Hm w).
  destruct (m w) as [r w1]. specialize (Hf w1).
  destruct (f w1) as [[u|e] w2]; cbn [snd] in *; apply (R_trans _ _ _ Hm Hf).
Qed.

Lemma keeps_modify (f : World -> World) :
  (forall w, R w (f w)) -> keeps R (modify f).
Proof. intros H w. apply H. Qed.

End Frame.

(** Splits a computation along its binds, handlers and branches. *)
Ltac frame R_refl R_trans :=
  repeat first
    [ apply (keeps_ret _ R_refl)
    | apply (keeps_throw _ R_refl)
    | apply (keeps_get _ R_refl)
    | apply (keeps_Date_now _ R_refl)
    | apply (keeps_bind _ R_trans); [ | intro]
    | apply (keeps_try_catch _ R_trans); [ | intro]
    | apply (keeps_try_finally _ R_trans)
    | match goal with
      | |- keeps _ (match ?x with _ => _ end) => destruct x
      end ].

Lemma swept_refl w : swept w w.
Proof. now left. Qed.

Lemma swept_trans w1 w2 w3 : swept w1 w2 -> swept w2 w3 -> swept w1 w3.
Proof.
  unfold swept. intros [H1|H1] [H2|H2]; rewrite H2, H1;
    [now left | now right | now right | right; apply filter_unsent_idem].
Qed.

Lemma swept_emit e : keeps swept (emit e).
Proof. apply keeps_modify. intros w. now left. Qed.

Lemma swept_await env o : keeps swept (await env o).
Proof. intros w. unfold await. destruct (fault env o); now left. Qed.

Ltac sweep :=
  repeat first
    [ progress frame swept_refl swept_trans
    | apply swept_emit
    | apply swept_await
    | apply keeps_modify; intros ?; first [now left | now right] ].

Lemma purge_getMongoClient_swept env : keeps swept (PurgeData.getMongoClient env).
Proof. unfold PurgeData.getMongoClient. sweep. Qed.

Lemma purge_countDocuments_swept env b : keeps swept (PurgeData.countDocuments env b).
Proof. unfold PurgeData.countDocuments. sweep. Qed.

Lemma purgeProcessedViolations_swept env :
  keeps swept (PurgeData.purgeProcessedViolations env).
Proof.
  unfold PurgeData.purgeProcessedViolations, context_log, context_error.
  sweep; try apply purge_getMongoClient_swept; try apply purge_countDocuments_swept.
Qed.

Lemma purge_cleanupResources_swept env : keeps swept (PurgeData.cleanupResources env).
Proof. unfold PurgeData.cleanupResources. sweep. Qed.

(** Whatever the store and the configuration do, a run leaves the
    collection as it was or as its unsent documents. *)
Lemma purgeData_keeps_unsent env w :
  violations (snd (PurgeData.handler env w)) = violations w \/
  violations (snd (PurgeData.handler env w)) = filter unsent (violations w).
Proof.
  revert w. change (keeps swept (PurgeData.handler env)).
  unfold PurgeData.handler, context_log, context_error.
  sweep; first [ apply purge_getMongoClient_swept
               | apply purge_countDocuments_swept
               | apply purgeProcessedViolations_swept
               | apply purge_cleanupResources_swept ].
Qed.

(** *** A run that the store answers *)

Lemma purge_getMongoClient_ok env w cs :
  configured (MONGODB_CONNECTION_STRING env) = Some cs ->
  fault env (Connect cs) = None ->
  fault env Ping = None ->
  exists w',
    PurgeData.getMongoClient env w = (Return tt, w') /\
    violations w' = violations w /\
    connected (purge w').
Proof.
  intros Hcs Hcon Hping.
  unfold PurgeData.getMongoClient, await, connected. js_run. rewrite Hcs.
  destruct (client (purge w)) eqn:C; [destruct (database (purge w)) eqn:D | ];
    js_run; rewrite ?Hcon; js_run; rewrite ?Hping; js_run;
    eexists; (split; [reflexivity | ]); js_run; rewrite ?C, ?D;
    repeat split; congruence.
Qed.

Lemma purge_countDocuments_ok env sentOnly w :
  fault env (CountDocuments sentOnly) = None ->
  exists w',
    PurgeData.countDocuments env sentOnly w =
      (Return (List.length (if sentOnly then filter warningSent (violations w)
                            else violations w)), w') /\
    violations w' = violations w /\
    purge w' = purge w.
Proof.
  intros Hf. unfold PurgeData.countDocuments, await. js_run. rewrite Hf. js_run.
  eexists. repeat split.
Qed.

Lemma purgeProcessedViolations_ok env w :
  connected (purge w) ->
  fault env (CountDocuments true) = None ->
  fault env DeleteMany = None ->
  exists w',
    PurgeData.purgeProcessedViolations env w =
      (Return (List.length (filter warningSent (violations w))), w') /\
    violations w' = filter unsent (violations w) /\
    purge w' = purge w.
Proof.
  intros [Hc Hd] Hcount Hdel.
  unfold PurgeData.purgeProcessedViolations, PurgeData.getMongoClient,
    PurgeData.countDocuments, await.
  js_run. destruct (client (purge w)); [ | congruence]. rewrite Hd. js_run.
  rewrite Hd, Hcount. js_run.
  destruct (Nat.eqb_spec (List.length (filter warningSent (violations w))) 0) as [Hz|Hz];
    js_run.
  - eexists. rewrite Hz. split; [reflexivity | ]. js_run.
    split; [symmetry; now apply filter_unsent_all | reflexivity].
  - rewrite Hdel. js_run. eexists. repeat split.
Qed.

Lemma purge_cleanupResources_ok env w :
  exists w',
    PurgeData.cleanupResources env w = (Return tt, w') /\
    violations w' = violations w.
Proof.
  unfold PurgeData.cleanupResources, await. js_run.
  destruct (client (purge w)); js_run; [destruct (fault env Close); js_run | ];
    eexists; repeat split.
Qed.

Lemma purgeData_deletes_sent env w cs :
  configured (MONGODB_CONNECTION_STRING env) = Some cs ->
  fault env (Connect cs) = None ->
  fault env Ping = None ->
  (forall b, fault env (CountDocuments b) = None) ->
  fault env DeleteMany = None ->
  (exists ms, fst (PurgeData.handler env w) =
              Return {| purgedCount := List.length (filter warningSent (violations w));
                        executionTimeMs := ms |}) /\
  violations (snd (PurgeData.handler env w)) = filter unsent (violations w).
Proof.
  intros Hcs Hcon Hping Hcount Hdel.
  unfold PurgeData.handler. js_run.
  match goal with |- context [PurgeData.getMongoClient env ?x] =>
    destruct (purge_getMongoClient_ok env x cs Hcs Hcon Hping) as (w1 & E1 & V1 & C1) end.
  rewrite E1. js_run. cbn [violations] in V1.
  destruct (purge_countDocuments_ok env false w1 (Hcount false)) as (w2 & E2 & V2 & P2).
  rewrite E2. js_run.
  assert (C2 : connected (purge w2)) by now rewrite P2.
  destruct (purgeProcessedViolations_ok env w2 C2 (Hcount true) Hdel) as (w3 & E3 & V3 & P3).
  rewrite E3. js_run.
  destruct (purge_countDocuments_ok env false w3 (Hcount false)) as (w4 & E4 & V4 & P4).
  rewrite E4. js_run.
  match goal with |- context [PurgeData.cleanupResources env ?x] =>
    destruct (purge_cleanupResources_ok env x) as (w5 & E5 & V5) end.
  rewrite E5. js_run. cbn [violations] in V5.
  split.
  - eexists. rewrite V2, V1. reflexivity.
  - now rewrite V5, V4, V3, V2, V1.
Qed.

(** C4. A run of the sweeper never removes an unsent document: whatever
    the configuration and the store do, the collection afterwards is
    either untouched or exactly its unsent documents.  When the store
    answers, the run removes exactly the documents with
    [warningSent = true] and reports their number. *)
Theorem purgeData_deletes_exactly_sent env w :
  (violations (snd (PurgeData.handler env w)) = violations w \/
   violations (snd (PurgeData.handler env w)) = filter unsent (violations w)) /\
  filter unsent (violations (snd (PurgeData.handler env w))) = filter unsent (violations w) /\
  (forall cs,
     configured (MONGODB_CONNECTION_STRING env) = Some cs ->
     fault env (Connect cs) = None ->
     fault env Ping = None ->
     (forall b, fault env (CountDocuments b) = None) ->
     fault env DeleteMany = None ->
     (exists ms, fst (PurgeData.handler env w) =
                 Return {| purgedCount := List.length (filter warningSent (violations w));
                           executionTimeMs := ms |}) /\
     violations (snd (PurgeData.handler env w)) = filter unsent (violations w)).
Proof.
  split; [apply purgeData_keeps_unsent | ]. split.
  - destruct (purgeData_keeps_unsent env w) as [-> | ->];
      [reflexivity | apply filter_unsent_idem].
  - intros cs. apply purgeData_deletes_sent.
Qed.

Lemma purgeData_deletes_exactly_sent_witness :
  (exists ms, fst (PurgeData.handler (sample_env (JBool false)) five_sent_two_unsent) =
              Return {| purgedCount := 5; executionTimeMs := ms |}) /\
  violations (snd (PurgeData.handler (sample_env (JBool false)) five_sent_two_unsent)) =
    [sample_violation "u1" false; sample_violation "u2" false].
Proof.
  exact (proj2 (proj2 (purgeData_deletes_exactly_sent (sample_env (JBool false))
                         five_sent_two_unsent))
           "mongodb://localhost:27017" eq_refl eq_refl eq_refl (fun _ => eq_refl) eq_refl).
Defined.

(** ** Missing store configuration *)

(** Without [MONGODB_CONNECTION_STRING] the ingestion path does not fail:
    the service takes the literal of the source as its connection
    string, connects with it and stores the violation. *)
Lemma ingestion_falls_back_to_literal :
  let env := without_mongodb_configuration (sample_env (JBool false)) in
  let w := fresh_world [] registry in
  MONGODB_CONNECTION_STRING env = None /\
  fst (StoreViolationService.getMongoClient env w) = Return tt /\
  fst (ProcessGpsData.handler env (fix_of "V1") w) = Return tt /\
  client (service (snd (ProcessGpsData.handler env (fix_of "V1") w))) = Some fallbackConnectionString /\
  List.length (violations (snd (ProcessGpsData.handler env (fix_of "V1") w))) = 1.
Proof. cbv zeta. repeat split; vm_compute; reflexivity. Qed.

(** C7, as the code has it.  In the scanner and in the sweeper, a run
    that has to initialise its client and finds no
    [MONGODB_CONNECTION_STRING] fails with the error of [getMongoClient]:
    the handler logs it with [context.error] and rethrows it, and the
    collection is as before. *)
Theorem missing_configuration_aborts env w :
  let message := not_configured "MONGODB_CONNECTION_STRING" in
  configured (MONGODB_CONNECTION_STRING env) = None ->
  (client (scanner w) = None ->
   fst (ScanViolations.handler env w) = Throw message /\
   violations (snd (ScanViolations.handler env w)) = violations w /\
   trace (snd (ScanViolations.handler env w)) =
     trace w ++ [Logged Info "Violation scanner timer trigger function started" [];
                 Logged Error "Failed to fetch unsent violations" [JStr message];
                 Logged Error "Function execution failed" [JStr message]]) /\
  (client (purge w) = None \/ database (purge w) = false ->
   fst (PurgeData.handler env w) = Throw message /\
   violations (snd (PurgeData.handler env w)) = violations w /\
   exists closing,
     trace (snd (PurgeData.handler env w)) =
     trace w ++ [Logged Info "Purge data function executed" [JStr (toISOString env (clock w))];
                 Logged Error "Error during purge operation" [JStr message]] ++ closing).
Proof.
  intros message Hcfg. subst message. split.
  - intros Hcl.
    unfold ScanViolations.handler, ScanViolations.getUnsentViolations, ScanViolations.getMongoClient,
      ScanViolations.cleanupResources.
    js_run. rewrite Hcl, Hcfg. js_run. rewrite Hcl. js_run.
    repeat split. now rewrite <- !app_assoc.
  - intros Hcl.
    unfold PurgeData.handler, PurgeData.getMongoClient, PurgeData.cleanupResources, await.
    js_run.
    assert (H : match client (purge w) with
                | Some _ => database (purge w)
                | None => false
                end = false)
      by (destruct Hcl as [-> | ->]; [reflexivity | now destruct (client (purge w))]).
    rewrite H, Hcfg. js_run.
    destruct (client (purge w)); js_run; [destruct (fault env Close); js_run | ].
    all: split; [reflexivity | split; [reflexivity | ]].
    all: rewrite <- ?app_assoc; eexists; cbn [app]; reflexivity.
Qed.

Lemma missing_configuration_aborts_witness :
  fst (ScanViolations.handler (without_mongodb_configuration (sample_env (JBool false)))
         three_unsent)
    = Throw "MONGODB_CONNECTION_STRING environment variable is not configured" /\
  fst (PurgeData.handler (without_mongodb_configuration (sample_env (JBool false)))
         five_sent_two_unsent)
    = Throw "MONGODB_CONNECTION_STRING environment variable is not configured".
Proof.
  pose proof (missing_configuration_aborts
                (without_mongodb_configuration (sample_env (JBool false))) three_unsent
                eq_refl) as [S _].
  pose proof (missing_configuration_aborts
                (without_mongodb_configuration (sample_env (JBool false)))
                five_sent_two_unsent eq_refl) as [_ P].
  split; [exact (proj1 (S eq_refl)) | exact (proj1 (P (or_introl eq_refl)))].
Defined.

(** ** From the generator to the consumer *)

Lemma findVehicleUser_extends env vehicle w :
  extends w (snd (StoreViolationService.findVehicleUser env vehicle w)).
Proof.
  unfold StoreViolationService.findVehicleUser, StoreViolationService.getMongoClient, await, extends.
  js_cases; rewrite <- ?app_assoc; eexists; reflexivity.
Qed.

Lemma storeViolation_extends env d w :
  extends w (snd (StoreViolationService.storeViolation env d w)).
Proof.
  unfold StoreViolationService.storeViolation, StoreViolationService.getMongoClient, await, extends.
  js_cases; rewrite <- ?app_assoc; eexists; reflexivity.
Qed.

Lemma record_violation_extends env fields w :
  extends w (snd (record_violation env fields w)).
Proof.
  unfold record_violation. js_run.
  pose proof (findVehicleUser_extends env (prop (JObj fields) "vehicleId") w) as E1.
  destruct (StoreViolationService.findVehicleUser env _ w) as [[[r|]|e] w1]; cbn [fst snd] in *; js_run.
  - match goal with |- context [StoreViolationService.storeViolation env ?d w1] =>
      pose proof (storeViolation_extends env d w1) as E2;
      destruct (StoreViolationService.storeViolation env d w1) as [[[]|e] w2] end;
      cbn [fst snd] in *; js_run;
      (eapply extends_trans; [exact E1 | ]);
      (eapply extends_trans; [exact E2 | ]); eexists; reflexivity.
  - eapply extends_trans; [exact E1 | ]. eexists; reflexivity.
  - eapply extends_trans; [exact E1 | ]. eexists; reflexivity.
Qed.

(** Whatever follows, the handler first logs the four fields it
    destructured and calls the geofence service on the last two. *)
Lemma processGpsData_evaluates env fields w :
  let message := JObj fields in
  exists rest,
    trace (snd (ProcessGpsData.handler env message w)) =
    trace w ++
      Logged Info "Processing GPS data"
        [prop message "vehicleId"; prop message "timestamp";
         prop message "latitude"; prop message "longitude"]
      :: Evaluated (prop message "longitude") (prop message "latitude")
      :: rest.
Proof.
  cbv zeta.
  destruct (isWithinGeofence env (prop (JObj fields) "longitude")
              (prop (JObj fields) "latitude")) as [v|e] eqn:Hv.
  - destruct (truthy v) eqn:Ht.
    + unfold ProcessGpsData.handler, destructure, GeofenceService.isWithinGeofence.
      js_run. rewrite Hv. js_run. rewrite Ht. js_run.
      eexists. rewrite <- !app_assoc. reflexivity.
    + rewrite (processGpsData_outside env fields w v Hv Ht).
      destruct (record_violation_extends env fields (detected fields w)) as [es T].
      eexists. rewrite T. unfold detected. js_run. rewrite <- !app_assoc. reflexivity.
  - unfold ProcessGpsData.handler, destructure, GeofenceService.isWithinGeofence.
    js_run. rewrite Hv. js_run. eexists. rewrite <- !app_assoc. reflexivity.
Qed.

Lemma enqueued_refl w : enqueued w w.
Proof. exists []. split; [now rewrite app_nil_r | constructor]. Qed.

Lemma enqueued_trans w1 w2 w3 : enqueued w1 w2 -> enqueued w2 w3 -> enqueued w1 w3.
Proof.
  intros (b1 & Q1 & F1) (b2 & Q2 & F2). exists (b1 ++ b2). split.
  - now rewrite Q2, Q1, app_assoc.
  - apply Forall_app. now split.
Qed.

Lemma enqueued_same (f : World -> World) :
  (forall w, queue (f w) = queue w) -> keeps enqueued (modify f).
Proof.
  intros H w. exists []. cbn [modify snd]. split; [now rewrite H, app_nil_r | constructor].
Qed.

Lemma enqueued_await env o : keeps enqueued (await env o).
Proof.
  intros w. exists []. unfold await.
  destruct (fault env o); cbn [snd]; (split; [now rewrite app_nil_r | constructor]).
Qed.

(** The object literal of the handler is free of coordinates whatever
    its five values are. *)
Lemma message_coordinate_free (t v c r ps : jsval) :
  coordinate_free
    (JObj [("timestamp", t); ("vehicleId", v); ("center", c); ("radiusKm", r); ("points", ps)]).
Proof.
  split; [reflexivity | ]. split; [reflexivity | ]. split; [reflexivity | ].
  intros env w.
  destruct (processGpsData_evaluates env
              [("timestamp", t); ("vehicleId", v); ("center", c); ("radiusKm", r);
               ("points", ps)] w) as [rest T].
  exists rest. exact T.
Qed.

Lemma enqueued_send message :
  coordinate_free message ->
  keeps enqueued (modify (fun w => set_queue (queue w ++ [message]) w)).
Proof.
  intros H w. exists [message]. split; [reflexivity | ]. now constructor.
Qed.

Ltac enqueue :=
  repeat first
    [ progress frame enqueued_refl enqueued_trans
    | apply enqueued_await
    | apply enqueued_send; apply message_coordinate_free
    | apply enqueued_same; intros ?; reflexivity
    | match goal with
      | |- keeps _ (if ?b then _ else _) => destruct b
      end ].

Lemma generateGpsPoints_enqueues env request :
  keeps enqueued (GenerateGpsData.handler env request).
Proof.
  unfold GenerateGpsData.handler, GenerateGpsData.getServiceBusSender,
    GenerateGpsData.getServiceBusClient, member,
    context_log, context_warn, context_error, emit.
  enqueue.
Qed.

Lemma generateGpsPoints_sends env w cs :
  configured (SERVICE_BUS_CONNECTION_STRING env) = Some cs ->
  (forall body, fault env (SendMessages body) = None) ->
  exists body,
    queue (snd (GenerateGpsData.handler env EmptyBody w)) = queue w ++ [body] /\
    fst (GenerateGpsData.handler env EmptyBody w) =
      Return (Status200 (JInt 100) (JInt 20) body).
Proof.
  intros Hcs Hf.
  unfold GenerateGpsData.handler, GenerateGpsData.getServiceBusSender,
    GenerateGpsData.getServiceBusClient, await, member.
  js_run. rewrite Hcs.
  destruct (serviceBusSenderInstance w); [ | destruct (serviceBusClientInstance w)];
    js_run; rewrite Hf; js_run; eexists; split; reflexivity.
Qed.

(** C10. Whatever a request to the generator puts on the queue is a body
    with exactly the properties [timestamp], [vehicleId], [center],
    [radiusKm] and [points]: it has no [latitude] and no [longitude] of
    its own, so the consumer, handed this body, destructures both as
    [undefined] and calls the geofence service on
    [(undefined, undefined)].  With the bus configured and answering, a
    request without a body does put one such message on the queue. *)
Theorem generateGpsPoints_message_has_no_coordinates env request w :
  (exists bodies,
     queue (snd (GenerateGpsData.handler env request w)) = queue w ++ bodies /\
     Forall coordinate_free bodies) /\
  (forall cs,
     configured (SERVICE_BUS_CONNECTION_STRING env) = Some cs ->
     (forall body, fault env (SendMessages body) = None) ->
     request = EmptyBody ->
     exists body,
       queue (snd (GenerateGpsData.handler env request w)) = queue w ++ [body] /\
       fst (GenerateGpsData.handler env request w) =
         Return (Status200 (JInt 100) (JInt 20) body) /\
       coordinate_free body).
Proof.
  split; [apply (generateGpsPoints_enqueues env request w) | ].
  intros cs Hcs Hf ->.
  destruct (generateGpsPoints_sends env w cs Hcs Hf) as (body & Q & R).
  destruct (generateGpsPoints_enqueues env EmptyBody w) as (bodies & Q' & F).
  exists body. split; [exact Q | split; [exact R | ]].
  rewrite Q in Q'. apply app_inv_head in Q'. subst bodies.
  now inversion F.
Qed.

Lemma generateGpsPoints_message_has_no_coordinates_witness :
  exists body,
    queue (snd (GenerateGpsData.handler (sample_env (JBool false)) EmptyBody
                  (fresh_world [] registry))) = [] ++ [body] /\
    fst (GenerateGpsData.handler (sample_env (JBool false)) EmptyBody
           (fresh_world [] registry))
      = Return (Status200 (JInt 100) (JInt 20) body) /\
    coordinate_free body.
Proof.
  exact (proj2 (generateGpsPoints_message_has_no_coordinates (sample_env (JBool false))
                  EmptyBody (fresh_world [] registry))
           "Endpoint=sb://bus.example" eq_refl (fun _ => eq_refl) eq_refl).
Defined.

(** * Further properties of the code *)

(** ** The ingestion consumer *)



(** X2. Whatever the message, the geofence service and the store do, the
    ingestion handler only ever appends: the ownership collection is as
    before, and the violations are as before or followed by one new
    unsent document for the vehicle of the message. *)
Theorem ingestion_appends_at_most_one env message w :
  userVehicles (snd (ProcessGpsData.handler env message w)) = userVehicles w /\
  (violations (snd (ProcessGpsData.handler env message w)) = violations w \/
   exists d,
     violations (snd (ProcessGpsData.handler env message w)) = violations w ++ [d] /\
     warningSent d = false /\
     vehicleId d = prop message "vehicleId").
Proof.
  destruct (ProcessGpsData.handler env message w) as [r w'] eqn:E. revert E.
  unfold ProcessGpsData.handler, destructure, GeofenceService.isWithinGeofence.
  assert (Hnull : forall e,
             (try_catch (A := unit) (throw e)
                (fun error => context_error "Error processing message" [JStr error] ;;
                              throw error) w = (r, w')) ->
             userVehicles w' = userVehicles w /\
             (violations w' = violations w \/
              exists d, violations w' = violations w ++ [d] /\
                        warningSent d = false /\ vehicleId d = prop message "vehicleId")).
  { intros e. js_run. intros E; injection E as <- <-. js_run. split; [reflexivity | now left]. }
  destruct message; js_run; try (exact (Hnull _)); clear Hnull;
    match goal with |- context [isWithinGeofence ?en ?a ?b] =>
      destruct (isWithinGeofence en a b) as [v|e] end; js_run;
    try (destruct (truthy v); js_run);
    try (intros E; injection E as <- <-; js_run; split; [reflexivity | now left]);
    match goal with |- context [StoreViolationService.findVehicleUser ?en ?a ?b] =>
      pose proof (findVehicleUser_spec en a b) as S1;
      destruct (StoreViolationService.findVehicleUser en a b) as [[[u|]|e] w1] end;
    cbn [fst snd] in S1; destruct S1 as ((Sv & Su & _ & _) & _);
    cbn [violations userVehicles] in Sv, Su; js_run;
    try (intros E; injection E as <- <-; js_run; split; [exact Su | left; exact Sv]);
    match goal with |- context [StoreViolationService.storeViolation ?en ?d ?x] =>
      pose proof (storeViolation_spec en d x) as S2;
      destruct (StoreViolationService.storeViolation en d x) as [[[]|e] w2] end;
    cbn [fst snd] in S2; destruct S2 as (Su2 & S2); js_run;
    intros E; injection E as <- <-; js_run;
    (split; [congruence | ]);
    try (left; congruence);
    destruct S2 as (now & Sv2 & _); right; eexists;
    (split; [rewrite Sv2, Sv; reflexivity | split; reflexivity]).
Qed.

(** ** The singleton of the service *)

(** X3. A rejected [connect()] leaves the service with a client and no
    database, and [getMongoClient] itself does not retry: called again it
    returns normally, without any driver call, with the database still
    missing. *)
Theorem service_failed_connect_is_kept env w m :
  client (service w) = None ->
  database (service w) = false ->
  fault env (Connect (StoreViolationService.connectionString env)) = Some m ->
  let w1 := snd (StoreViolationService.getMongoClient env w) in
  fst (StoreViolationService.getMongoClient env w) = Throw m /\
  half_initialised (service w1) /\
  violations w1 = violations w /\
  StoreViolationService.getMongoClient env w1 = (Return tt, w1).
Proof.
  intros Hc Hd Hf. cbv zeta.
  destruct (StoreViolationService.getMongoClient env w) as [r w1] eqn:E. revert E.
  unfold StoreViolationService.getMongoClient, await, half_initialised.
  js_run. rewrite Hc. js_run. rewrite Hf. js_run.
  intros E; injection E as <- <-. js_run. rewrite Hd.
  repeat split. discriminate.
Qed.

Lemma service_failed_connect_is_kept_witness :
  half_initialised
    (service (snd (StoreViolationService.getMongoClient
                     (with_fault connect_rejects (sample_env (JBool false)))
                     (fresh_world [] registry)))).
Proof.
  exact (proj1 (proj2 (service_failed_connect_is_kept
                         (with_fault connect_rejects (sample_env (JBool false)))
                         (fresh_world [] registry) "server selection timed out"
                         eq_refl eq_refl eq_refl))).
Defined.

(** X4. [findVehicleUser] repairs a half-initialised service: it logs
    that the database is null, drops the client, connects again and then
    runs the query; when both calls are answered it returns the first
    ownership document of the vehicle, or none. *)
Theorem findVehicleUser_reinitialises env vehicle w :
  half_initialised (service w) ->
  fault env (Connect (StoreViolationService.connectionString env)) = None ->
  fault env (FindOne vehicle) = None ->
  let found := find (vid_matches vehicle) (userVehicles w) in
  fst (StoreViolationService.findVehicleUser env vehicle w) = Return found /\
  service (snd (StoreViolationService.findVehicleUser env vehicle w)) =
    {| client := Some (StoreViolationService.connectionString env); database := true |} /\
  trace (snd (StoreViolationService.findVehicleUser env vehicle w)) =
    trace w ++ [Logged Error "Database object is null, reinitializing" [];
                Called (Connect (StoreViolationService.connectionString env));
                Logged Info "Looking up vehicle ID" [vehicle];
                Called (FindOne vehicle);
                match found with
                | Some u => Logged Info "Found vehicle associated with email"
                              [vehicle; JStr (owner_email u)]
                | None => Logged Warn "No ownership record found for vehicle" [vehicle]
                end].
Proof.
  intros [Hc Hd] Hcon Hfind. cbv zeta.
  destruct (StoreViolationService.findVehicleUser env vehicle w) as [r w'] eqn:E. revert E.
  unfold StoreViolationService.findVehicleUser, StoreViolationService.getMongoClient, await.
  js_run. destruct (client (service w)); [ | congruence].
  js_run. rewrite Hd. js_run. rewrite Hcon. js_run. rewrite Hfind. js_run.
  destruct (find (vid_matches vehicle) (userVehicles w)); js_run;
    intros E; injection E as <- <-; js_run;
    repeat split; now rewrite <- !app_assoc.
Qed.

Lemma findVehicleUser_reinitialises_witness :
  fst (StoreViolationService.findVehicleUser (sample_env (JBool false)) (JStr "V1")
         (set_service {| client := Some "mongodb://localhost:27017"; database := false |}
            (fresh_world [] registry)))
    = Return (Some {| vid := "V1"; owner_email := "a@x.com" |}).
Proof.
  refine (proj1 (findVehicleUser_reinitialises (sample_env (JBool false)) (JStr "V1")
                   (set_service {| client := Some "mongodb://localhost:27017";
                                   database := false |}
                      (fresh_world [] registry)) _ eq_refl eq_refl)).
  split; [discriminate | reflexivity].
Defined.

(** X5. [storeViolation] does not repair it: on a half-initialised
    service it throws on the null database, makes no driver call, draws
    no identifier, inserts nothing, and logs the error before rethrowing. *)
Theorem storeViolation_needs_database env d w :
  half_initialised (service w) ->
  fst (StoreViolationService.storeViolation env d w) = Throw null_database /\
  violations (snd (StoreViolationService.storeViolation env d w)) = violations w /\
  drawn (snd (StoreViolationService.storeViolation env d w)) = drawn w /\
  service (snd (StoreViolationService.storeViolation env d w)) = service w /\
  trace (snd (StoreViolationService.storeViolation env d w)) =
    trace w ++ [Logged Error "Error storing violation" [JStr null_database]].
Proof.
  intros [Hc Hd].
  destruct (StoreViolationService.storeViolation env d w) as [r w'] eqn:E. revert E.
  unfold StoreViolationService.storeViolation, StoreViolationService.getMongoClient.
  js_run. destruct (client (service w)); [ | congruence].
  js_run. rewrite Hd. js_run.
  intros E; injection E as <- <-. js_run. repeat split.
Qed.

Lemma storeViolation_needs_database_witness :
  fst (StoreViolationService.storeViolation (sample_env (JBool false))
         {| vd_vehicleId := JStr "V1"; vd_email := "a@x.com";
            vd_latitude := JNum (50 # 1); vd_longitude := JNum (50 # 1);
            vd_timestamp := JStr "2025-01-01T00:00:00.000Z" |}
         (set_service {| client := Some "mongodb://localhost:27017"; database := false |}
            (fresh_world [] registry)))
    = Throw null_database.
Proof.
  refine (proj1 (storeViolation_needs_database (sample_env (JBool false)) _
                   (set_service {| client := Some "mongodb://localhost:27017";
                                   database := false |}
                      (fresh_world [] registry)) _)).
  split; [discriminate | reflexivity].
Defined.



(** ** The scanner, record by record *)

Lemma processViolation_unnumbered env v w :
  is_number (latitude v) && is_number (longitude v) = false ->
  fst (ScanViolations.processViolation env v w) = Return false /\
  violations (snd (ScanViolations.processViolation env v w)) = violations w /\
  exists es,
    trace (snd (ScanViolations.processViolation env v w)) = trace w ++ es /\
    forall o, ~ In (Called o) es.
Proof.
  intros Hn.
  destruct (ScanViolations.processViolation env v w) as [r w'] eqn:E. revert E.
  unfold ScanViolations.processViolation, ScanViolations.sendViolationEmail,
    ScanViolations.getEmailClient.
  destruct (toFixed_cases (latitude v)) as [[L ->]|[L [e1 ->]]];
    destruct (toFixed_cases (longitude v)) as [[G ->]|[G [e2 ->]]];
    try (rewrite L, G in Hn; discriminate Hn);
    js_cases; intros E; injection E as <- <-; js_run;
    (split; [reflexivity | split; [reflexivity | ]]);
    rewrite <- ?app_assoc; eexists; (split; [reflexivity | ]);
    intros o Ho; cbn [app In] in Ho; intuition discriminate.
Qed.

(** X7. A violation whose latitude or longitude is not a number cannot be
    notified: whatever the environment, processing it ends in the
    [catch] of the loop (the template's [toFixed] throws), no driver is
    called - no e-mail, no update - and the collection is as before. *)
Theorem unnumbered_coordinates_never_notified env v w :
  is_number (latitude v) && is_number (longitude v) = false ->
  fst (ScanViolations.processViolation env v w) = Return false /\
  violations (snd (ScanViolations.processViolation env v w)) = violations w /\
  exists es,
    trace (snd (ScanViolations.processViolation env v w)) = trace w ++ es /\
    forall o, ~ In (Called o) es.
Proof. exact (processViolation_unnumbered env v w). Qed.

Lemma unnumbered_coordinates_never_notified_witness :
  fst (ScanViolations.processViolation (sample_env (JBool false)) violation_without_coordinates
         (fresh_world [violation_without_coordinates] registry)) = Return false.
Proof.
  exact (proj1 (unnumbered_coordinates_never_notified (sample_env (JBool false))
                  violation_without_coordinates
                  (fresh_world [violation_without_coordinates] registry) eq_refl)).
Defined.

(** X8. When the e-mail goes out and the update is then rejected, the
    record is counted as failed and stays as it was, although both calls
    of the notifier were made for it: it is still unsent for the next
    run, which will e-mail the owner again. *)
Theorem sent_but_unmarked_stays_unsent env v w m :
  connected (scanner w) ->
  delivered env (email_ready env w) v = true ->
  fault env (UpdateOne (violationId v)) = Some m ->
  fst (ScanViolations.processViolation env v w) = Return false /\
  violations (snd (ScanViolations.processViolation env v w)) = violations w /\
  exists es,
    trace (snd (ScanViolations.processViolation env v w)) = trace w ++ es /\
    In (Called (BeginSend v)) es /\
    In (Called (PollUntilDone v)) es /\
    In (Called (UpdateOne (violationId v))) es.
Proof.
  intros [Hc Hd] Hdel Hf.
  unfold delivered, resolves, email_ready in Hdel.
  apply andb_prop in Hdel as [Hdel Hp]. apply andb_prop in Hdel as [Hdel Hb].
  apply andb_prop in Hdel as [Hdel G]. apply andb_prop in Hdel as [Hr L].
  destruct (fault env (BeginSend v)) eqn:Fb; [discriminate Hb | ].
  destruct (fault env (PollUntilDone v)) eqn:Fp; [discriminate Hp | ].
  destruct (ScanViolations.processViolation env v w) as [r w'] eqn:E. revert E.
  unfold ScanViolations.processViolation, ScanViolations.sendViolationEmail,
    ScanViolations.getEmailClient, ScanViolations.markViolationAsWarned,
    ScanViolations.getMongoClient, await.
  destruct (toFixed_cases (latitude v)) as [[_ ->]|[L' _]]; [ | congruence].
  destruct (toFixed_cases (longitude v)) as [[_ ->]|[G' _]]; [ | congruence].
  js_run.
  destruct (emailClient w) eqn:Ec; js_run;
    [ | destruct (configured (COMMUNICATION_SERVICES_CONNECTION_STRING env));
        [js_run | discriminate Hr]];
    rewrite Fb; js_run; rewrite Fp; js_run;
    (destruct (client (scanner w)); [ | congruence]); js_run;
    rewrite Hd; js_run; rewrite Hf; js_run;
    intros E; injection E as <- <-; js_run;
    (split; [reflexivity | split; [reflexivity | ]]);
    rewrite <- !app_assoc; cbn [app]; eexists;
    (split; [reflexivity | ]); cbn [In]; tauto.
Qed.

Lemma sent_but_unmarked_stays_unsent_witness :
  let w := set_scanner {| client := Some "mongodb://localhost:27017"; database := true |}
             (fresh_world [sample_violation "v1" false] registry) in
  fst (ScanViolations.processViolation (with_fault update_rejects (sample_env (JBool false)))
         (sample_violation "v1" false) w) = Return false /\
  violations (snd (ScanViolations.processViolation
                     (with_fault update_rejects (sample_env (JBool false)))
                     (sample_violation "v1" false) w)) = [sample_violation "v1" false].
Proof.
  cbv zeta.
  pose proof (sent_but_unmarked_stays_unsent
                (with_fault update_rejects (sample_env (JBool false)))
                (sample_violation "v1" false)
                (set_scanner {| client := Some "mongodb://localhost:27017"; database := true |}
                   (fresh_world [sample_violation "v1" false] registry))
                "write conflict") as H.
  assert (C : connected (scanner (set_scanner {| client := Some "mongodb://localhost:27017";
                                                 database := true |}
                                    (fresh_world [sample_violation "v1" false] registry))))
    by (split; [discriminate | reflexivity]).
  specialize (H C eq_refl eq_refl).
  split; [exact (proj1 H) | exact (proj1 (proj2 H))].
Defined.

(** X9. Marking an identifier that no document carries is not an error:
    the update is acknowledged with matched = 0 and modified = 0 and the
    collection is as before. *)
Theorem markViolationAsWarned_unknown_id env id w :
  connected (scanner w) ->
  fault env (UpdateOne id) = None ->
  (forall d, In d (violations w) -> violationId d <> id) ->
  fst (ScanViolations.markViolationAsWarned env id w) =
    Return {| matchedCount := 0; modifiedCount := 0 |} /\
  violations (snd (ScanViolations.markViolationAsWarned env id w)) = violations w.
Proof.
  intros Hc Hf Habs.
  pose proof (markViolationAsWarned_spec env id w Hc) as S.
  destruct (ScanViolations.markViolationAsWarned env id w) as [r w'].
  cbn [fst snd] in *. destruct S as (_ & _ & _ & _ & S).
  unfold resolves in S. rewrite Hf in S.
  destruct r as [result|e]; [ | destruct S; discriminate].
  destruct S as [_ S]. rewrite (updateOne_absent _ _ _ Habs) in S.
  injection S as <- <-. split; reflexivity.
Qed.

Lemma markViolationAsWarned_unknown_id_witness :
  fst (ScanViolations.markViolationAsWarned (sample_env (JBool false)) "v9"
         (set_scanner {| client := Some "mongodb://localhost:27017"; database := true |}
            (fresh_world [sample_violation "v1" false] registry)))
    = Return {| matchedCount := 0; modifiedCount := 0 |}.
Proof.
  refine (proj1 (markViolationAsWarned_unknown_id (sample_env (JBool false)) "v9"
                   (set_scanner {| client := Some "mongodb://localhost:27017";
                                   database := true |}
                      (fresh_world [sample_violation "v1" false] registry)) _ eq_refl _)).
  - split; [discriminate | reflexivity].
  - intros d [<-|[]]. discriminate.
Defined.

(** X10. Marking an unsent document, found first under its identifier,
    reports matched = 1 and modified = 1, sets [warningSent] and
    [warningSentAt], leaves every other field and document alone, and
    takes the document out of what the scanner's query selects. *)
Theorem markViolationAsWarned_marks_unsent env w pre d post :
  violations w = pre ++ d :: post ->
  (forall x, In x pre -> violationId x <> violationId d) ->
  warningSent d = false ->
  connected (scanner w) ->
  fault env (UpdateOne (violationId d)) = None ->
  let w' := snd (ScanViolations.markViolationAsWarned env (violationId d) w) in
  fst (ScanViolations.markViolationAsWarned env (violationId d) w) =
    Return {| matchedCount := 1; modifiedCount := 1 |} /\
  violations w' = pre ++ set_warned (clock w) d :: post /\
  filter unsent (violations w) = filter unsent pre ++ d :: filter unsent post /\
  filter unsent (violations w') = filter unsent pre ++ filter unsent post.
Proof.
  intros Hv Hpre Hs Hc Hf. cbv zeta.
  pose proof (markViolationAsWarned_spec env (violationId d) w Hc) as S.
  destruct (ScanViolations.markViolationAsWarned env (violationId d) w) as [r w'].
  cbn [fst snd] in *. destruct S as (_ & _ & _ & _ & S).
  unfold resolves in S. rewrite Hf in S.
  destruct r as [result|e]; [ | destruct S; discriminate].
  destruct S as [_ S]. rewrite Hv, (updateOne_first _ _ _ _ _ eq_refl Hpre) in S.
  injection S as <- <-. unfold already_set. rewrite Hs. cbn [andb].
  split; [reflexivity | split; [reflexivity | ]].
  assert (Ud : unsent d = true) by (unfold unsent; now rewrite Hs).
  assert (Um : unsent (set_warned (clock w) d) = false) by reflexivity.
  rewrite Hv, !filter_app. cbn [filter]. rewrite Ud, Um. split; reflexivity.
Qed.

Lemma markViolationAsWarned_marks_unsent_witness :
  let w := set_scanner {| client := Some "mongodb://localhost:27017"; database := true |}
             (fresh_world [sample_violation "v1" false] registry) in
  filter unsent
    (violations (snd (ScanViolations.markViolationAsWarned (sample_env (JBool false)) "v1" w)))
    = [].
Proof.
  cbv zeta.
  refine (proj2 (proj2 (proj2 (markViolationAsWarned_marks_unsent (sample_env (JBool false))
                   (set_scanner {| client := Some "mongodb://localhost:27017";
                                   database := true |}
                      (fresh_world [sample_violation "v1" false] registry))
                   [] (sample_violation "v1" false) [] eq_refl _ eq_refl _ eq_refl)))).
  - intros x [].
  - split; [discriminate | reflexivity].
Defined.

(** ** The scanner, run by run *)

(** One step along a bind, a handler or a branch; lemmas about whole
    functions are tried before it. *)
Ltac frame1 R_refl R_trans :=
  first
    [ apply (keeps_ret _ R_refl)
    | apply (keeps_throw _ R_refl)
    | apply (keeps_get _ R_refl)
    | apply (keeps_Date_now _ R_refl)
    | apply (keeps_bind _ R_trans); [ | intro]
    | apply (keeps_try_catch _ R_trans); [ | intro]
    | apply (keeps_try_finally _ R_trans)
    | match goal with
      | |- keeps _ (match ?x with _ => _ end) => destruct x
      end ].

(** *** What a run does to the collection *)

Lemma marked_or_same_refl d : marked_or_same d d.
Proof. now left. Qed.

Lemma marked_or_same_trans d1 d2 d3 :
  marked_or_same d1 d2 -> marked_or_same d2 d3 -> marked_or_same d1 d3.
Proof.
  intros [->|[n1 ->]] [->|[n2 ->]].
  - now left.
  - right. now exists n2.
  - right. now exists n1.
  - right. exists n2. reflexivity.
Qed.

Lemma Forall2_marked_refl docs : Forall2 marked_or_same docs docs.
Proof. induction docs; constructor; [apply marked_or_same_refl | assumption]. Qed.

Lemma Forall2_marked_trans l1 l2 l3 :
  Forall2 marked_or_same l1 l2 -> Forall2 marked_or_same l2 l3 ->
  Forall2 marked_or_same l1 l3.
Proof.
  intros H12. revert l3. induction H12 as [|a b l1 l2 Hab _ IH]; intros l3 H23.
  - inversion H23. constructor.
  - inversion H23 as [|? c ? l3' Hbc H23']; subst. constructor.
    + exact (marked_or_same_trans _ _ _ Hab Hbc).
    + now apply IH.
Qed.

Lemma only_marks_refl w : only_marks w w.
Proof. split; [apply Forall2_marked_refl | reflexivity]. Qed.

Lemma only_marks_trans w1 w2 w3 : only_marks w1 w2 -> only_marks w2 w3 -> only_marks w1 w3.
Proof.
  intros [F1 U1] [F2 U2]. split.
  - exact (Forall2_marked_trans _ _ _ F1 F2).
  - congruence.
Qed.

Lemma only_marks_same w w' :
  violations w' = violations w -> userVehicles w' = userVehicles w -> only_marks w w'.
Proof. intros Hv Hu. split; [rewrite Hv; apply Forall2_marked_refl | exact Hu]. Qed.

Lemma updateOne_only_marks id now docs :
  Forall2 marked_or_same docs (fst (updateOne id now docs)).
Proof.
  induction docs as [|d docs IH]; simpl; [constructor | ].
  destruct (String.eqb (violationId d) id); simpl.
  - constructor; [right; now exists now | apply Forall2_marked_refl].
  - destruct (updateOne id now docs) as [rest r]. simpl in *.
    constructor; [apply marked_or_same_refl | exact IH].
Qed.

Lemma only_marks_emit e : keeps only_marks (emit e).
Proof. intros w. now apply only_marks_same. Qed.

Lemma only_marks_await env o : keeps only_marks (await env o).
Proof. intros w. unfold await. destruct (fault env o); now apply only_marks_same. Qed.

Lemma markViolationAsWarned_only_marks env id :
  keeps only_marks (ScanViolations.markViolationAsWarned env id).
Proof.
  intros w.
  unfold ScanViolations.markViolationAsWarned, ScanViolations.getMongoClient, await.
  js_cases;
    try (now apply only_marks_same);
    match goal with |- context [updateOne ?i ?n ?l] =>
      pose proof (updateOne_only_marks i n l) as U;
      destruct (updateOne i n l) as [docs result] end;
    js_run; (split; [exact U | reflexivity]).
Qed.

Ltac marks_step :=
  first
    [ apply markViolationAsWarned_only_marks
    | apply only_marks_emit
    | apply only_marks_await
    | apply keeps_modify; intros ?; apply only_marks_same; reflexivity
    | frame1 only_marks_refl only_marks_trans ].

Ltac marks := repeat marks_step.

Lemma processViolation_only_marks env v :
  keeps only_marks (ScanViolations.processViolation env v).
Proof.
  unfold ScanViolations.processViolation, ScanViolations.sendViolationEmail,
    ScanViolations.getEmailClient, toFixed, context_log, context_error.
  marks.
Qed.

Lemma processViolations_only_marks env vs :
  forall s f, keeps only_marks (ScanViolations.processViolations env vs s f).
Proof.
  induction vs as [|v rest IH]; intros s f; cbn [ScanViolations.processViolations].
  - marks.
  - apply (keeps_bind _ only_marks_trans); [apply processViolation_only_marks | ].
    intros [|]; apply IH.
Qed.

Lemma scanner_handler_only_marks env : keeps only_marks (ScanViolations.handler env).
Proof.
  unfold ScanViolations.handler, ScanViolations.getUnsentViolations,
    ScanViolations.getMongoClient, ScanViolations.cleanupResources,
    context_log, context_error.
  repeat first [apply processViolations_only_marks | marks_step].
Qed.

(** X11. Whatever the environment does, a run of the scanner neither
    adds nor removes nor reorders documents, and never re-opens one:
    document by document the collection afterwards is the one before,
    some documents being marked as warned.  The ownership collection is
    untouched. *)
Theorem scanner_only_marks env w :
  let w' := snd (ScanViolations.handler env w) in
  Forall2 marked_or_same (violations w) (violations w') /\
  userVehicles w' = userVehicles w /\
  map violationId (violations w') = map violationId (violations w) /\
  Forall2 (fun d d' => warningSent d = true -> warningSent d' = true)
    (violations w) (violations w').
Proof.
  cbv zeta.
  destruct (scanner_handler_only_marks env w) as [F U].
  split; [exact F | split; [exact U | ]].
  induction F as [|d d' l l' Hd _ [IH1 IH2]]; [split; constructor | ].
  split.
  - cbn [map]. rewrite IH1. f_equal.
    destruct Hd as [->|[now ->]]; reflexivity.
  - constructor; [ | exact IH2].
    destruct Hd as [->|[now ->]]; [tauto | reflexivity].
Qed.

(** *** Whom a run e-mails *)

Lemma sends_only_refl S w : sends_only S w w.
Proof. exists []. split; [now rewrite app_nil_r | intros v []]. Qed.

Lemma sends_only_trans S w1 w2 w3 :
  sends_only S w1 w2 -> sends_only S w2 w3 -> sends_only S w1 w3.
Proof.
  intros (e1 & T1 & H1) (e2 & T2 & H2). exists (e1 ++ e2). split.
  - now rewrite T2, T1, app_assoc.
  - intros v Hv. apply in_app_or in Hv as [Hv|Hv]; [now apply H1 | now apply H2].
Qed.

Lemma sends_only_weaken (S S' : violation -> Prop) w w' :
  (forall v, S v -> S' v) -> sends_only S w w' -> sends_only S' w w'.
Proof. intros HS (es & T & H). exists es. split; [exact T | intros v Hv; apply HS, H, Hv]. Qed.

Lemma sends_only_logged S l text args : keeps (sends_only S) (emit (Logged l text args)).
Proof.
  intros w. exists [Logged l text args]. split; [reflexivity | ].
  intros v [Hv|[]]. discriminate Hv.
Qed.

Lemma sends_only_await S env o :
  (forall v, o = BeginSend v -> S v) -> keeps (sends_only S) (await env o).
Proof.
  intros Ho w. exists [Called o]. split.
  - unfold await. destruct (fault env o); reflexivity.
  - intros v [Hv|[]]. injection Hv as ->. now apply Ho.
Qed.

Lemma sends_only_quiet S (f : World -> World) :
  (forall w, trace (f w) = trace w) -> keeps (sends_only S) (modify f).
Proof.
  intros H w. exists []. cbn [modify snd]. split; [now rewrite H, app_nil_r | intros v []].
Qed.

Ltac sends S :=
  repeat first
    [ apply sends_only_logged
    | apply sends_only_await; intros ? ?; first [discriminate | congruence]
    | apply sends_only_quiet; intros ?; reflexivity
    | frame1 (sends_only_refl S) (sends_only_trans S) ].

Lemma processViolation_sends_only env v :
  keeps (sends_only (eq v)) (ScanViolations.processViolation env v).
Proof.
  unfold ScanViolations.processViolation, ScanViolations.sendViolationEmail,
    ScanViolations.getEmailClient, ScanViolations.markViolationAsWarned,
    ScanViolations.getMongoClient, toFixed, context_log, context_error.
  sends (eq v).
Qed.

Lemma processViolations_sends_only env vs :
  forall s f,
    keeps (sends_only (fun v => In v vs)) (ScanViolations.processViolations env vs s f).
Proof.
  induction vs as [|v rest IH]; intros s f; cbn [ScanViolations.processViolations].
  - sends (fun v : violation => In v []).
  - apply (keeps_bind _ (sends_only_trans _)).
    + intros w. apply (sends_only_weaken (eq v)); [ | apply processViolation_sends_only].
      intros x <-. now left.
    + intros [|] w;
        (apply (sends_only_weaken (fun x => In x rest)); [intros x Hx; now right | apply IH]).
Qed.

Lemma getUnsentViolations_sends_nothing env :
  keeps (sends_only (fun _ => False)) (ScanViolations.getUnsentViolations env).
Proof.
  unfold ScanViolations.getUnsentViolations, ScanViolations.getMongoClient,
    context_log, context_error.
  sends (fun _ : violation => False).
Qed.

Lemma cleanupResources_sends_nothing env :
  keeps (sends_only (fun _ => False)) (ScanViolations.cleanupResources env).
Proof.
  unfold ScanViolations.cleanupResources.
  sends (fun _ : violation => False).
Qed.

Lemma getUnsentViolations_result env w found :
  fst (ScanViolations.getUnsentViolations env w) = Return found ->
  found = filter unsent (violations w) /\
  violations (snd (ScanViolations.getUnsentViolations env w)) = violations w.
Proof.
  destruct (ScanViolations.getUnsentViolations env w) as [r w'] eqn:E. revert E.
  unfold ScanViolations.getUnsentViolations, ScanViolations.getMongoClient, await.
  js_cases; intros E; injection E as <- <-; js_run; intros H;
    first [discriminate H | injection H as <-; split; reflexivity].
Qed.

Lemma scanViolations_sends_only env w :
  sends_only (fun v => In v (violations w) /\ warningSent v = false)
    w (snd (ScanViolations.handler env w)).
Proof.
  set (S := fun v : violation => In v (violations w) /\ warningSent v = false).
  assert (Hnone : forall a b, sends_only (fun _ => False) a b -> sends_only S a b)
    by (intros a b; apply sends_only_weaken; tauto).
  unfold ScanViolations.handler. js_run.
  match goal with |- context [ScanViolations.getUnsentViolations env ?x] => set (w0 := x) end.
  assert (T0 : sends_only S w w0).
  { exists [Logged Info "Violation scanner timer trigger function started" []].
    split; [reflexivity | intros v [Hv|[]]; discriminate Hv]. }
  pose proof (getUnsentViolations_sends_nothing env w0) as T1.
  pose proof (getUnsentViolations_result env w0) as R1.
  change (violations w0) with (violations w) in R1.
  clearbody w0.
  destruct (ScanViolations.getUnsentViolations env w0) as [[found|e] w1]; cbn [fst snd] in *.
  - destruct (R1 found eq_refl) as [Hfound _]. clear R1.
    assert (HS : forall v, In v found -> S v).
    { intros v Hv. subst found. apply filter_In in Hv as [Hin Hu]. split; [exact Hin | ].
      unfold unsent in Hu. now destruct (warningSent v). }
    clear Hfound. destruct found as [|v0 rest]; js_run.
    + match goal with |- context [ScanViolations.cleanupResources env ?x] =>
        pose proof (cleanupResources_sends_nothing env x) as T3;
        assert (T2 : sends_only S w1 x)
          by (exists [Logged Info "No new violations to process" []];
              split; [reflexivity | intros v [Hv|[]]; discriminate Hv]);
        destruct (ScanViolations.cleanupResources env x) as [[[]|e3] w3] end;
        cbn [snd] in *;
        apply (sends_only_trans S _ _ _ T0);
        apply (sends_only_trans S _ _ _ (Hnone _ _ T1));
        apply (sends_only_trans S _ _ _ T2);
        exact (Hnone _ _ T3).
    + pose proof (processViolations_sends_only env (v0 :: rest) 0 0 w1) as T2.
      apply (sends_only_weaken _ S _ _ HS) in T2.
      destruct (ScanViolations.processViolations env (v0 :: rest) 0 0 w1) as [[counts|e2] w2];
        cbn [snd] in *; js_run;
        match goal with |- context [ScanViolations.cleanupResources env ?x] =>
          pose proof (cleanupResources_sends_nothing env x) as T4;
          assert (T3 : sends_only S w2 x)
            by (eexists [_]; split; [reflexivity | intros v [Hv|[]]; discriminate Hv]);
          destruct (ScanViolations.cleanupResources env x) as [[[]|e3] w3] end;
        cbn [snd] in *;
        apply (sends_only_trans S _ _ _ T0);
        apply (sends_only_trans S _ _ _ (Hnone _ _ T1));
        apply (sends_only_trans S _ _ _ T2);
        apply (sends_only_trans S _ _ _ T3);
        exact (Hnone _ _ T4).
  - js_run.
    match goal with |- context [ScanViolations.cleanupResources env ?x] =>
      pose proof (cleanupResources_sends_nothing env x) as T3;
      assert (T2 : sends_only S w1 x)
        by (eexists [_]; split; [reflexivity | intros v [Hv|[]]; discriminate Hv]);
      destruct (ScanViolations.cleanupResources env x) as [[[]|e3] w3] end;
      cbn [snd] in *;
      apply (sends_only_trans S _ _ _ T0);
      apply (sends_only_trans S _ _ _ (Hnone _ _ T1));
      apply (sends_only_trans S _ _ _ T2);
      exact (Hnone _ _ T3).
Qed.

(** X12. Whatever the environment does, a run of the scanner begins an
    e-mail only about documents that were in the collection, unsent, when
    the run started: it never e-mails about a document already marked. *)
Theorem scanner_emails_only_unsent env w :
  exists es,
    trace (snd (ScanViolations.handler env w)) = trace w ++ es /\
    forall v, In (Called (BeginSend v)) es ->
              In v (violations w) /\ warningSent v = false.
Proof. exact (scanViolations_sends_only env w). Qed.

(** *** Edges of a run *)

(** X13. With no unsent document the run queries the collection, logs
    that there is nothing to process and closes its connection: the
    collection is untouched, and when the close is acknowledged the run
    returns normally with its module variables reset. *)
Theorem scanner_with_nothing_to_send env w :
  scanner_usable env w ->
  fault env Find = None ->
  filter unsent (violations w) = [] ->
  let w' := snd (ScanViolations.handler env w) in
  violations w' = violations w /\
  (fault env Close = None ->
   fst (ScanViolations.handler env w) = Return tt /\ scanner w' = disconnected) /\
  exists pre,
    trace w' =
    pre ++ [Called Find;
            Logged Info "Found violations with unsent warnings" [JInt 0];
            Logged Info "No new violations to process" [];
            Called Close].
Proof.
  intros U Hf Hnone. cbv zeta.
  destruct (ScanViolations.handler env w) as [r w'] eqn:E. revert E.
  unfold ScanViolations.handler, ScanViolations.getUnsentViolations,
    ScanViolations.getMongoClient, ScanViolations.cleanupResources, await.
  destruct U as [[Hc Hd]|(Hc & cs & Hcs & Hcon)].
  - destruct (client (scanner w)) eqn:C; [ | congruence].
    repeat (js_run; progress rewrite ?C, ?Hd, ?Hf, ?Hnone). js_run.
    destruct (fault env Close); js_run; intros E; injection E as <- <-; js_run;
      (split; [reflexivity | split; [intros H; first [discriminate H | now split] | ]]);
      exists (trace w ++ [Logged Info "Violation scanner timer trigger function started" []]);
      rewrite <- !app_assoc; reflexivity.
  - js_run. rewrite Hc, Hcs. js_run. rewrite Hcon. js_run. rewrite Hf. js_run.
    rewrite Hnone. js_run.
    destruct (fault env Close); js_run; intros E; injection E as <- <-; js_run;
      (split; [reflexivity | split; [intros H; first [discriminate H | now split] | ]]);
      exists (trace w ++ [Logged Info "Violation scanner timer trigger function started" [];
                          Called (Connect cs)]);
      rewrite <- !app_assoc; reflexivity.
Qed.

Lemma scanner_with_nothing_to_send_witness :
  fst (ScanViolations.handler (sample_env (JBool false))
         (fresh_world [sample_violation "s1" true] registry)) = Return tt /\
  violations (snd (ScanViolations.handler (sample_env (JBool false))
                     (fresh_world [sample_violation "s1" true] registry)))
    = [sample_violation "s1" true].
Proof.
  assert (U : scanner_usable (sample_env (JBool false))
                (fresh_world [sample_violation "s1" true] registry)).
  { right. split; [reflexivity | ].
    exists "mongodb://localhost:27017". split; reflexivity. }
  pose proof (scanner_with_nothing_to_send (sample_env (JBool false))
                (fresh_world [sample_violation "s1" true] registry) U eq_refl eq_refl) as H.
  split; [exact (proj1 (proj1 (proj2 H) eq_refl)) | exact (proj1 H)].
Defined.

Lemma client_kept_refl w : client_kept w w.
Proof. intros H. exact H. Qed.

Lemma client_kept_trans w1 w2 w3 : client_kept w1 w2 -> client_kept w2 w3 -> client_kept w1 w3.
Proof. unfold client_kept. tauto. Qed.

Lemma client_kept_same w w' : scanner w' = scanner w -> client_kept w w'.
Proof. intros H. unfold client_kept. now rewrite H. Qed.

Lemma client_kept_await env o : keeps client_kept (await env o).
Proof. intros w. unfold await. destruct (fault env o); now apply client_kept_same. Qed.

Lemma client_kept_emit e : keeps client_kept (emit e).
Proof. intros w. now apply client_kept_same. Qed.

Ltac clients :=
  repeat first
    [ apply client_kept_emit
    | apply client_kept_await
    | apply keeps_modify; intros ?;
      first [ apply client_kept_same; reflexivity
            | intros ?; cbn [set_scanner scanner client]; first [assumption | discriminate] ]
    | frame1 client_kept_refl client_kept_trans ].

Lemma processViolation_client_kept env v :
  keeps client_kept (ScanViolations.processViolation env v).
Proof.
  unfold ScanViolations.processViolation, ScanViolations.sendViolationEmail,
    ScanViolations.getEmailClient, ScanViolations.markViolationAsWarned,
    ScanViolations.getMongoClient, toFixed, context_log, context_error.
  clients.
Qed.

Lemma processViolations_client_kept env vs :
  forall s f, keeps client_kept (ScanViolations.processViolations env vs s f).
Proof.
  induction vs as [|v rest IH]; intros s f; cbn [ScanViolations.processViolations].
  - clients.
  - apply (keeps_bind _ client_kept_trans); [apply processViolation_client_kept | ].
    intros [|]; apply IH.
Qed.

Lemma getUnsentViolations_has_client env w :
  client (scanner w) <> None \/ configured (MONGODB_CONNECTION_STRING env) <> None ->
  client (scanner (snd (ScanViolations.getUnsentViolations env w))) <> None.
Proof.
  intros H.
  unfold ScanViolations.getUnsentViolations, ScanViolations.getMongoClient, await.
  js_cases; try discriminate; try congruence; destruct H; congruence.
Qed.

(** X14. The scanner's cleanup is not guarded: when the run has a client
    and [close()] is rejected, the run fails with the error of the close,
    whatever the loop had achieved, and the client stays assigned. *)
Theorem scanner_close_rejection_fails_the_run env w m :
  client (scanner w) <> None \/ configured (MONGODB_CONNECTION_STRING env) <> None ->
  fault env Close = Some m ->
  fst (ScanViolations.handler env w) = Throw m /\
  client (scanner (snd (ScanViolations.handler env w))) <> None.
Proof.
  intros H Hm.
  assert (Hcleanup : forall (r : completion unit) w2,
             client (scanner w2) <> None ->
             fst (try_finally (fun w => (r, w)) (ScanViolations.cleanupResources env) w2)
               = Throw m /\
             client (scanner (snd (try_finally (fun w => (r, w))
                                     (ScanViolations.cleanupResources env) w2))) <> None).
  { intros r w2 Hc. unfold ScanViolations.cleanupResources, await. js_run.
    destruct (client (scanner w2)) eqn:C; [ | congruence].
    js_run. rewrite Hm. js_run. rewrite C. split; [reflexivity | discriminate]. }
  change (ScanViolations.handler env w) with
    (try_finally (scan_body env) (ScanViolations.cleanupResources env) (scan_started w)).
  assert (H0 : client (scanner (scan_started w)) <> None \/
               configured (MONGODB_CONNECTION_STRING env) <> None) by exact H.
  generalize dependent (scan_started w). intros w0 H0.
  assert (Hbody : client (scanner (snd (scan_body env w0))) <> None).
  { unfold scan_body, try_catch, bind.
    pose proof (getUnsentViolations_has_client env w0 H0) as G.
    destruct (ScanViolations.getUnsentViolations env w0) as [[found|e] w1]; cbn [snd] in G.
    - destruct found as [|v0 rest].
      + exact G.
      + pose proof (processViolations_client_kept env (v0 :: rest) 0 0 w1 G) as P.
        destruct (ScanViolations.processViolations env (v0 :: rest) 0 0 w1) as [[c|e] w2];
          cbn [snd] in P; exact P.
    - exact G. }
  unfold try_finally at 1 2.
  pose proof (Hcleanup (fst (scan_body env w0)) (snd (scan_body env w0)) Hbody) as K.
  unfold try_finally in K. cbn [fst snd] in K.
  destruct (scan_body env w0) as [r w2]. exact K.
Qed.

Lemma scanner_close_rejection_fails_the_run_witness :
  fst (ScanViolations.handler (with_fault close_rejects (sample_env (JBool false)))
         three_unsent) = Throw "socket closed".
Proof.
  refine (proj1 (scanner_close_rejection_fails_the_run
                   (with_fault close_rejects (sample_env (JBool false)))
                   three_unsent "socket closed" _ eq_refl)).
  right. discriminate.
Defined.

(** ** The sweeper, run by run *)

Lemma calls_only_refl P w : calls_only P w w.
Proof. exists []. split; [now rewrite app_nil_r | intros o []]. Qed.

Lemma calls_only_trans P w1 w2 w3 :
  calls_only P w1 w2 -> calls_only P w2 w3 -> calls_only P w1 w3.
Proof.
  intros (e1 & T1 & H1) (e2 & T2 & H2). exists (e1 ++ e2). split.
  - now rewrite T2, T1, app_assoc.
  - intros o Ho. apply in_app_or in Ho as [Ho|Ho]; [now apply H1 | now apply H2].
Qed.

Lemma calls_only_logged P l text args : keeps (calls_only P) (emit (Logged l text args)).
Proof.
  intros w. exists [Logged l text args]. split; [reflexivity | ].
  intros o [Ho|[]]. discriminate Ho.
Qed.

Lemma calls_only_await (P : op -> Prop) env o : P o -> keeps (calls_only P) (await env o).
Proof.
  intros Ho w. exists [Called o]. split.
  - unfold await. destruct (fault env o); reflexivity.
  - intros o' [E|[]]. injection E as <-. exact Ho.
Qed.

Lemma calls_only_quiet P (f : World -> World) :
  (forall w, trace (f w) = trace w) -> keeps (calls_only P) (modify f).
Proof.
  intros H w. exists []. cbn [modify snd]. split; [now rewrite H, app_nil_r | intros o []].
Qed.

Ltac calls P :=
  repeat first
    [ apply calls_only_logged
    | apply calls_only_await; solve [auto | cbn; auto]
    | apply calls_only_quiet; intros ?; reflexivity
    | frame1 (calls_only_refl P) (calls_only_trans P) ].

Lemma purge_getMongoClient_calls env (P : op -> Prop) :
  P Ping -> (forall cs, P (Connect cs)) ->
  keeps (calls_only P) (PurgeData.getMongoClient env).
Proof. intros HP HC. unfold PurgeData.getMongoClient. calls P. Qed.

Lemma purge_countDocuments_calls env (P : op -> Prop) b :
  P (CountDocuments b) -> keeps (calls_only P) (PurgeData.countDocuments env b).
Proof. intros HP. unfold PurgeData.countDocuments. calls P. Qed.

Lemma purge_cleanupResources_calls env (P : op -> Prop) :
  P Close -> keeps (calls_only P) (PurgeData.cleanupResources env).
Proof. intros HP. unfold PurgeData.cleanupResources. calls P. Qed.

Lemma purgeProcessedViolations_calls env :
  keeps (calls_only sweeper_op) (PurgeData.purgeProcessedViolations env).
Proof.
  unfold PurgeData.purgeProcessedViolations, context_log, context_error.
  repeat first
    [ apply purge_getMongoClient_calls; [exact I | intros ?; exact I]
    | apply purge_countDocuments_calls; exact I
    | apply calls_only_logged
    | apply calls_only_await; exact I
    | apply calls_only_quiet; intros ?; reflexivity
    | frame1 (calls_only_refl sweeper_op) (calls_only_trans sweeper_op) ].
Qed.

Lemma purgeData_calls env : keeps (calls_only sweeper_op) (PurgeData.handler env).
Proof.
  unfold PurgeData.handler, context_log, context_error.
  repeat first
    [ apply purge_getMongoClient_calls; [exact I | intros ?; exact I]
    | apply purge_countDocuments_calls; exact I
    | apply purgeProcessedViolations_calls
    | apply purge_cleanupResources_calls; exact I
    | apply calls_only_logged
    | apply calls_only_quiet; intros ?; reflexivity
    | frame1 (calls_only_refl sweeper_op) (calls_only_trans sweeper_op) ].
Qed.

(** The sweeper's cleanup never throws, and leaves no client. *)
Lemma purge_cleanupResources_releases env w :
  exists w',
    PurgeData.cleanupResources env w = (Return tt, w') /\
    client (purge w') = None /\
    violations w' = violations w /\
    exists es, trace w' = trace w ++ es /\ forall ev, In ev es -> ev = Called Close.
Proof.
  unfold PurgeData.cleanupResources, await. js_run.
  destruct (client (purge w)) eqn:C; js_run; [destruct (fault env Close); js_run | ];
    eexists; (split; [reflexivity | ]); js_run;
    (split; [first [reflexivity | exact C] | ]); (split; [reflexivity | ]);
    first [ exists [Called Close]; split; [reflexivity | intros ev [<-|[]]; reflexivity]
          | exists []; split; [now rewrite app_nil_r | intros ev []] ].
Qed.

Lemma try_finally_returning {A} (m : M A) (f : M unit) w w2 :
  f (snd (m w)) = (Return tt, w2) ->
  try_finally m f w = (fst (m w), w2).
Proof.
  intros E. unfold try_finally. destruct (m w) as [r w1]. cbn [fst snd] in *.
  now rewrite E.
Qed.

(** A [catch] that logs and rethrows has logged what it throws. *)
Lemma rethrow_is_logged {A} (m : M A) text w e :
  fst (try_catch m (fun error => context_error text [JStr error] ;; throw error) w)
    = Throw e ->
  exists pre,
    trace (snd (try_catch m (fun error => context_error text [JStr error] ;; throw error) w))
      = pre ++ [Logged Error text [JStr e]].
Proof.
  unfold try_catch. destruct (m w) as [[a|e'] w1]; js_run; [discriminate | ].
  intros H. injection H as <-. now exists (trace w1).
Qed.

Lemma bind_Date_now {A} (k : Z -> M A) w : bind Date_now k w = k (clock w) w.
Proof. reflexivity. Qed.

Lemma bind_emit {A} ev (k : unit -> M A) w :
  bind (emit ev) k w = k tt (set_trace (trace w ++ [ev]) w).
Proof. reflexivity. Qed.

(** X15. The sweeper's cleanup is guarded.  Whatever the environment
    does, after a run the module holds no client, the run has made no
    driver call other than connect, ping, count, delete and close, and
    when the run fails its error is the one the outer [catch] logged,
    as the last thing before the cleanup: a rejected [close()] is never
    what a run fails with. *)
Theorem sweeper_always_releases env w :
  let w' := snd (PurgeData.handler env w) in
  client (purge w') = None /\
  calls_only sweeper_op w w' /\
  forall e,
    fst (PurgeData.handler env w) = Throw e ->
    exists pre closing,
      trace w' = pre ++ Logged Error "Error during purge operation" [JStr e] :: closing /\
      forall ev, In ev closing -> ev = Called Close.
Proof.
  cbv zeta. split; [ | split; [apply (purgeData_calls env w) | ]].
  all: destruct (PurgeData.handler env w) as [r w'] eqn:E; cbn [fst snd].
  all: unfold PurgeData.handler in E; rewrite bind_Date_now in E; cbv beta zeta in E.
  all: unfold context_log at 1 in E; rewrite bind_emit in E; cbv beta in E.
  all: match type of E with
       | try_finally (try_catch ?inner ?h) _ ?w0 = _ =>
           pose proof (rethrow_is_logged inner "Error during purge operation" w0) as L;
           destruct (purge_cleanupResources_releases env (snd (try_catch inner h w0)))
             as (w2 & E2 & C2 & _ & es & T2 & Hes);
           rewrite (try_finally_returning _ _ _ _ E2) in E
       end.
  all: injection E as <- <-.
  - exact C2.
  - intros e He. destruct (L e He) as [pre T]. exists pre, es. split; [ | exact Hes].
    rewrite T2, T, <- app_assoc. reflexivity.
Qed.

Lemma purgeProcessedViolations_nothing env w :
  connected (purge w) ->
  fault env (CountDocuments true) = None ->
  filter warningSent (violations w) = [] ->
  exists w',
    PurgeData.purgeProcessedViolations env w = (Return 0, w') /\
    violations w' = violations w /\
    purge w' = purge w /\
    trace w' = trace w ++ [Called (CountDocuments true);
                           Logged Info "Found processed violations to purge" [JInt 0]].
Proof.
  intros [Hc Hd] Hcount Hnone.
  unfold PurgeData.purgeProcessedViolations, PurgeData.getMongoClient,
    PurgeData.countDocuments, await.
  js_run. destruct (client (purge w)); [ | congruence]. rewrite Hd. js_run.
  rewrite Hd, Hcount. js_run. rewrite Hnone. cbn [List.length Nat.eqb]. js_run.
  eexists. split; [reflexivity | ]. js_run.
  repeat split. now rewrite <- app_assoc.
Qed.

Lemma purgeProcessedViolations_rejected env w m :
  connected (purge w) ->
  fault env (CountDocuments true) = None ->
  filter warningSent (violations w) <> [] ->
  fault env DeleteMany = Some m ->
  exists w',
    PurgeData.purgeProcessedViolations env w = (Throw m, w') /\
    violations w' = violations w /\
    purge w' = purge w /\
    trace w' =
      trace w ++ [Called (CountDocuments true);
                  Logged Info "Found processed violations to purge"
                    [JInt (List.length (filter warningSent (violations w)))];
                  Called DeleteMany;
                  Logged Error "Failed to purge processed violations" [JStr m]].
Proof.
  intros [Hc Hd] Hcount Hsome Hdel.
  unfold PurgeData.purgeProcessedViolations, PurgeData.getMongoClient,
    PurgeData.countDocuments, await.
  js_run. destruct (client (purge w)); [ | congruence]. rewrite Hd. js_run.
  rewrite Hd, Hcount. js_run.
  destruct (filter warningSent (violations w)) as [|d sent]; [congruence | ].
  cbn [List.length Nat.eqb]. js_run. rewrite Hdel. js_run.
  eexists. split; [reflexivity | ]. js_run.
  repeat split. now rewrite <- !app_assoc.
Qed.

(** X16. With no marked document the sweeper counts and stops there: it
    reports zero, leaves the collection as it is and never calls
    [deleteMany], so that a store that would reject the deletion does not
    fail the run. *)
Theorem sweeper_with_nothing_to_delete env w cs :
  configured (MONGODB_CONNECTION_STRING env) = Some cs ->
  fault env (Connect cs) = None ->
  fault env Ping = None ->
  (forall b, fault env (CountDocuments b) = None) ->
  filter warningSent (violations w) = [] ->
  let w' := snd (PurgeData.handler env w) in
  (exists ms, fst (PurgeData.handler env w) =
              Return {| purgedCount := 0; executionTimeMs := ms |}) /\
  violations w' = violations w /\
  calls_only (fun o => o <> DeleteMany) w w'.
Proof.
  intros Hcs Hcon Hping Hcount Hnone. cbv zeta.
  set (P := fun o : op => o <> DeleteMany).
  assert (PP : P Ping) by discriminate.
  assert (PC : forall s, P (Connect s)) by discriminate.
  assert (PN : forall b, P (CountDocuments b)) by discriminate.
  assert (PX : P Close) by discriminate.
  unfold PurgeData.handler. js_run.
  match goal with |- context [PurgeData.getMongoClient env ?x] =>
    pose proof (calls_only_logged P Info "Purge data function executed"
                  [JStr (toISOString env (clock w))] w : calls_only P w x) as K0;
    pose proof (purge_getMongoClient_calls env P PP PC x) as K1;
    destruct (purge_getMongoClient_ok env x cs Hcs Hcon Hping) as (w1 & E1 & V1 & C1) end.
  rewrite E1 in K1 |- *. js_run. cbn [violations snd] in V1, K1.
  pose proof (purge_countDocuments_calls env P false (PN false) w1) as K2.
  destruct (purge_countDocuments_ok env false w1 (Hcount false)) as (w2 & E2 & V2 & P2).
  rewrite E2 in K2 |- *. js_run. cbn [snd] in K2.
  assert (C2 : connected (purge w2)) by now rewrite P2.
  assert (N2 : filter warningSent (violations w2) = []) by now rewrite V2, V1.
  destruct (purgeProcessedViolations_nothing env w2 C2 (Hcount true) N2)
    as (w3 & E3 & V3 & P3 & T3).
  rewrite E3. js_run.
  pose proof (purge_countDocuments_calls env P false (PN false) w3) as K4.
  destruct (purge_countDocuments_ok env false w3 (Hcount false)) as (w4 & E4 & V4 & P4).
  rewrite E4 in K4 |- *. js_run. cbn [snd] in K4.
  match goal with |- context [PurgeData.cleanupResources env ?x] =>
    pose proof (purge_cleanupResources_calls env P PX x) as K5;
    destruct (purge_cleanupResources_releases env x) as (w5 & E5 & _ & V5 & _) end.
  rewrite E5 in K5 |- *. js_run. cbn [violations snd] in V5, K5.
  split; [eexists; reflexivity | ].
  split; [now rewrite V5, V4, V3, V2, V1 | ].
  apply (calls_only_trans P _ _ _ K0), (calls_only_trans P _ _ _ K1),
    (calls_only_trans P _ _ _ K2).
  apply (calls_only_trans P _ w3).
  { eexists. split; [exact T3 | ]. intros o [H|[H|[]]]; [injection H as <- | ]; discriminate. }
  apply (calls_only_trans P _ _ _ K4).
  refine (calls_only_trans P _ _ _ _ K5).
  apply (calls_only_logged P).
Qed.

Lemma sweeper_with_nothing_to_delete_witness :
  (exists ms,
     fst (PurgeData.handler (with_fault delete_rejects (sample_env (JBool false)))
            (fresh_world [sample_violation "u1" false; sample_violation "u2" false] registry))
     = Return {| purgedCount := 0; executionTimeMs := ms |}) /\
  violations (snd (PurgeData.handler (with_fault delete_rejects (sample_env (JBool false)))
                     (fresh_world [sample_violation "u1" false; sample_violation "u2" false]
                        registry)))
    = [sample_violation "u1" false; sample_violation "u2" false].
Proof.
  pose proof (sweeper_with_nothing_to_delete
                (with_fault delete_rejects (sample_env (JBool false)))
                (fresh_world [sample_violation "u1" false; sample_violation "u2" false] registry)
                "mongodb://localhost:27017" eq_refl eq_refl eq_refl (fun _ => eq_refl) eq_refl)
    as H.
  split; [exact (proj1 H) | exact (proj1 (proj2 H))].
Defined.

(** X17. When documents are marked and the store rejects [deleteMany],
    the run fails with the error of the store and deletes nothing; the
    error is logged by the function and again by the handler, nothing is
    counted afterwards, and the client is released all the same. *)
Theorem sweeper_rejected_delete_fails_the_run env w cs m :
  configured (MONGODB_CONNECTION_STRING env) = Some cs ->
  fault env (Connect cs) = None ->
  fault env Ping = None ->
  (forall b, fault env (CountDocuments b) = None) ->
  filter warningSent (violations w) <> [] ->
  fault env DeleteMany = Some m ->
  let w' := snd (PurgeData.handler env w) in
  fst (PurgeData.handler env w) = Throw m /\
  violations w' = violations w /\
  client (purge w') = None /\
  exists pre closing,
    trace w' =
      pre ++ [Called DeleteMany;
              Logged Error "Failed to purge processed violations" [JStr m];
              Logged Error "Error during purge operation" [JStr m]] ++ closing /\
    forall ev, In ev closing -> ev = Called Close.
Proof.
  intros Hcs Hcon Hping Hcount Hsome Hdel. cbv zeta.
  unfold PurgeData.handler. js_run.
  match goal with |- context [PurgeData.getMongoClient env ?x] =>
    destruct (purge_getMongoClient_ok env x cs Hcs Hcon Hping) as (w1 & E1 & V1 & C1) end.
  rewrite E1. js_run. cbn [violations] in V1.
  destruct (purge_countDocuments_ok env false w1 (Hcount false)) as (w2 & E2 & V2 & P2).
  rewrite E2. js_run.
  assert (C2 : connected (purge w2)) by now rewrite P2.
  assert (N2 : filter warningSent (violations w2) <> []) by now rewrite V2, V1.
  destruct (purgeProcessedViolations_rejected env w2 m C2 (Hcount true) N2 Hdel)
    as (w3 & E3 & V3 & P3 & T3).
  rewrite E3. js_run.
  match goal with |- context [PurgeData.cleanupResources env ?x] =>
    destruct (purge_cleanupResources_releases env x) as (w5 & E5 & C5 & V5 & es & T5 & Hes) end.
  rewrite E5. js_run. cbn [violations trace] in V5, T5.
  split; [reflexivity | ].
  split; [now rewrite V5, V3, V2, V1 | ].
  split; [exact C5 | ].
  exists (trace w2 ++ [Called (CountDocuments true);
                       Logged Info "Found processed violations to purge"
                         [JInt (List.length (filter warningSent (violations w2)))]]), es.
  split; [ | exact Hes].
  rewrite T5, T3, <- !app_assoc. reflexivity.
Qed.

Lemma sweeper_rejected_delete_fails_the_run_witness :
  fst (PurgeData.handler (with_fault delete_rejects (sample_env (JBool false)))
         five_sent_two_unsent) = Throw "not primary" /\
  violations (snd (PurgeData.handler (with_fault delete_rejects (sample_env (JBool false)))
                     five_sent_two_unsent)) = violations five_sent_two_unsent.
Proof.
  pose proof (sweeper_rejected_delete_fails_the_run
                (with_fault delete_rejects (sample_env (JBool false)))
                five_sent_two_unsent "mongodb://localhost:27017" "not primary"
                eq_refl eq_refl eq_refl (fun _ => eq_refl)) as H.
  cbv zeta in H.
  assert (N : filter warningSent (violations five_sent_two_unsent) <> []) by discriminate.
  specialize (H N eq_refl).
  split; [exact (proj1 H) | exact (proj1 (proj2 H))].
Defined.

(** ** The scanner without its e-mail configuration *)

Lemma processViolation_without_email env v w :
  email_ready env w = false ->
  ScanViolations.processViolation env v w =
    (Return false,
     set_trace
       (trace w ++
          [Logged Info "Processing violation" [JStr (violationId v); vehicleId v];
           Logged Error "Error processing violation"
             [JStr (violationId v);
              JStr (not_configured "COMMUNICATION_SERVICES_CONNECTION_STRING")]]) w).
Proof.
  unfold email_ready. intros H.
  unfold ScanViolations.processViolation, ScanViolations.sendViolationEmail,
    ScanViolations.getEmailClient.
  js_run. destruct (emailClient w); [discriminate | ].
  destruct (configured (COMMUNICATION_SERVICES_CONNECTION_STRING env)); [discriminate | ].
  js_run. now rewrite <- app_assoc.
Qed.

Lemma processViolations_without_email env vs :
  forall w s f,
    email_ready env w = false ->
    let run := ScanViolations.processViolations env vs s f w in
    fst run = Return (s, f + List.length vs) /\
    violations (snd run) = violations w /\
    calls_only (fun _ => False) w (snd run) /\
    forall v, In v vs ->
      In (Logged Error "Error processing violation"
            [JStr (violationId v);
             JStr (not_configured "COMMUNICATION_SERVICES_CONNECTION_STRING")])
         (trace (snd run)).
Proof.
  induction vs as [|v rest IH]; intros w s f Hr; cbv zeta.
  - cbn [ScanViolations.processViolations ret fst snd List.length].
    rewrite Nat.add_0_r. repeat split; [apply calls_only_refl | intros v []].
  - cbn [ScanViolations.processViolations]. unfold bind.
    rewrite (processViolation_without_email env v w Hr).
    match goal with |- context [ScanViolations.processViolations env rest s (S f) ?x] =>
      set (w1 := x) end.
    assert (Hr1 : email_ready env w1 = false) by exact Hr.
    destruct (IH w1 s (S f) Hr1) as (R & V & K & L). cbv zeta in R, V, K, L.
    split; [rewrite R; cbn [List.length]; f_equal; f_equal; lia | ].
    split; [exact V | ].
    assert (K1 : calls_only (fun _ => False) w w1).
    { eexists. split; [reflexivity | ]. intros o [H|[H|[]]]; discriminate H. }
    split; [exact (calls_only_trans _ _ _ _ K1 K) | ].
    intros x [<-|Hx]; [ | now apply L].
    destruct K as (es & T & _). rewrite T.
    apply in_or_app. left. apply in_or_app. right. right. now left.
Qed.

Lemma getUnsentViolations_calls env (P : op -> Prop) :
  P Find -> (forall cs, P (Connect cs)) ->
  keeps (calls_only P) (ScanViolations.getUnsentViolations env).
Proof.
  intros HF HC.
  unfold ScanViolations.getUnsentViolations, ScanViolations.getMongoClient,
    context_log, context_error.
  calls P.
Qed.

Lemma scanner_cleanupResources_run env (P : op -> Prop) w :
  P Close ->
  violations (snd (ScanViolations.cleanupResources env w)) = violations w /\
  calls_only P w (snd (ScanViolations.cleanupResources env w)) /\
  (fault env Close = None -> fst (ScanViolations.cleanupResources env w) = Return tt).
Proof.
  intros HP. split; [ | split].
  - unfold ScanViolations.cleanupResources, await. js_run.
    destruct (client (scanner w)); js_run; [destruct (fault env Close) | ]; reflexivity.
  - revert w. change (keeps (calls_only P) (ScanViolations.cleanupResources env)).
    unfold ScanViolations.cleanupResources. calls P.
  - intros Hc. unfold ScanViolations.cleanupResources, await. js_run.
    destruct (client (scanner w)); js_run; rewrite ?Hc; reflexivity.
Qed.

(** X18. Without an e-mail client and without
    [COMMUNICATION_SERVICES_CONNECTION_STRING] the run is not aborted:
    every unsent document fails on its own in the loop, with the error of
    [getEmailClient] logged for it; no e-mail call and no update is made,
    the collection stays as it is, the report counts zero successes, and
    the run returns normally when the close is acknowledged. *)
Theorem scanner_without_email_configuration env w :
  scanner_usable env w ->
  fault env Find = None ->
  email_ready env w = false ->
  let found := filter unsent (violations w) in
  let w' := snd (ScanViolations.handler env w) in
  violations w' = violations w /\
  calls_only no_notification w w' /\
  (fault env Close = None -> fst (ScanViolations.handler env w) = Return tt) /\
  (forall v, In v found ->
     In (Logged Error "Error processing violation"
           [JStr (violationId v);
            JStr (not_configured "COMMUNICATION_SERVICES_CONNECTION_STRING")])
        (trace w')) /\
  (found <> [] ->
   In (Logged Info "Violation processing completed" [JInt 0; JInt (List.length found)])
      (trace w')).
Proof.
  intros U Hf Hr found. cbv zeta.
  set (P := no_notification).
  unfold ScanViolations.handler. js_run.
  match goal with |- context [ScanViolations.getUnsentViolations env ?x] => set (w0 := x) end.
  assert (K0 : calls_only P w w0) by apply (calls_only_logged P).
  assert (U0 : scanner_usable env w0) by exact U.
  pose proof (getUnsentViolations_calls env P I (fun _ => I) w0) as K1.
  destruct (getUnsentViolations_finds env w0 U0 Hf) as (R1 & (Sv & _) & _ & Ec1 & _).
  change (violations w0) with (violations w) in R1, Sv.
  change (emailClient w0) with (emailClient w) in Ec1.
  clearbody w0.
  destruct (ScanViolations.getUnsentViolations env w0) as [r1 w1]. cbn [fst snd] in *. subst r1.
  assert (Hr1 : email_ready env w1 = false) by now rewrite (email_ready_ext env w w1 Ec1).
  fold found. destruct found as [|v0 rest] eqn:Hfound; js_run.
  - match goal with |- context [ScanViolations.cleanupResources env ?x] =>
      set (w2 := x);
      assert (K2 : calls_only P w1 w2) by apply (calls_only_logged P);
      destruct (scanner_cleanupResources_run env P w2 I) as (V3 & K3 & R3);
      change (violations w2) with (violations w1) in V3; clearbody w2
    end.
    destruct (ScanViolations.cleanupResources env w2) as [[[]|e] w3]; cbn [fst snd] in *.
    all: split; [now rewrite V3 | ].
    all: split; [exact (calls_only_trans P _ _ _ K0
                          (calls_only_trans P _ _ _ K1 (calls_only_trans P _ _ _ K2 K3))) | ].
    all: split; [intros Hc; first [reflexivity | discriminate (R3 Hc)] | ].
    all: split; [intros v [] | congruence].
  - destruct (processViolations_without_email env (v0 :: rest) w1 0 0 Hr1) as (R2 & V2 & K2 & L2).
    cbv zeta in R2, V2, K2, L2.
    destruct (ScanViolations.processViolations env (v0 :: rest) 0 0 w1) as [r2 w2].
    cbn [fst snd] in *. subst r2. js_run.
    match goal with |- context [ScanViolations.cleanupResources env ?x] =>
      set (w3 := x);
      assert (T3 : trace w3 = trace w2 ++
                     [Logged Info "Violation processing completed"
                        [JInt 0; JInt (S (List.length rest))]]) by reflexivity;
      assert (K3 : calls_only P w2 w3) by apply (calls_only_logged P);
      destruct (scanner_cleanupResources_run env P w3 I) as (V4 & K4 & R4);
      change (violations w3) with (violations w2) in V4; clearbody w3
    end.
    assert (K2' : calls_only P w1 w2).
    { destruct K2 as (es & T & H). exists es. split; [exact T | ].
      intros o Ho. destruct (H o Ho). }
    destruct K4 as (es4 & T4 & H4).
    assert (K4 : calls_only P w3 (snd (ScanViolations.cleanupResources env w3)))
      by (exists es4; now split).
    destruct (ScanViolations.cleanupResources env w3) as [[[]|e] w4]; cbn [fst snd] in *.
    all: split; [now rewrite V4, V2 | ].
    all: split; [exact (calls_only_trans P _ _ _ K0
                          (calls_only_trans P _ _ _ K1
                             (calls_only_trans P _ _ _ K2'
                                (calls_only_trans P _ _ _ K3 K4)))) | ].
    all: split; [intros Hc; first [reflexivity | discriminate (R4 Hc)] | ].
    all: split; [intros v Hv; rewrite T4, T3; apply in_or_app; left; apply in_or_app; left;
                 now apply L2 | ].
    all: intros _; rewrite T4, T3; apply in_or_app; left; apply in_or_app; right; now left.
Qed.

Lemma scanner_without_email_configuration_witness :
  violations (snd (ScanViolations.handler
                     (without_email_configuration (sample_env (JBool false))) three_unsent))
    = violations three_unsent /\
  fst (ScanViolations.handler
         (without_email_configuration (sample_env (JBool false))) three_unsent) = Return tt.
Proof.
  assert (U : scanner_usable (without_email_configuration (sample_env (JBool false)))
                three_unsent).
  { right. split; [reflexivity | ].
    exists "mongodb://localhost:27017". split; reflexivity. }
  pose proof (scanner_without_email_configuration
                (without_email_configuration (sample_env (JBool false)))
                three_unsent U eq_refl eq_refl) as H.
  cbv zeta in H.
  split; [exact (proj1 H) | exact (proj1 (proj2 (proj2 H)) eq_refl)].
Defined.

(** ** The generator *)


Lemma generateGpsPoints_stages env request :
  GenerateGpsData.handler env request =
  (context_log "Processing request to generate GPS points" [] ;;
   try_catch
     (requestData <- request_data env request ;; generate env requestData)
     (fun error =>
        context_error "Error processing request:" [JStr error] ;;
        ret (Status500 ("Failed to process request: " ++ error)%string))).
Proof. reflexivity. Qed.









(** X22. A body that cannot be read is answered in the [catch] of the
    parse, which calls [context.log.warn].  Where that method exists the
    request goes on as one without a body, with the same response and the
    same message; where it does not, its [TypeError] is what the request
    fails with: a 500, nothing drawn, nothing sent. *)
Theorem generator_unreadable_body env parseError w :
  let run := GenerateGpsData.handler env (MalformedBody parseError) w in
  (log_has_warn env = true ->
   fst run = fst (GenerateGpsData.handler env EmptyBody w) /\
   queue (snd run) = queue (snd (GenerateGpsData.handler env EmptyBody w)) /\
   In (Logged Warn "Failed to parse request body, using defaults" [JStr parseError])
      (trace (snd run))) /\
  (log_has_warn env = false ->
   fst run = Return (Status500
                       "Failed to process request: context.log.warn is not a function") /\
   queue (snd run) = queue w /\
   drawn (snd run) = drawn w /\
   trace (snd run) =
     trace w ++ [Logged Info "Processing request to generate GPS points" [];
                 Logged Error "Error processing request:"
                   [JStr "context.log.warn is not a function"]]).
Proof.
  cbv zeta. rewrite !generateGpsPoints_stages.
  unfold request_data, generate. split; intros Hw; js_run; rewrite Hw; js_run.
  - unfold member. js_run.
    unfold send_message, GenerateGpsData.getServiceBusSender,
      GenerateGpsData.getServiceBusClient, await.
    js_run.
    destruct (serviceBusSenderInstance w);
      [ | destruct (serviceBusClientInstance w);
          [ | destruct (configured (SERVICE_BUS_CONNECTION_STRING env))] ];
      js_run;
      try (destruct (fault env (SendMessages _)); js_run).
    all: split; [reflexivity | split; [reflexivity | ]].
    all: rewrite !in_app_iff; cbn [In]; auto 10.
  - repeat split. now rewrite <- app_assoc.
Qed.

Lemma generator_unreadable_body_witness :
  fst (GenerateGpsData.handler (sample_env (JBool false)) (MalformedBody "Unexpected token")
         (fresh_world [] registry)) =
    Return (Status500 "Failed to process request: context.log.warn is not a function") /\
  queue (snd (GenerateGpsData.handler (sample_env (JBool false))
                (MalformedBody "Unexpected token") (fresh_world [] registry))) = [].
Proof.
  pose proof (proj2 (generator_unreadable_body (sample_env (JBool false)) "Unexpected token"
                       (fresh_world [] registry)) eq_refl) as H.
  split; [exact (proj1 H) | exact (proj1 (proj2 H))].
Defined.











#[local] Set Warnings "-abstract-large-number".




(** ** From the generator through the consumer to the scanner *)



(** ** A scan followed by a sweep *)

Lemma scanner_run_status env w :
  scanner_usable env w ->
  fault env Find = None ->
  NoDup (map violationId (violations w)) ->
  let ok := filter (notified env (email_ready env w)) (filter unsent (violations w)) in
  status (violations (snd (ScanViolations.handler env w))) =
    status_after (map violationId ok) (status (violations w)).
Proof.
  intros U Hf Hnd. cbv zeta.
  unfold ScanViolations.handler. js_run.
  match goal with |- context [ScanViolations.getUnsentViolations env ?x] => set (w0 := x) end.
  assert (U0 : scanner_usable env w0) by exact U.
  destruct (getUnsentViolations_finds env w0 U0 Hf) as (R1 & (Sv & _) & Hc1 & Ec1 & _).
  change (violations w0) with (violations w) in R1, Sv.
  change (emailClient w0) with (emailClient w) in Ec1.
  clearbody w0.
  destruct (ScanViolations.getUnsentViolations env w0) as [r1 w1]. cbn [fst snd] in *. subst r1.
  destruct (filter unsent (violations w)) as [|v0 rest] eqn:Hfound; js_run.
  - match goal with |- context [ScanViolations.cleanupResources env ?x] =>
      destruct (scanner_cleanupResources_run env (fun _ => True) x I) as (V3 & _);
      destruct (ScanViolations.cleanupResources env x) as [[[]|e] w3]
    end; cbn [fst snd violations] in *;
      cbn [filter map]; now rewrite status_after_nil, V3, Sv.
  - assert (Hnd1 : NoDup (map violationId (violations w1))) by now rewrite Sv.
    destruct (processViolations_spec env (v0 :: rest) w1 0 0 Hc1 Hnd1) as (_ & _ & St2 & _).
    cbv zeta in St2. rewrite (email_ready_ext env w w1 Ec1) in St2.
    destruct (ScanViolations.processViolations env (v0 :: rest) 0 0 w1) as [r2 w2].
    cbn [fst snd] in *. destruct r2 as [[s f]|e]; js_run.
    all: match goal with |- context [ScanViolations.cleanupResources ?en ?x] =>
           destruct (scanner_cleanupResources_run en (fun _ => True) x I) as (V3 & _);
           destruct (ScanViolations.cleanupResources en x) as [[[]|e'] w3]
         end; cbn [fst snd violations] in *; now rewrite V3, St2, Sv.
Qed.

Lemma same_identifier docs (a b : violation) :
  NoDup (map violationId docs) ->
  In a docs -> In b docs -> violationId a = violationId b -> a = b.
Proof.
  induction docs as [|d docs IH]; intros Hnd Ha Hb E; [destruct Ha | ].
  cbn [map] in Hnd. inversion Hnd as [|x l Hx Hl]; subst.
  destruct Ha as [<-|Ha], Hb as [<-|Hb].
  - reflexivity.
  - exfalso. apply Hx. rewrite E. now apply in_map.
  - exfalso. apply Hx. rewrite <- E. now apply in_map.
  - now apply IH.
Qed.

(** What is unsent after some documents were marked: the unsent ones
    among those that were not. *)
Lemma unsent_after_marking (p : violation -> bool) ids :
  forall docs docs',
    Forall2 marked_or_same docs docs' ->
    status docs' = status_after ids (status docs) ->
    (forall d, In d docs -> warningSent d = false ->
               existsb (String.eqb (violationId d)) ids = p d) ->
    filter unsent docs' = filter (fun v => negb (p v)) (filter unsent docs).
Proof.
  induction 1 as [|d d' l l' Hd _ IH]; intros Hs Hp; [reflexivity | ].
  cbn [status status_after map fst snd] in Hs. injection Hs as _ Hsent Hs.
  specialize (IH Hs (fun x Hx => Hp x (or_intror Hx))).
  cbn [filter].
  change (unsent d') with (negb (warningSent d')).
  change (unsent d) with (negb (warningSent d)).
  destruct (warningSent d) eqn:Sd.
  - cbn [orb] in Hsent. rewrite Hsent. cbn [negb]. exact IH.
  - cbn [orb] in Hsent. rewrite (Hp d (or_introl eq_refl) Sd) in Hsent.
    rewrite Hsent. cbn [negb filter]. destruct (p d) eqn:Pd; cbn [negb]; [exact IH | ].
    destruct Hd as [->|[now ->]]; [now rewrite IH | discriminate Hsent].
Qed.

(** What a scan leaves unsent: the unsent documents whose notification
    failed, as they were. *)
Lemma unsent_after_scan env w :
  scanner_usable env w ->
  fault env Find = None ->
  NoDup (map violationId (violations w)) ->
  filter unsent (violations (snd (ScanViolations.handler env w))) =
    filter (fun v => negb (notified env (email_ready env w) v))
           (filter unsent (violations w)).
Proof.
  intros U Hf Hnd.
  destruct (scanner_handler_only_marks env w) as [F _].
  apply (unsent_after_marking (notified env (email_ready env w)) _ _ _ F
           (scanner_run_status env w U Hf Hnd)).
  intros d Hd Sd.
  destruct (notified env (email_ready env w) d) eqn:N.
  - apply existsb_exists. exists (violationId d). split; [ | apply String.eqb_refl].
    apply in_map. apply filter_In. split; [ | exact N].
    apply filter_In. split; [exact Hd | ]. unfold unsent. now rewrite Sd.
  - destruct (existsb (String.eqb (violationId d)) _) eqn:E; [ | reflexivity].
    apply existsb_exists in E as (i & Hi & Ei). apply String.eqb_eq in Ei. subst i.
    apply in_map_iff in Hi as (d2 & E2 & H2).
    apply filter_In in H2 as (H2 & N2). apply filter_In in H2 as (H2 & _).
    rewrite (same_identifier _ d2 d Hnd H2 Hd E2) in N2. congruence.
Qed.

Lemma scan_then_sweep_survivors env w cs :
  scanner_usable env w ->
  fault env Find = None ->
  NoDup (map violationId (violations w)) ->
  configured (MONGODB_CONNECTION_STRING env) = Some cs ->
  fault env (Connect cs) = None ->
  fault env Ping = None ->
  (forall b, fault env (CountDocuments b) = None) ->
  fault env DeleteMany = None ->
  let scanned := snd (ScanViolations.handler env w) in
  let swept := snd (PurgeData.handler env scanned) in
  violations swept =
    filter (fun v => negb (notified env (email_ready env w) v))
           (filter unsent (violations w)).
Proof.
  intros U Hf Hnd Hcs Hcon Hping Hcount Hdel. cbv zeta.
  rewrite (proj2 (purgeData_deletes_sent env _ cs Hcs Hcon Hping Hcount Hdel)).
  now apply unsent_after_scan.
Qed.

(** X25. A scan followed by a sweep, over a store with distinct
    identifiers and with the sweeper's calls answered.  What is left in
    the collection is exactly the documents that were unsent and whose
    notification failed in the scan, unchanged and in their order:
    whatever was marked, before or by the scan, is gone, and nothing that
    still awaits its e-mail is. *)
Theorem scan_then_sweep_leaves_the_failed env w cs :
  scanner_usable env w ->
  fault env Find = None ->
  NoDup (map violationId (violations w)) ->
  configured (MONGODB_CONNECTION_STRING env) = Some cs ->
  fault env (Connect cs) = None ->
  fault env Ping = None ->
  (forall b, fault env (CountDocuments b) = None) ->
  fault env DeleteMany = None ->
  let scanned := snd (ScanViolations.handler env w) in
  let swept := snd (PurgeData.handler env scanned) in
  violations swept =
    filter (fun v => negb (notified env (email_ready env w) v))
           (filter unsent (violations w)).
Proof. exact (scan_then_sweep_survivors env w cs). Qed.

Lemma scan_then_sweep_leaves_the_failed_witness :
  violations
    (snd (PurgeData.handler (with_fault notifier_rejects_v2 (sample_env (JBool false)))
            (snd (ScanViolations.handler
                    (with_fault notifier_rejects_v2 (sample_env (JBool false)))
                    three_unsent)))) = [sample_violation "v2" false].
Proof.
  assert (U : scanner_usable (with_fault notifier_rejects_v2 (sample_env (JBool false)))
                three_unsent).
  { right. split; [reflexivity | ].
    exists "mongodb://localhost:27017". split; reflexivity. }
  assert (N : NoDup (map violationId (violations three_unsent))).
  { repeat constructor; cbn; intuition discriminate. }
  exact (scan_then_sweep_leaves_the_failed
           (with_fault notifier_rejects_v2 (sample_env (JBool false)))
           three_unsent "mongodb://localhost:27017" U eq_refl N
           eq_refl eq_refl eq_refl (fun _ => eq_refl) eq_refl).
Defined.

(** ** Each handler and the state of the others *)

Lemma same_refl {X} (f : World -> X) w : same f w w.
Proof. reflexivity. Qed.

Lemma same_trans {X} (f : World -> X) w1 w2 w3 :
  same f w1 w2 -> same f w2 w3 -> same f w1 w3.
Proof. unfold same. congruence. Qed.

Lemma same_modify {X} (f : World -> X) (g : World -> World) :
  (forall w, f (g w) = f w) -> keeps (same f) (modify g).
Proof. intros H w. apply H. Qed.

Lemma same_await {X} (f : World -> X) env o :
  (forall w t c, f (set_clock c (set_trace t w)) = f w) -> keeps (same f) (await env o).
Proof. intros H w. unfold await. destruct (fault env o); apply H. Qed.

Lemma same_randomUUID {X} (f : World -> X) env :
  (forall w n, f (set_drawn n w) = f w) -> keeps (same f) (crypto_randomUUID env).
Proof. intros H w. apply H. Qed.

Ltac same_step f :=
  first
    [ apply (same_modify f); intros ?; reflexivity
    | apply (same_await f); intros ? ? ?; reflexivity
    | apply (same_randomUUID f); intros ? ?; reflexivity
    | frame1 (same_refl f) (same_trans f) ].

Lemma processGpsData_same env message :
  keeps (same (fun w => (scanner w, emailClient w, purge w, queue w,
                         serviceBusClientInstance w, serviceBusSenderInstance w)))
        (ProcessGpsData.handler env message).
Proof.
  unfold ProcessGpsData.handler, destructure, GeofenceService.isWithinGeofence,
    StoreViolationService.findVehicleUser, StoreViolationService.storeViolation,
    StoreViolationService.getMongoClient, context_log, context_warn, context_error, emit.
  repeat same_step (fun w => (scanner w, emailClient w, purge w, queue w,
                              serviceBusClientInstance w, serviceBusSenderInstance w)).
Qed.

Lemma processViolations_same env vs :
  forall s f,
    keeps (same (fun w => (service w, purge w, queue w, userVehicles w, drawn w,
                           serviceBusClientInstance w, serviceBusSenderInstance w)))
          (ScanViolations.processViolations env vs s f).
Proof.
  induction vs as [|v rest IH]; intros s f; cbn [ScanViolations.processViolations].
  - apply keeps_ret, same_refl.
  - apply (keeps_bind _ (same_trans _)); [ | intros [|]; apply IH].
    unfold ScanViolations.processViolation, ScanViolations.sendViolationEmail,
      ScanViolations.getEmailClient, ScanViolations.markViolationAsWarned,
      ScanViolations.getMongoClient, toFixed, context_log, context_error, emit.
    repeat same_step (fun w => (service w, purge w, queue w, userVehicles w, drawn w,
                                serviceBusClientInstance w, serviceBusSenderInstance w)).
Qed.

Lemma scanViolations_same env :
  keeps (same (fun w => (service w, purge w, queue w, userVehicles w, drawn w,
                         serviceBusClientInstance w, serviceBusSenderInstance w)))
        (ScanViolations.handler env).
Proof.
  unfold ScanViolations.handler, ScanViolations.getUnsentViolations,
    ScanViolations.getMongoClient, ScanViolations.cleanupResources,
    context_log, context_error, emit.
  repeat first
    [ apply processViolations_same
    | same_step (fun w => (service w, purge w, queue w, userVehicles w, drawn w,
                           serviceBusClientInstance w, serviceBusSenderInstance w)) ].
Qed.

Lemma purgeData_same env :
  keeps (same (fun w => (service w, scanner w, emailClient w, queue w, userVehicles w,
                         drawn w, serviceBusClientInstance w, serviceBusSenderInstance w)))
        (PurgeData.handler env).
Proof.
  unfold PurgeData.handler, PurgeData.purgeProcessedViolations, PurgeData.countDocuments,
    PurgeData.getMongoClient, PurgeData.cleanupResources,
    context_log, context_error, emit.
  repeat same_step (fun w => (service w, scanner w, emailClient w, queue w, userVehicles w,
                              drawn w, serviceBusClientInstance w,
                              serviceBusSenderInstance w)).
Qed.

Lemma generateGpsPoints_same env request :
  keeps (same (fun w => (violations w, userVehicles w, service w, scanner w,
                         emailClient w, purge w)))
        (GenerateGpsData.handler env request).
Proof.
  unfold GenerateGpsData.handler, GenerateGpsData.getServiceBusSender,
    GenerateGpsData.getServiceBusClient, member,
    context_log, context_warn, context_error, emit.
  repeat first
    [ same_step (fun w => (violations w, userVehicles w, service w, scanner w,
                           emailClient w, purge w))
    | match goal with |- keeps _ (if ?b then _ else _) => destruct b end ].
Qed.

(** X26. Each handler keeps to its own module.  Whatever the
    environment does, the consumer leaves the scanner's, the sweeper's
    and the generator's connections and the queue alone; the scanner and
    the sweeper leave the service's connection, the ownership
    collection, the queue and the random source alone, and the sweeper
    also the scanner's clients; the generator leaves both collections
    and every database connection alone. *)
Theorem handlers_keep_to_their_module env w :
  (forall message,
     let w' := snd (ProcessGpsData.handler env message w) in
     scanner w' = scanner w /\ emailClient w' = emailClient w /\ purge w' = purge w /\
     queue w' = queue w /\ serviceBusSenderInstance w' = serviceBusSenderInstance w) /\
  (let w' := snd (ScanViolations.handler env w) in
   service w' = service w /\ purge w' = purge w /\ queue w' = queue w /\
   userVehicles w' = userVehicles w /\ drawn w' = drawn w) /\
  (let w' := snd (PurgeData.handler env w) in
   service w' = service w /\ scanner w' = scanner w /\ emailClient w' = emailClient w /\
   queue w' = queue w /\ userVehicles w' = userVehicles w /\ drawn w' = drawn w) /\
  (forall request,
     let w' := snd (GenerateGpsData.handler env request w) in
     violations w' = violations w /\ userVehicles w' = userVehicles w /\
     service w' = service w /\ scanner w' = scanner w /\
     emailClient w' = emailClient w /\ purge w' = purge w).
Proof.
  cbv zeta. split; [ | split; [ | split]].
  - intros message. pose proof (processGpsData_same env message w) as H.
    unfold same in H. injection H as H1 H2 H3 H4 H5 H6. repeat split; assumption.
  - pose proof (scanViolations_same env w) as H.
    unfold same in H. injection H as H1 H2 H3 H4 H5 H6 H7. repeat split; assumption.
  - pose proof (purgeData_same env w) as H.
    unfold same in H. injection H as H1 H2 H3 H4 H5 H6 H7 H8. repeat split; assumption.
  - intros request. pose proof (generateGpsPoints_same env request w) as H.
    unfold same in H. injection H as H1 H2 H3 H4 H5 H6. repeat split; assumption.
Qed.

(** ** From a fix to an empty collection *)

Lemma notified_when_all_resolve env ready v :
  (forall o, fault env o = None) ->
  notified env ready v = ready && is_number (latitude v) && is_number (longitude v).
Proof.
  intros Hf. unfold notified, delivered, resolves. rewrite !Hf.
  now rewrite !andb_true_r.
Qed.

(** X27. The pipeline end to end, with every driver call answered and
    the notifier configured.  A fix with numeric coordinates that is
    judged outside the geofence, for a vehicle that has an owner, is
    stored as an unsent violation under a fresh identifier; the next
    scan marks it and the next sweep removes it.  After the three runs
    the collection holds nothing but the documents that were unsent at
    the beginning and lack a numeric coordinate, which no scan can ever
    notify: the new violation is not among them. *)
Theorem violation_is_notified_then_swept env fields w fence r cs :
  let message := JObj fields in
  (forall o, fault env o = None) ->
  configured (MONGODB_CONNECTION_STRING env) = Some cs ->
  scanner_usable env w ->
  email_ready env w = true ->
  isWithinGeofence env (prop message "longitude") (prop message "latitude") = Return fence ->
  truthy fence = false ->
  find (vid_matches (prop message "vehicleId")) (userVehicles w) = Some r ->
  is_number (prop message "latitude") = true ->
  is_number (prop message "longitude") = true ->
  NoDup (map violationId (violations w)) ->
  ~ In (randomUUID env (drawn w)) (map violationId (violations w)) ->
  let stored := snd (ProcessGpsData.handler env message w) in
  let scanned := snd (ScanViolations.handler env stored) in
  let swept := snd (PurgeData.handler env scanned) in
  (exists d,
     violations stored = violations w ++ [d] /\
     violationId d = randomUUID env (drawn w) /\
     unsent d = true /\
     ~ In d (violations swept)) /\
  violations swept =
    filter (fun v => negb (is_number (latitude v) && is_number (longitude v)))
           (filter unsent (violations w)).
Proof.
  intros message Hf Hcs U Hready Hfence Ht Hr Hlat Hlon Hnd Hfresh. subst message.
  cbv zeta.
  destruct (processGpsData_stores env fields w fence r Hfence Ht Hr
              (Hf _) (Hf _) (fun doc => Hf _)) as (_ & _ & _ & now & V).
  pose proof (processGpsData_same env (JObj fields) w) as Hsame.
  unfold same in Hsame. injection Hsame as Hsc Hec _ _ _ _.
  set (stored := snd (ProcessGpsData.handler env (JObj fields) w)) in *.
  assert (U1 : scanner_usable env stored) by (unfold scanner_usable; now rewrite Hsc).
  assert (R1 : email_ready env stored = true)
    by now rewrite (email_ready_ext env w stored Hec).
  assert (N1 : NoDup (map violationId (violations stored))).
  { rewrite V, map_app. apply NoDup_snoc; assumption. }
  pose proof (scan_then_sweep_survivors env stored cs U1 (Hf _) N1 Hcs
                (Hf _) (Hf _) (fun b => Hf _) (Hf _)) as S.
  cbv zeta in S. rewrite R1 in S.
  assert (E : violations (snd (PurgeData.handler env (snd (ScanViolations.handler env stored))))
              = filter (fun v => negb (is_number (latitude v) && is_number (longitude v)))
                       (filter unsent (violations w))).
  { rewrite S, V, !filter_app. cbn [filter violation_of unsent warningSent negb].
    rewrite (notified_when_all_resolve env true _ Hf).
    cbn [latitude longitude violation_of vd_latitude vd_longitude].
    rewrite Hlat, Hlon. cbn [andb negb]. rewrite app_nil_r.
    apply filter_ext. intros v. now rewrite (notified_when_all_resolve env true v Hf). }
  split; [ | exact E].
  eexists. split; [exact V | ]. split; [reflexivity | ]. split; [reflexivity | ].
  rewrite E. intros Hin. apply filter_In in Hin as [_ Hin].
  cbn [latitude longitude violation_of vd_latitude vd_longitude] in Hin.
  rewrite Hlat, Hlon in Hin. discriminate Hin.
Qed.

Lemma violation_is_notified_then_swept_witness :
  violations
    (snd (PurgeData.handler (sample_env (JBool false))
            (snd (ScanViolations.handler (sample_env (JBool false))
                    (snd (ProcessGpsData.handler (sample_env (JBool false)) (fix_of "V1")
                            (fresh_world [] registry))))))) = [].
Proof.
  assert (U : scanner_usable (sample_env (JBool false)) (fresh_world [] registry)).
  { right. split; [reflexivity | ].
    exists "mongodb://localhost:27017". split; reflexivity. }
  exact (proj2 (violation_is_notified_then_swept (sample_env (JBool false))
                  [("timestamp", JStr "2025-01-01T00:00:00.000Z");
                   ("vehicleId", JStr "V1");
                   ("latitude", JNum (50 # 1));
                   ("longitude", JNum (50 # 1))]
                  (fresh_world [] registry) (JBool false)
                  {| vid := "V1"; owner_email := "a@x.com" |}
                  "mongodb://localhost:27017"
                  (fun _ => eq_refl) eq_refl U eq_refl eq_refl eq_refl eq_refl
                  eq_refl eq_refl (NoDup_nil _) (fun H => H))).
Defined.

(** ** One scan after another *)



(** X29. The scanner does not keep a failed connection.  When the run
    has to connect and [connect()] is rejected, the run fails with that
    error, logged by [getUnsentViolations] and by the handler, nothing
    was queried or changed, and the cleanup, its [close()] acknowledged,
    resets the module: the next run connects afresh. *)
Theorem scanner_failed_connect_is_reset env w cs m :
  client (scanner w) = None ->
  configured (MONGODB_CONNECTION_STRING env) = Some cs ->
  fault env (Connect cs) = Some m ->
  fault env Close = None ->
  let w' := snd (ScanViolations.handler env w) in
  fst (ScanViolations.handler env w) = Throw m /\
  scanner w' = disconnected /\
  violations w' = violations w /\
  trace w' =
    trace w ++ [Logged Info "Violation scanner timer trigger function started" [];
                Called (Connect cs);
                Logged Error "Failed to fetch unsent violations" [JStr m];
                Logged Error "Function execution failed" [JStr m];
                Called Close].
Proof.
  intros Hc Hcs Hcon Hclose. cbv zeta.
  unfold ScanViolations.handler, ScanViolations.getUnsentViolations,
    ScanViolations.getMongoClient, ScanViolations.cleanupResources, await.
  js_run. rewrite Hc, Hcs. js_run. rewrite Hcon. js_run. rewrite Hclose. js_run.
  repeat split. now rewrite <- !app_assoc.
Qed.

Lemma scanner_failed_connect_is_reset_witness :
  fst (ScanViolations.handler (with_fault connect_rejects (sample_env (JBool false)))
         three_unsent) = Throw "server selection timed out" /\
  scanner (snd (ScanViolations.handler (with_fault connect_rejects (sample_env (JBool false)))
                  three_unsent)) = disconnected.
Proof.
  pose proof (scanner_failed_connect_is_reset
                (with_fault connect_rejects (sample_env (JBool false)))
                three_unsent "mongodb://localhost:27017" "server selection timed out"
                eq_refl eq_refl eq_refl eq_refl) as H.
  cbv zeta in H. split; [exact (proj1 H) | exact (proj1 (proj2 H))].
Defined.
